(** * A shallow embedding of the travel-planner pipeline

    The development follows [src/tools.py] (the two search connectors) and
    [src/agents.py] (the five stages that [src/workflow.py] runs in a row).

    - Python values are an inductive type, dictionaries are finite maps, a
      [str] is a [string] whose characters are code points below 256.
    - Exceptions are explicit: a computation is a [Result], [Ok] or [Raise].
    - The list [notes] of the state is shared and appended to in place; a
      stage is a [Run]: what it returns or raises, and the content of that
      list when it exits.
    - Every call that leaves the repository (the search provider, the
      language model, pydantic) is a field of a [World] record, over which
      the theorems quantify.
    - [models.py] is not among the sources: its classes are modelled from
      the specification, and say so. *)

From Stdlib Require Import ZArith String Ascii Floats Lia.
From stdpp Require Import base option list gmap strings pretty.

Set Warnings "-register-all".

Open Scope string_scope.
Open Scope Z_scope.
Open Scope list_scope.

(** ** Python values *)

(** The values that travel through [user_info], the search results and the
    tool outputs: what [json] and [model_dump()] produce. *)
Inductive pyval :=
| VNone
| VBool (b : bool)
| VInt (n : Z)
| VFloat (f : float)
| VStr (s : string)
| VList (l : list pyval)
| VDict (d : gmap string pyval).

Abbreviation pydict := (gmap string pyval).

(** [bool(v)]: the test behind [if v], [not v], [a or b] and [all([...])]. *)
Definition truthy (v : pyval) : bool :=
  match v with
  | VNone => false
  | VBool b => b
  | VInt n => negb (n =? 0)
  | VFloat f => negb (PrimFloat.eqb f 0%float)
  | VStr s => negb (bool_decide (s = ""))
  | VList l => match l with [] => false | _ => true end
  | VDict d => negb (bool_decide (d = ∅))
  end.

(** [a or b]. *)
Definition py_or (a b : pyval) : pyval := if truthy a then a else b.

(** [all(vs)]. *)
Definition py_all (vs : list pyval) : bool := forallb truthy vs.

(** ** Exceptions *)

Inductive exn_class :=
| ValidationError
| ValueError
| KeyError
| TypeError
| AttributeError
| OverflowError
| OtherException.

(** An exception object: its class, its [str(e)] and, for a pydantic
    [ValidationError], the text of [e.errors()]. *)
Record exn := Exn {
  exn_cls : exn_class;
  exn_str : string;
  exn_errors : string }.

Definition is_ValidationError (e : exn) : bool :=
  match exn_cls e with ValidationError => true | _ => false end.

Inductive Result (A : Type) :=
| Ok (a : A)
| Raise (e : exn).
Arguments Ok {A} a.
Arguments Raise {A} e.

#[global] Instance Result_ret : MRet Result := fun A a => Ok a.

#[global] Instance Result_bind : MBind Result := fun A B k r =>
  match r with
  | Ok a => k a
  | Raise e => Raise e
  end.

#[global] Instance Result_fmap : FMap Result := fun A B f r =>
  match r with
  | Ok a => Ok (f a)
  | Raise e => Raise e
  end.

Definition raise_attr {A} (ty attr : string) : Result A :=
  Raise (Exn AttributeError
           ("'" +:+ ty +:+ "' object has no attribute '" +:+ attr +:+ "'") "").

Definition raise_type {A} (msg : string) : Result A :=
  Raise (Exn TypeError msg "").

(** [type(v).__name__]. *)
Definition type_name (v : pyval) : string :=
  match v with
  | VNone => "NoneType"
  | VBool _ => "bool"
  | VInt _ => "int"
  | VFloat _ => "float"
  | VStr _ => "str"
  | VList _ => "list"
  | VDict _ => "dict"
  end.

(** [d.get(k)] and [d.get(k, dflt)] on a dictionary. *)
Definition dict_get (d : pydict) (k : string) (dflt : pyval) : pyval :=
  default dflt (d !! k).

(** [v.get(k, dflt)] on an arbitrary value: only a dictionary has [get]. *)
Definition py_get (v : pyval) (k : string) (dflt : pyval) : Result pyval :=
  match v with
  | VDict d => Ok (dict_get d k dflt)
  | _ => raise_attr (type_name v) "get"
  end.

(** The characters of a string, as one-character strings. *)
Fixpoint chars (s : string) : list string :=
  match s with
  | EmptyString => []
  | String c s' => String c EmptyString :: chars s'
  end.

(** [iter(v)]: what a [for] loop over [v] visits.  A dictionary yields its
    keys, a string its characters. *)
Definition py_iter (v : pyval) : Result (list pyval) :=
  match v with
  | VList l => Ok l
  | VStr s => Ok (VStr <$> chars s)
  | VDict d => Ok (VStr <$> (map_to_list d).*1)
  | _ => raise_type ("'" +:+ type_name v +:+ "' object is not iterable")
  end.

Fixpoint string_take (n : nat) (s : string) : string :=
  match n, s with
  | S n', String c s' => String c (string_take n' s')
  | _, _ => EmptyString
  end.

(** [v[:n]]: lists and strings can be sliced, nothing else here can. *)
Definition py_slice_to (n : nat) (v : pyval) : Result pyval :=
  match v with
  | VList l => Ok (VList (take n l))
  | VStr s => Ok (VStr (string_take n s))
  | VDict _ => raise_type "unhashable type: 'slice'"
  | _ => raise_type ("'" +:+ type_name v +:+ "' object is not subscriptable")
  end.

(** [isinstance(v, (int, float))]; [bool] is a subclass of [int]. *)
Definition is_int_or_float (v : pyval) : bool :=
  match v with
  | VBool _ | VInt _ | VFloat _ => true
  | _ => false
  end.

(** ** Strings *)

(** [sep.join(l)]. *)
Fixpoint join (sep : string) (l : list string) : string :=
  match l with
  | [] => ""
  | [x] => x
  | x :: l' => x +:+ sep +:+ join sep l'
  end.

(** [sub in s], as a proposition. *)
Definition contains (sub s : string) : Prop :=
  exists pre post, s = pre +:+ sub +:+ post.

(** [c.isspace()] for a code point below 256: tab to carriage return, the
    four separators, the space, NEL and the no-break space. *)
Definition is_space (c : ascii) : bool :=
  let n := nat_of_ascii c in
  ((9 <=? n)%nat && (n <=? 13)%nat) || ((28 <=? n)%nat && (n <=? 32)%nat)
  || (n =? 133)%nat || (n =? 160)%nat.

Fixpoint lstrip (s : string) : string :=
  match s with
  | String c s' => if is_space c then lstrip s' else s
  | EmptyString => EmptyString
  end.

Fixpoint rstrip (s : string) : string :=
  match s with
  | EmptyString => EmptyString
  | String c s' =>
      match rstrip s' with
      | EmptyString => if is_space c then EmptyString else String c EmptyString
      | r => String c r
      end
  end.

(** [s.strip()]. *)
Definition strip (s : string) : string := rstrip (lstrip s).

(** [c.lower()] for a code point below 256: the capitals [A] to [Z] and
    the accented capitals 192 to 222, the multiplication sign apart. *)
Definition lower_ascii (c : ascii) : ascii :=
  let n := nat_of_ascii c in
  if ((65 <=? n)%nat && (n <=? 90)%nat)
     || ((192 <=? n)%nat && (n <=? 222)%nat && negb (n =? 215)%nat)
  then ascii_of_nat (n + 32) else c.

(** [s.lower()]. *)
Fixpoint lower (s : string) : string :=
  match s with
  | EmptyString => EmptyString
  | String c s' => String (lower_ascii c) (lower s')
  end.

(** [s.replace(' ', '_')]. *)
Fixpoint replace_space (s : string) : string :=
  match s with
  | EmptyString => EmptyString
  | String c s' =>
      String (if Ascii.eqb c " " then "_"%char else c) (replace_space s')
  end.

(** [s.split(c)] for a one-character separator: never an empty list. *)
Fixpoint split_on (c : ascii) (s : string) : list string :=
  match s with
  | EmptyString => [EmptyString]
  | String a s' =>
      if Ascii.eqb a c then EmptyString :: split_on c s'
      else match split_on c s' with
           | x :: r => String a x :: r
           | [] => [String a EmptyString]
           end
  end.

(** [s.split(':', 1)] when [':' in s]: the text before the first colon and
    the text after it; [None] when the line has no colon. *)
Fixpoint split_colon (s : string) : option (string * string) :=
  match s with
  | EmptyString => None
  | String a s' =>
      if Ascii.eqb a ":" then Some (EmptyString, s')
      else match split_colon s' with
           | Some (k, v) => Some (String a k, v)
           | None => None
           end
  end.

Definition newline : ascii := ascii_of_nat 10.

(** ** Calendar dates *)

(** A [datetime] produced by [strptime(s, '%Y-%m-%d')]: midnight of a
    calendar day, so only the day matters. *)
Record date := Date { year : Z; month : Z; day : Z }.

Definition is_leap (y : Z) : bool :=
  (y mod 4 =? 0) && (negb (y mod 100 =? 0) || (y mod 400 =? 0)).

Definition days_in_month (y m : Z) : Z :=
  if m =? 2 then (if is_leap y then 29 else 28)
  else if (m =? 4) || (m =? 6) || (m =? 9) || (m =? 11) then 30
  else 31.

Definition days_before_year (y : Z) : Z :=
  let p := y - 1 in p * 365 + p / 4 - p / 100 + p / 400.

Fixpoint days_before_month_aux (y : Z) (m : nat) : Z :=
  match m with
  | O => 0
  | S m' => days_before_month_aux y m' + days_in_month y (Z.of_nat m)
  end.

(** Days of the year [y] that precede the first day of month [m]. *)
Definition days_before_month (y m : Z) : Z :=
  days_before_month_aux y (Z.to_nat (m - 1)).

(** [date.toordinal()]: 1 for the first of January of year 1. *)
Definition toordinal (d : date) : Z :=
  days_before_year (year d) + days_before_month (year d) (month d) + day d.

Definition valid_date (y m d : Z) : bool :=
  (1 <=? y) && (1 <=? m) && (m <=? 12) && (1 <=? d) && (d <=? days_in_month y m).

Definition is_digit (c : ascii) : bool :=
  let n := nat_of_ascii c in (48 <=? n)%nat && (n <=? 57)%nat.

Definition digit (c : ascii) : Z := Z.of_nat (nat_of_ascii c) - 48.

(** The [%m] directive: [1[0-2]|0[1-9]|[1-9]]. *)
Definition month_field (cs : list ascii) : option Z :=
  match cs with
  | [a; b] =>
      if is_digit a && is_digit b then
        let v := 10 * digit a + digit b in
        if (1 <=? v) && (v <=? 12) then Some v else None
      else None
  | [a] => if is_digit a && (1 <=? digit a) then Some (digit a) else None
  | _ => None
  end.

(** The [%d] directive: [3[0-1]|[1-2]\d|0[1-9]|[1-9]| [1-9]]. *)
Definition day_field (cs : list ascii) : option Z :=
  match cs with
  | [a; b] =>
      if is_digit a && is_digit b then
        let v := 10 * digit a + digit b in
        if (1 <=? v) && (v <=? 31) then Some v else None
      else if Ascii.eqb a " " && is_digit b && (1 <=? digit b)
      then Some (digit b)
      else None
  | [a] => if is_digit a && (1 <=? digit a) then Some (digit a) else None
  | _ => None
  end.

(** The [%Y] directive: exactly four digits. *)
Definition year_field (cs : list ascii) : option Z :=
  match cs with
  | [a; b; c; d] =>
      if is_digit a && is_digit b && is_digit c && is_digit d
      then Some (1000 * digit a + 100 * digit b + 10 * digit c + digit d)
      else None
  | _ => None
  end.

(** [datetime.strptime(s, '%Y-%m-%d')]: [None] stands for the [ValueError]
    raised when the text does not match the format, when data remains after
    the day, or when the day does not exist. *)
Definition strptime (s : string) : option date :=
  match split_on "-" s with
  | [ys; ms; ds] =>
      y ← year_field (list_ascii_of_string ys);
      m ← month_field (list_ascii_of_string ms);
      d ← day_field (list_ascii_of_string ds);
      if valid_date y m d then Some (Date y m d) else None
  | _ => None
  end.

(** [(end_date - start_date).days + 1]. *)
Definition calculated_num_days (start_date end_date : date) : Z :=
  toordinal end_date - toordinal start_date + 1.

(** ** The schema classes

    [models.py] is not part of the sources: its classes are taken from the
    data model of the specification and from the fields the stages read and
    write. *)

(** Modelled from the spec: the class [Flight] of [models.py], the
    [FlightOption] of the data model, six text fields. *)
Record Flight := mkFlight {
  airline : string;
  departure_time : string;
  arrival_time : string;
  departure_airport : string;
  arrival_airport : string;
  price : string }.

(** Modelled from the spec: the class [Hotel] of [models.py], the
    [HotelOption] of the data model; the rating is the value the
    constructor validated ([None] or a number). *)
Record Hotel := mkHotel {
  hotel_name : string;
  price_per_night : string;
  rating : pyval;
  amenities : list string;
  address : string;
  description : string;
  perks : string }.

(** Modelled from the spec: the class [ItineraryActivityDetail] of
    [models.py], the [ActivityDetail] of the data model. *)
Record ItineraryActivityDetail := mkActivity {
  activity_name : string;
  activity_description : string;
  ticket_price : string;
  best_time_to_visit : string }.

(** Modelled from the spec: the class [TravelOption] of [models.py]. *)
Record TravelOption := mkTravelOption {
  method : string;
  option_description : string }.

(** Modelled from the spec: the class [ResearchDetail] of [models.py]. *)
Record ResearchDetail := mkResearchDetail {
  title : string;
  research_notes : string }.

(** Modelled from the spec: the class [DestinationInformation] of
    [models.py], what the Destination stage asks the model for. *)
Record DestinationInformation := mkDestinationInformation {
  activities : list ItineraryActivityDetail;
  local_travel_options : list TravelOption;
  destination_research : list ResearchDetail }.

(** Modelled from the spec: the class [ExtractedTripInfo] of [models.py],
    the record the Info Extraction stage asks the model for.  The stage
    reads the two dates as text and reads and writes [num_days]; the
    remaining declared fields only pass through [model_dump()], and are
    kept as the dictionary they dump to. *)
Record ExtractedTripInfo := mkExtractedTripInfo {
  departure_date : string;
  return_date : string;
  num_days : pyval;
  other_fields : pydict }.

(** Modelled from the spec: the class [FullTravelItinerary] of
    [models.py], the document the Itinerary Compiler asks the model for, as
    its [model_dump()]: the diagnostic notes, a list of text when the schema
    declares the key, and the other keys. *)
Record FullTravelItinerary := mkFullTravelItinerary {
  notes_and_warnings : option (list string);
  itinerary_fields : pydict }.

(** The placeholders of the hotel augmentation prompt. *)
Record AugmentationInput := mkAugmentationInput {
  aug_hotel_name : string;
  aug_hotel_city : pyval;
  aug_hotel_rating : string;
  aug_hotel_amenities : string }.

(** The placeholders of the itinerary prompt. *)
Record ItineraryInput := mkItineraryInput {
  in_user_info : pydict;
  in_flights_json : list pyval;
  in_augmented_hotel_details_objects_json : list pyval;
  in_activities_list_json : list pyval;
  in_travel_options_json : list pyval;
  in_research_details_json : list pyval;
  in_notes : list string;
  in_num_days : Z }.

(** ** The world outside the repository *)

Record World := mkWorld {
  (** [config.SERPAPI_API_KEY] *)
  SERPAPI_API_KEY : string;
  (** [repr(v)], used by [str] and f-strings for floats and containers *)
  py_repr : pyval -> string;
  (** the text of the [ValidationError] of the named schema class *)
  pydantic_message : string -> string;
  (** the text of [e.errors()] for that [ValidationError] *)
  pydantic_errors : string -> string;
  (** pydantic's conversion to [int] of a value that is not an [int] *)
  pydantic_int : pyval -> option Z;
  (** pydantic's validation of the rating given to [Hotel], [None] when it
      is rejected *)
  pydantic_rating : pyval -> option pyval;
  (** [GoogleSearch(params).get_dict()] *)
  GoogleSearch : pydict -> Result pydict;
  (** the Info Extraction chain, on [json.dumps(user_info)] *)
  extractor_chain : pydict -> Result ExtractedTripInfo;
  (** the Destination chain, on its query text *)
  info_agent_chain : string -> Result DestinationInformation;
  (** the hotel augmentation chain, by call number *)
  augmentation_chain : nat -> AugmentationInput -> Result string;
  (** the itinerary chain *)
  structured_itinerary_chain : ItineraryInput -> Result FullTravelItinerary;
  (** the dump of the validated final document, [None] when the
      [FinalFullTravelItinerary] constructor raises its [ValidationError] *)
  FinalFullTravelItinerary : pydict -> option pydict }.

(** [str(v)] and the [{v}] of an f-string. *)
Definition py_str (w : World) (v : pyval) : string :=
  match v with
  | VNone => "None"
  | VBool true => "True"
  | VBool false => "False"
  | VInt n => pretty n
  | VStr s => s
  | _ => py_repr w v
  end.

Definition validation_error (w : World) (cls : string) : exn :=
  Exn ValidationError (pydantic_message w cls) (pydantic_errors w cls).

(** Modelled from the spec: the validation of a field that the data model
    declares as text; pydantic takes a [str] and rejects the rest. *)
Definition as_str (w : World) (cls : string) (v : pyval) : Result string :=
  match v with
  | VStr s => Ok s
  | _ => Raise (validation_error w cls)
  end.

(** Modelled from the spec: the validation of a field that the data model
    declares as a list of text. *)
Fixpoint as_str_list (w : World) (cls : string) (l : list pyval)
  : Result (list string) :=
  match l with
  | [] => Ok []
  | v :: l' =>
      s ← as_str w cls v;
      r ← as_str_list w cls l';
      Ok (s :: r)
  end.

(** Modelled from the spec: the constructor of [Flight],
    [Flight(airline=.., departure_time=.., ..)]. *)
Definition Flight_new (w : World) (a dt at_ da aa p : pyval) : Result Flight :=
  a' ← as_str w "Flight" a;
  dt' ← as_str w "Flight" dt;
  at' ← as_str w "Flight" at_;
  da' ← as_str w "Flight" da;
  aa' ← as_str w "Flight" aa;
  p' ← as_str w "Flight" p;
  Ok (mkFlight a' dt' at' da' aa' p').

(** Modelled from the spec: the constructor of [Hotel],
    [Hotel(hotel_name=.., price_per_night=.., rating=.., amenities=..,
    address=.., description=.., perks=..)]. *)
Definition Hotel_new (w : World) (n p r am : pyval) (ad de pe : string)
  : Result Hotel :=
  n' ← as_str w "Hotel" n;
  p' ← as_str w "Hotel" p;
  r' ← match pydantic_rating w r with
       | Some r' => Ok r'
       | None => Raise (validation_error w "Hotel")
       end;
  am' ← match am with
        | VList l => as_str_list w "Hotel" l
        | _ => Raise (validation_error w "Hotel")
        end;
  Ok (mkHotel n' p' r' am' ad de pe).

(** [model_dump()] of the classes above. *)
Definition Flight_dump (f : Flight) : pyval :=
  VDict {[ "airline" := VStr (airline f);
           "departure_time" := VStr (departure_time f);
           "arrival_time" := VStr (arrival_time f);
           "departure_airport" := VStr (departure_airport f);
           "arrival_airport" := VStr (arrival_airport f);
           "price" := VStr (price f) ]}.

Definition Hotel_dump (h : Hotel) : pyval :=
  VDict {[ "hotel_name" := VStr (hotel_name h);
           "price_per_night" := VStr (price_per_night h);
           "rating" := rating h;
           "amenities" := VList (VStr <$> amenities h);
           "address" := VStr (address h);
           "description" := VStr (description h);
           "perks" := VStr (perks h) ]}.

Definition Activity_dump (a : ItineraryActivityDetail) : pyval :=
  VDict {[ "activity_name" := VStr (activity_name a);
           "description" := VStr (activity_description a);
           "ticket_price" := VStr (ticket_price a);
           "best_time_to_visit" := VStr (best_time_to_visit a) ]}.

Definition TravelOption_dump (o : TravelOption) : pyval :=
  VDict {[ "method" := VStr (method o);
           "description" := VStr (option_description o) ]}.

Definition ResearchDetail_dump (r : ResearchDetail) : pyval :=
  VDict {[ "title" := VStr (title r); "notes" := VStr (research_notes r) ]}.

Definition ExtractedTripInfo_dump (e : ExtractedTripInfo) : pydict :=
  <[ "departure_date" := VStr (departure_date e) ]>
    (<[ "return_date" := VStr (return_date e) ]>
       (<[ "num_days" := num_days e ]> (other_fields e))).

Definition FullTravelItinerary_dump (d : FullTravelItinerary) : pydict :=
  match notes_and_warnings d with
  | Some l => <[ "notes_and_warnings" := VList (VStr <$> l) ]> (itinerary_fields d)
  | None => delete "notes_and_warnings" (itinerary_fields d)
  end.

(** Running a loop body over a list, stopping at the first exception. *)
Fixpoint traverse {A B} (f : A -> Result B) (l : list A) : Result (list B) :=
  match l with
  | [] => Ok []
  | x :: l' =>
      y ← f x;
      r ← traverse f l';
      Ok (y :: r)
  end.

(** ** [tools.py] *)

Definition flights_reply (source destination : string) (flights : list pyval)
    (note : option string) : pydict :=
  let d : pydict := {[ "source" := VStr source;
                       "destination" := VStr destination;
                       "flights" := VList flights ]} in
  match note with
  | Some n => <[ "note" := VStr n ]> d
  | None => d
  end.

(** One turn of the loop over the legs of [best_flights[0]]. *)
Definition simplified_flight (w : World) (best0 leg : pyval) : Result pyval :=
  a ← py_get leg "airline" (VStr "Unknown");
  dep ← py_get leg "departure_airport" (VDict ∅);
  dt ← py_get dep "time" (VStr "N/A");
  arr ← py_get leg "arrival_airport" (VDict ∅);
  at_ ← py_get arr "time" (VStr "N/A");
  dep' ← py_get leg "departure_airport" (VDict ∅);
  da ← py_get dep' "name" (VStr "Unknown");
  arr' ← py_get leg "arrival_airport" (VDict ∅);
  aa ← py_get arr' "name" (VStr "Unknown");
  p ← py_get best0 "price" (VStr "N/A");
  Ok (VDict {[ "airline" := a;
               "departure_time" := dt;
               "arrival_time" := at_;
               "departure_airport" := da;
               "arrival_airport" := aa;
               "price" := VStr (py_str w p) ]}).

(** [params] of [fetch_flights]. *)
Definition flight_params (w : World)
    (source destination departure_date return_date : string) : pydict :=
  {[ "engine" := VStr "google_flights";
     "departure_id" := VStr source;
     "arrival_id" := VStr destination;
     "outbound_date" := VStr departure_date;
     "return_date" := VStr return_date;
     "stops" := VStr "2";
     "currency" := VStr "USD";
     "hl" := VStr "en";
     "api_key" := VStr (SERPAPI_API_KEY w) ]}.

Definition fetch_flights (w : World)
    (source destination departure_date return_date : string) : Result pydict :=
  let params := flight_params w source destination departure_date return_date in
  match GoogleSearch w params with
  | Raise e =>
      Ok (flights_reply source destination []
            (Some ("Error fetching flights: " +:+ exn_str e)))
  | Ok results =>
      let best_flights := dict_get results "best_flights" (VList []) in
      if negb (truthy best_flights) then
        Ok (flights_reply source destination [] (Some "No flight options found."))
      else
        let no_legs :=
          flights_reply source destination []
            (Some "No detailed flight legs found within the best flight option.") in
        match best_flights with
        | VList (best0 :: _) =>
            legs ← py_get best0 "flights" VNone;
            if truthy legs then
              legs' ← py_get best0 "flights" (VList []);
              items ← py_iter legs';
              simplified_flights ← traverse (simplified_flight w best0) items;
              Ok (flights_reply source destination simplified_flights None)
            else Ok no_legs
        | _ => Ok no_legs
        end
  end.

Definition price_ranges (budget_lower : string) : option (Z * Z) :=
  if bool_decide (budget_lower = "economy") then Some (50, 175)
  else if bool_decide (budget_lower = "standard") then Some (176, 300)
  else if bool_decide (budget_lower = "luxury") then Some (301, 10000)
  else None.

Definition hotels_reply (place : string) (hotels : list pyval)
    (note : option string) : pydict :=
  let d : pydict := {[ "place" := VStr place; "hotels" := VList hotels ]} in
  match note with
  | Some n => <[ "note" := VStr n ]> d
  | None => d
  end.

(** One turn of the loop over the search results. *)
Definition hotel_info (result : pyval) : Result pyval :=
  name ← py_get result "name" VNone;
  rate ← py_get result "rate_per_night" (VDict ∅);
  lowest ← py_get rate "lowest" VNone;
  price' ← (if truthy lowest then Ok lowest else py_get result "price" VNone);
  overall ← py_get result "overall_rating" VNone;
  rating' ← (if truthy overall then Ok overall else py_get result "rating" VNone);
  am ← py_get result "amenities" (VList []);
  Ok (VDict {[ "hotel_name" := name;
               "price_per_night" := price';
               "rating" := rating';
               "amenities" := am ]}).

(** [params] of [hotel_search], with the price band of the budget. *)
Definition hotel_params (w : World) (place check_in_date check_out_date : string)
    (number_of_adults : Z) (budget : option string) : pydict :=
  let params : pydict :=
    {[ "engine" := VStr "google_hotels";
       "q" := VStr place;
       "check_in_date" := VStr check_in_date;
       "check_out_date" := VStr check_out_date;
       "adults" := VInt number_of_adults;
       "currency" := VStr "USD";
       "hl" := VStr "en";
       "api_key" := VStr (SERPAPI_API_KEY w) ]} in
  match budget with
  | Some b =>
      if truthy (VStr b) then
        match price_ranges (lower b) with
        | Some (lo, hi) =>
            <[ "max_price" := VInt hi ]> (<[ "min_price" := VInt lo ]> params)
        | None => params
        end
      else params
  | None => params
  end.

Definition hotel_search (w : World) (place check_in_date check_out_date : string)
    (number_of_adults : Z) (budget : option string) : Result pydict :=
  let params :=
    hotel_params w place check_in_date check_out_date number_of_adults budget in
  match GoogleSearch w params with
  | Raise e =>
      Ok (hotels_reply place [] (Some ("Error fetching hotels: " +:+ exn_str e)))
  | Ok results =>
      let hotels_data_source := dict_get results "properties" (VList []) in
      let hotels_data_source :=
        if negb (truthy hotels_data_source)
        then dict_get results "ads" (VList [])
        else hotels_data_source in
      items ← py_iter hotels_data_source;
      simplified_hotels ← traverse hotel_info (take 2 items);
      match simplified_hotels with
      | [] => Ok (hotels_reply place [] (Some "No hotel options found."))
      | _ => Ok (hotels_reply place simplified_hotels None)
      end
  end.


(** ** [int(v)] *)

Fixpoint digits_value (acc : Z) (cs : list ascii) : option Z :=
  match cs with
  | [] => Some acc
  | c :: cs' =>
      if is_digit c then digits_value (10 * acc + digit c) cs'
      else if Ascii.eqb c "_" then
        match cs' with
        | d :: _ => if is_digit d then digits_value acc cs' else None
        | [] => None
        end
      else None
  end.

(** The white space [int] skips around a literal, for a code point below
    256: tab to carriage return and the space, NEL and the no-break space.
    The four separators 28 to 31, which [str.strip] removes, are not among
    them. *)
Definition is_int_space (c : ascii) : bool :=
  let n := nat_of_ascii c in
  ((9 <=? n)%nat && (n <=? 13)%nat) || (n =? 32)%nat
  || (n =? 133)%nat || (n =? 160)%nat.

Fixpoint int_lstrip (cs : list ascii) : list ascii :=
  match cs with
  | c :: cs' => if is_int_space c then int_lstrip cs' else cs
  | [] => []
  end.

Fixpoint int_rstrip (cs : list ascii) : list ascii :=
  match cs with
  | [] => []
  | c :: cs' =>
      match int_rstrip cs' with
      | [] => if is_int_space c then [] else [c]
      | r => c :: r
      end
  end.

(** [sys.get_int_max_str_digits()], which the repository leaves at its
    default. *)
Definition int_max_str_digits : nat := 4300.

(** The decimal literals [int] accepts: white space around, an optional
    sign, digits with single underscores between them, and no more digits
    than the limit of the interpreter. *)
Definition int_of_text (s : string) : option Z :=
  let unsigned (cs : list ascii) :=
    match cs with
    | c :: _ =>
        if is_digit c
           && (length (List.filter is_digit cs) <=? int_max_str_digits)%nat
        then digits_value 0 cs else None
    | [] => None
    end in
  match int_rstrip (int_lstrip (list_ascii_of_string s)) with
  | "-"%char :: cs => Z.opp <$> unsigned cs
  | "+"%char :: cs => unsigned cs
  | cs => unsigned cs
  end.

Definition int_of_float (f : float) : Result Z :=
  match Prim2SF f with
  | SpecFloat.S754_zero _ => Ok 0
  | SpecFloat.S754_finite sg m e =>
      let a := if 0 <=? e then Z.pos m * 2 ^ e else Z.pos m / 2 ^ (- e) in
      Ok (if sg then - a else a)
  | SpecFloat.S754_infinity _ =>
      Raise (Exn OverflowError "cannot convert float infinity to integer" "")
  | SpecFloat.S754_nan =>
      Raise (Exn ValueError "cannot convert float NaN to integer" "")
  end.

Definition py_int (w : World) (v : pyval) : Result Z :=
  match v with
  | VInt n => Ok n
  | VBool b => Ok (if b then 1 else 0)
  | VFloat f => int_of_float f
  | VStr s =>
      match int_of_text s with
      | Some n => Ok n
      | None =>
          Raise (Exn ValueError
                   ("invalid literal for int() with base 10: " +:+ py_repr w v) "")
      end
  | _ =>
      raise_type
        ("int() argument must be a string, a bytes-like object or a real number, not '"
           +:+ type_name v +:+ "'")
  end.

(** ** The state shared by the stages *)

(** Modelled from the spec: the class [TravelPlannerState] of [models.py],
    the [PipelineState] of the data model, with the keys the stages and
    [main.py] use.  A key that is not set is [None] here, a key set to
    Python's [None] is [Some VNone] (or [Some None] for the destination
    object). *)
Record TravelPlannerState := mkState {
  user_info : pydict;
  flight_results : option pyval;
  hotel_results : option pyval;
  destination_info_results : option (option DestinationInformation);
  final_itinerary : option pyval;
  notes : option (list string) }.

(** The dictionary a stage returns: the keys it sets. *)
Record Update := mkUpdate {
  new_user_info : option pydict;
  new_flight_results : option pydict;
  new_hotel_results : option pydict;
  new_destination_info_results : option (option DestinationInformation);
  new_final_itinerary : option pydict;
  new_notes : option (list string) }.

(** A run of a stage: what it returns or raises, and the content, when it
    exits, of the list it bound to [current_notes] (the list of the state
    itself when the state has one: every [append] is made in place). *)
Definition Run : Type := Result Update * list string.

(** [state.get("notes", [])]. *)
Definition notes_of (s : TravelPlannerState) : list string := default [] (notes s).

(** The fields for which [not user_info.get(f)]. *)
Definition missing_info (ui : pydict) (fields : list string) : list string :=
  List.filter (fun f => negb (truthy (dict_get ui f VNone))) fields.

(** ** [agents.py]: the Info Extraction stage *)

Definition num_days_note : string :=
  "Could not calculate number of days from provided dates. Using LLM's or default.".

Definition extracted_note : string :=
  "User information successfully extracted and standardized.".

Definition set_num_days (e : ExtractedTripInfo) (v : pyval) : ExtractedTripInfo :=
  mkExtractedTripInfo (departure_date e) (return_date e) v (other_fields e).

(** The inner [try]: the record after it, and whether the handler ran. *)
Definition recompute_num_days (e : ExtractedTripInfo) : ExtractedTripInfo * bool :=
  match strptime (departure_date e) with
  | Some start_date =>
      match strptime (return_date e) with
      | Some end_date =>
          (set_num_days e (VInt (calculated_num_days start_date end_date)), false)
      | None => (e, true)
      end
  | None => (e, true)
  end.

Definition extractor_error_msg (e : exn) : string :=
  if is_ValidationError e then
    "Failed to extract structured information due to Pydantic validation: "
      +:+ exn_str e +:+ ". Errors: " +:+ exn_errors e
  else
    "An unexpected error occurred during Info Extractor Agent processing: "
      +:+ exn_str e.

Definition info_extractor_agent_node (w : World) (s : TravelPlannerState) : Run :=
  let current_notes := notes_of s in
  match extractor_chain w (user_info s) with
  | Ok extracted_data =>
      let '(extracted_data, failed) := recompute_num_days extracted_data in
      let current_notes :=
        if failed then current_notes ++ [num_days_note] else current_notes in
      let updated_user_info :=
        ExtractedTripInfo_dump extracted_data ∪ user_info s in
      let current_notes := current_notes ++ [extracted_note] in
      (Ok (mkUpdate (Some updated_user_info) None None None None
             (Some current_notes)), current_notes)
  | Raise e =>
      let current_notes := current_notes ++ [extractor_error_msg e] in
      (Ok (mkUpdate (Some (user_info s)) None None None None
             (Some current_notes)), current_notes)
  end.

(** ** The Flight stage *)

(** [all_tools[0].invoke(args)]: the arguments are checked against
    [FlightInput], four [str] fields, then [fetch_flights] runs. *)
Definition invoke_fetch_flights (w : World)
    (source destination dep ret : pyval) : Result pydict :=
  source' ← as_str w "FlightInput" source;
  destination' ← as_str w "FlightInput" destination;
  dep' ← as_str w "FlightInput" dep;
  ret' ← as_str w "FlightInput" ret;
  fetch_flights w source' destination' dep' ret'.

Definition flight_fields : list string :=
  ["source_iata"; "destination_iata"; "departure_date"; "return_date"].

(** [except ValidationError] around a constructor call: the entry is left
    out, any other exception goes on. *)
Definition skip_invalid {A} (r : Result A) : Result (option A) :=
  match r with
  | Ok a => Ok (Some a)
  | Raise e => if is_ValidationError e then Ok None else Raise e
  end.

(** One turn of the loop over [tool_output["flights"]]. *)
Definition flight_of_data (w : World) (flight_data : pyval)
  : Result (option Flight) :=
  a ← py_get flight_data "airline" (VStr "Unknown Airline");
  dt ← py_get flight_data "departure_time" (VStr "N/A");
  at_ ← py_get flight_data "arrival_time" (VStr "N/A");
  da ← py_get flight_data "departure_airport" (VStr "Unknown Departure Airport");
  aa ← py_get flight_data "arrival_airport" (VStr "Unknown Arrival Airport");
  p ← py_get flight_data "price" (VStr "N/A");
  skip_invalid (Flight_new w a dt at_ da aa (VStr (py_str w p))).

(** The body of the [try] of the Flight stage: [flight_info_for_state] and
    the note to append, if any. *)
Definition flight_agent_try (w : World) (ui : pydict)
  : Result (pydict * option string) :=
  let source_iata := dict_get ui "source_iata" VNone in
  let destination_iata := dict_get ui "destination_iata" VNone in
  let dep := dict_get ui "departure_date" VNone in
  let ret := dict_get ui "return_date" VNone in
  if negb (py_all [source_iata; destination_iata; dep; ret]) then
    Raise (Exn ValueError
             ("Missing required flight parameters from user_info: "
                +:+ join ", " (missing_info ui flight_fields)) "")
  else
    tool_output ← invoke_fetch_flights w source_iata destination_iata dep ret;
    flights ←
      (if truthy (VDict tool_output)
          && truthy (dict_get tool_output "flights" VNone)
       then
         items ← py_iter (dict_get tool_output "flights" VNone);
         omap id <$> traverse (flight_of_data w) items
       else Ok []);
    let flight_info_for_state : pydict :=
      {[ "flights" := VList (Flight_dump <$> flights);
         "note" := dict_get tool_output "note" (VStr "Flight search completed.") ]} in
    let note := dict_get tool_output "note" VNone in
    Ok (flight_info_for_state,
        if truthy note then Some (py_str w note) else None).

Definition flight_agent_node (w : World) (s : TravelPlannerState) : Run :=
  let current_notes := notes_of s in
  match flight_agent_try w (user_info s) with
  | Ok (flight_info_for_state, note) =>
      let current_notes := current_notes ++ option_list note in
      (Ok (mkUpdate None (Some flight_info_for_state) None None None
             (Some current_notes)), current_notes)
  | Raise e =>
      let error_msg := "Error during Flight Agent processing: " +:+ exn_str e in
      let current_notes := current_notes ++ [error_msg] in
      (Ok (mkUpdate None
             (Some {[ "flights" := VList []; "note" := VStr error_msg ]})
             None None None (Some current_notes)), current_notes)
  end.


(** ** The Hotel stage *)

(** A field declared [int]: an [int] is taken as it is, any other value goes
    through pydantic's conversion. *)
Definition as_int (w : World) (cls : string) (v : pyval) : Result Z :=
  match v with
  | VInt n => Ok n
  | _ =>
      match pydantic_int w v with
      | Some n => Ok n
      | None => Raise (validation_error w cls)
      end
  end.

(** A field declared [Optional[str]]. *)
Definition as_optional_str (w : World) (cls : string) (v : pyval)
  : Result (option string) :=
  match v with
  | VNone => Ok None
  | VStr s => Ok (Some s)
  | _ => Raise (validation_error w cls)
  end.

(** [all_tools[1].invoke(args)]: the arguments are checked against
    [HotelInput], then [hotel_search] runs. *)
Definition invoke_hotel_search (w : World)
    (place check_in check_out adults budget : pyval) : Result pydict :=
  place' ← as_str w "HotelInput" place;
  check_in' ← as_str w "HotelInput" check_in;
  check_out' ← as_str w "HotelInput" check_out;
  adults' ← as_int w "HotelInput" adults;
  budget' ← as_optional_str w "HotelInput" budget;
  hotel_search w place' check_in' check_out' adults' budget'.

Definition hotel_fields : list string :=
  ["hotel_city"; "departure_date"; "return_date"; "no_of_adults"].

(** The body of the [try] of the Hotel stage: the tool output and the note
    to append, if any. *)
Definition hotel_agent_try (w : World) (ui : pydict)
  : Result (pydict * option string) :=
  let hotel_city := dict_get ui "hotel_city" VNone in
  let check_in_date := dict_get ui "departure_date" VNone in
  let check_out_date := dict_get ui "return_date" VNone in
  let number_of_adults := dict_get ui "no_of_adults" (VInt 1) in
  let budget := dict_get ui "budget" VNone in
  if negb (py_all [hotel_city; check_in_date; check_out_date; number_of_adults])
  then
    Raise (Exn ValueError
             ("Missing required hotel parameters from user_info: "
                +:+ join ", " (missing_info ui hotel_fields)) "")
  else
    tool_output ← invoke_hotel_search w hotel_city check_in_date check_out_date
                     number_of_adults budget;
    let note := dict_get tool_output "note" VNone in
    Ok (tool_output, if truthy note then Some (py_str w note) else None).

Definition hotel_agent_node (w : World) (s : TravelPlannerState) : Run :=
  let current_notes := notes_of s in
  match hotel_agent_try w (user_info s) with
  | Ok (tool_output, note) =>
      let current_notes := current_notes ++ option_list note in
      (Ok (mkUpdate None None (Some tool_output) None None
             (Some current_notes)), current_notes)
  | Raise e =>
      let error_msg := "Hotel search failed: " +:+ exn_str e in
      let current_notes := current_notes ++ [error_msg] in
      (Ok (mkUpdate None None
             (Some {[ "hotels" := VList []; "note" := VStr error_msg ]})
             None None (Some current_notes)), current_notes)
  end.

(** ** The Destination stage *)

Definition nl : string := String newline EmptyString.

(** [query_input], built before the [try]. *)
Definition destination_query (w : World) (s : TravelPlannerState)
  : Result string :=
  let ui := user_info s in
  let flight_info := default (VDict ∅) (flight_results s) in
  let hotel_info := default (VDict ∅) (hotel_results s) in
  flights ← py_get flight_info "flights" (VStr "No flight info");
  flight_note ← py_get flight_info "note" (VStr (py_str w flights));
  hotels ← py_get hotel_info "hotels" (VStr "No hotel info");
  hotel_note ← py_get hotel_info "note" (VStr (py_str w hotels));
  Ok ("User destination: "
        +:+ py_str w (py_or (dict_get ui "destination" VNone)
                            (dict_get ui "hotel_city" VNone)) +:+ nl
        +:+ "Departure Date: " +:+ py_str w (dict_get ui "departure_date" VNone) +:+ nl
        +:+ "Return Date: " +:+ py_str w (dict_get ui "return_date" VNone) +:+ nl
        +:+ "Number of days: " +:+ py_str w (dict_get ui "num_days" (VStr "unknown")) +:+ nl
        +:+ "Activity Preferences: "
        +:+ py_str w (dict_get ui "activity_preferences" (VStr "no specific preferences")) +:+ nl
        +:+ "Budget Preference: " +:+ py_str w (dict_get ui "budget" (VStr "any")) +:+ nl +:+ nl
        +:+ "Flight info summary: " +:+ py_str w flight_note +:+ "." +:+ nl
        +:+ "Hotel info summary: " +:+ py_str w hotel_note +:+ ".").

Definition destination_error_msg (e : exn) : string :=
  if is_ValidationError e then
    "Failed to generate structured destination information due to Pydantic validation: "
      +:+ exn_str e +:+ ". Errors: " +:+ exn_errors e
  else
    "An unexpected error occurred during Destination Agent processing: "
      +:+ exn_str e.

Definition destination_agent_node (w : World) (s : TravelPlannerState) : Run :=
  let current_notes := notes_of s in
  match destination_query w s with
  | Raise e => (Raise e, current_notes)
  | Ok query_input =>
      match info_agent_chain w query_input with
      | Ok generated_info =>
          (Ok (mkUpdate None None None (Some (Some generated_info)) None None),
           current_notes)
      | Raise e =>
          let error_msg := destination_error_msg e in
          let current_notes := current_notes ++ [error_msg] in
          (* [state.get("notes", [])] read again: the list of the state is
             the one just appended to; without one it is a new empty list *)
          let state_notes :=
            match notes s with
            | Some _ => current_notes
            | None => []
            end in
          (Ok (mkUpdate None None None (Some None) None
                 (Some (state_notes ++ [error_msg]))), current_notes)
      end
  end.

(** ** The Itinerary Compiler stage *)

(** A loop that builds one record per entry inside
    [try: ... except ValidationError: current_notes.append(...)]: a rejected
    entry leaves a note, any other exception ends the loop and the stage. *)
Fixpoint collect {A} (f : pyval -> Result (A + string)) (items : list pyval)
    (ns : list string) : Result (list A) * list string :=
  match items with
  | [] => (Ok [], ns)
  | x :: rest =>
      match f x with
      | Raise e => (Raise e, ns)
      | Ok (inl a) =>
          let '(r, ns') := collect f rest ns in (cons a <$> r, ns')
      | Ok (inr note) => collect f rest (ns ++ [note])
      end
  end.

(** [except ValidationError as e: current_notes.append(note e)]. *)
Definition note_invalid {A} (note : exn -> string) (r : Result A)
  : Result (A + string) :=
  match r with
  | Ok a => Ok (inl a)
  | Raise e => if is_ValidationError e then Ok (inr (note e)) else Raise e
  end.

(** One turn of the loop over [hotel_results["hotels"]]. *)
Definition hotel_of_data (w : World) (hotel_data : pyval)
  : Result (Hotel + string) :=
  price_value ← py_get hotel_data "price_per_night" (VStr "N/A");
  let price_value :=
    if is_int_or_float price_value
    then VStr ("$" +:+ py_str w price_value) else price_value in
  name ← py_get hotel_data "hotel_name" (VStr "N/A");
  rating' ← py_get hotel_data "rating" VNone;
  am ← py_get hotel_data "amenities" (VList []);
  am5 ← py_slice_to 5 am;
  note_invalid
    (fun e => "Error preparing hotel data for augmentation: " +:+ exn_str e
                +:+ " for data: " +:+ py_str w hotel_data)
    (Hotel_new w name price_value rating' am5 "" "" "").

(** The dictionary read off the augmentation text: one entry per line that
    has a colon, a later line replacing an earlier one with the same label. *)
Definition augmented_details (text : string) : gmap string string :=
  foldl (fun d line =>
           match split_colon line with
           | Some (key, value) =>
               <[ replace_space (lower (strip key)) := strip value ]> d
           | None => d
           end) ∅ (split_on newline text).

(** What the augmentation chain is invoked with for [hotel_obj]. *)
Definition augmentation_input (w : World) (hotel_city_updated : pyval)
    (hotel_obj : Hotel) : AugmentationInput :=
  let hotel_rating :=
    match rating hotel_obj with
    | VNone => VStr "no rating"
    | r => r
    end in
  let joined := join ", " (amenities hotel_obj) in
  let hotel_amenities :=
    if bool_decide (joined = "") then "basic amenities" else joined in
  mkAugmentationInput (hotel_name hotel_obj) hotel_city_updated
    (py_str w hotel_rating) hotel_amenities.

(** One turn of the augmentation loop, for call number [i]: the record
    appended to [augmented_hotel_objects] and the note of the handler. *)
Definition augment_hotel (w : World) (i : nat) (hotel_city_updated : pyval)
    (hotel_obj : Hotel) : Hotel * option string :=
  match augmentation_chain w i
          (augmentation_input w hotel_city_updated hotel_obj) with
  | Ok augmentation_result_str =>
      let d := augmented_details augmentation_result_str in
      (mkHotel (hotel_name hotel_obj) (price_per_night hotel_obj)
         (rating hotel_obj) (amenities hotel_obj)
         (default (address hotel_obj) (d !! "address"))
         (default (description hotel_obj) (d !! "description"))
         (default (perks hotel_obj) (d !! "perks")), None)
  | Raise e =>
      (hotel_obj,
       Some ("Error during hotel augmentation for " +:+ hotel_name hotel_obj
               +:+ ": " +:+ exn_str e))
  end.

(** The augmentation loop over [hotel_updated], from call number [i]. *)
Fixpoint augment_hotels (w : World) (i : nat) (hotel_city_updated : pyval)
    (hotel_updated : list Hotel) (ns : list string) : list Hotel * list string :=
  match hotel_updated with
  | [] => ([], ns)
  | hotel_obj :: rest =>
      let '(h, note) := augment_hotel w i hotel_city_updated hotel_obj in
      let '(r, ns') :=
        augment_hotels w (S i) hotel_city_updated rest (ns ++ option_list note) in
      (h :: r, ns')
  end.

(** [hotel_updated]: the typed records built from [hotel_results]. *)
Definition itinerary_hotel_updated (w : World) (hotel_results : pyval)
    (ns : list string) : Result (list Hotel) * list string :=
  if truthy hotel_results then
    match py_get hotel_results "hotels" VNone with
    | Raise e => (Raise e, ns)
    | Ok hotels =>
        if truthy hotels then
          match py_iter hotels with
          | Raise e => (Raise e, ns)
          | Ok items => collect (hotel_of_data w) items ns
          end
        else (Ok [], ns)
    end
  else (Ok [], ns).

(** [augmented_hotel_objects]. *)
Definition itinerary_hotels (w : World) (s : TravelPlannerState)
    (ns : list string) : Result (list Hotel) * list string :=
  let hotel_results := default (VDict ∅) (hotel_results s) in
  match itinerary_hotel_updated w hotel_results ns with
  | (Raise e, ns') => (Raise e, ns')
  | (Ok hotel_updated, ns') =>
      let hotel_city_updated :=
        match hotel_results with
        | VDict d => dict_get d "place" (dict_get (user_info s) "hotel_city" VNone)
        | _ => VNone
        end in
      let '(augmented, ns'') :=
        augment_hotels w 0 hotel_city_updated hotel_updated ns' in
      (Ok augmented, ns'')
  end.

(** The [Flight] built from the keys of [flight_data], inside its [try]. *)
Definition flight_of_dict (w : World) (flight_data : pyval)
  : Result (Flight + string) :=
  match flight_data with
  | VDict d =>
      note_invalid
        (fun e => "Error parsing flight for prompt: " +:+ exn_str e
                    +:+ " - data: " +:+ py_str w flight_data)
        (Flight_new w (dict_get d "airline" VNone)
           (dict_get d "departure_time" VNone)
           (dict_get d "arrival_time" VNone)
           (dict_get d "departure_airport" VNone)
           (dict_get d "arrival_airport" VNone)
           (dict_get d "price" VNone))
  | _ =>
      raise_type ("src.models.Flight() argument after ** must be a mapping, not "
                    +:+ type_name flight_data)
  end.

(** [flights_for_prompt]. *)
Definition itinerary_flights (w : World) (s : TravelPlannerState)
    (ns : list string) : Result (list Flight) * list string :=
  let flight_results := default (VDict ∅) (flight_results s) in
  if truthy flight_results then
    match py_get flight_results "flights" VNone with
    | Raise e => (Raise e, ns)
    | Ok flights =>
        if truthy flights then
          match py_iter flights with
          | Raise e => (Raise e, ns)
          | Ok items => collect (flight_of_dict w) items ns
          end
        else (Ok [], ns)
    end
  else (Ok [], ns).

(** [activities_list], [travel_options] and [research_details]. *)
Definition destination_lists (o : option (option DestinationInformation))
  : list ItineraryActivityDetail * list TravelOption * list ResearchDetail :=
  match o with
  | Some (Some d) => (activities d, local_travel_options d, destination_research d)
  | _ => ([], [], [])
  end.

(** [int(user_info.get('num_days', 0))] inside [try: ... except ValueError]. *)
Definition itinerary_num_days (w : World) (ui : pydict) : Result Z :=
  match py_int w (dict_get ui "num_days" (VInt 0)) with
  | Ok n => Ok n
  | Raise e =>
      match exn_cls e with
      | ValueError => Ok 0
      | _ => Raise e
      end
  end.

(** Everything the stage does before it invokes the itinerary chain. *)
Definition itinerary_prepare (w : World) (s : TravelPlannerState)
  : Result ItineraryInput * list string :=
  match itinerary_hotels w s (notes_of s) with
  | (Raise e, ns) => (Raise e, ns)
  | (Ok augmented_hotel_objects, ns) =>
      let '(activities_list, travel_options, research_details) :=
        destination_lists (destination_info_results s) in
      match itinerary_flights w s ns with
      | (Raise e, ns') => (Raise e, ns')
      | (Ok flights_for_prompt, ns') =>
          match itinerary_num_days w (user_info s) with
          | Raise e => (Raise e, ns')
          | Ok num_days_int =>
              (Ok (mkItineraryInput (user_info s)
                     (Flight_dump <$> flights_for_prompt)
                     (Hotel_dump <$> augmented_hotel_objects)
                     (Activity_dump <$> activities_list)
                     (TravelOption_dump <$> travel_options)
                     (ResearchDetail_dump <$> research_details)
                     ns' num_days_int), ns')
          end
      end
  end.

Definition compilation_error_msg (e : exn) : string :=
  if is_ValidationError e then
    "ValidationError during structured itinerary compilation: "
      +:+ exn_str e +:+ ". Debugging info: " +:+ exn_errors e
  else
    "An unexpected error occurred during structured itinerary compilation: "
      +:+ exn_str e.

(** The degraded document of the two compilation handlers. *)
Definition partial_itinerary (current_notes : list string) : pydict :=
  {[ "notes_and_warnings" := VList (VStr <$> current_notes);
     "disclaimer" := VStr "Partial itinerary due to internal error." ]}.

(** The stage from the invocation of the itinerary chain on. *)
Definition itinerary_compile (w : World) (ui : pydict) (input : ItineraryInput)
    (current_notes : list string) : Update * list string :=
  match structured_itinerary_chain w input with
  | Raise e =>
      let current_notes := current_notes ++ [compilation_error_msg e] in
      (mkUpdate None None None None (Some (partial_itinerary current_notes)) None,
       current_notes)
  | Ok compiled_itinerary_object_partial =>
      let final_itinerary_data : pydict :=
        <[ "user_request_summary" := VDict ui ]>
          (FullTravelItinerary_dump compiled_itinerary_object_partial) in
      match FinalFullTravelItinerary w final_itinerary_data with
      | Some final_compiled_itinerary =>
          (mkUpdate None None None None (Some final_compiled_itinerary) None,
           current_notes)
      | None =>
          let e := validation_error w "FinalFullTravelItinerary" in
          let error_msg :=
            "Final Pydantic Validation Error for Full Travel Itinerary: "
              +:+ exn_str e +:+ ". Debugging info: " +:+ exn_errors e in
          let current_notes := current_notes ++ [error_msg] in
          let failed := "Validation failed for final itinerary: " +:+ exn_str e in
          let warnings :=
            default [] (notes_and_warnings compiled_itinerary_object_partial)
              ++ [failed] in
          (mkUpdate None None None None
             (Some (<[ "disclaimer" :=
                         VStr "Partial itinerary generated due to final validation error." ]>
                      (<[ "notes_and_warnings" := VList (VStr <$> warnings) ]>
                         final_itinerary_data))) None,
           current_notes)
      end
  end.

Definition itinerary_agent_node (w : World) (s : TravelPlannerState) : Run :=
  match itinerary_prepare w s with
  | (Raise e, ns) => (Raise e, ns)
  | (Ok input, ns) =>
      let '(u, ns') := itinerary_compile w (user_info s) input ns in (Ok u, ns')
  end.


(** ** Reading a search response the way the claims word it *)

(** The legs of a best-flight option: the list under its key [flights]. *)
Definition first_option_legs (best0 : pyval) : list pyval :=
  match best0 with
  | VDict d =>
      match d !! "flights" with
      | Some (VList legs) => legs
      | _ => []
      end
  | _ => []
  end.

(** The overall price of a best-flight option: [best0.get("price", "N/A")]. *)
Definition overall_price (best0 : pyval) : pyval :=
  match best0 with
  | VDict d => dict_get d "price" (VStr "N/A")
  | _ => VStr "N/A"
  end.

(** [len(v)] for the list under a key of a record, 0 when there is none. *)
Definition list_length_at (k : string) (v : pyval) : nat :=
  match v with
  | VDict d =>
      match d !! k with
      | Some (VList l) => length l
      | _ => 0%nat
      end
  | _ => 0%nat
  end.

(** ** Sample data *)

Definition sample_amenities : pyval :=
  VList [VStr "Free Wi-Fi"; VStr "Pool"; VStr "Spa"; VStr "Bar"; VStr "Gym";
         VStr "Parking"].

Definition sample_property (name price : string) : pyval :=
  VDict {[ "name" := VStr name;
           "rate_per_night" := VDict {[ "lowest" := VStr price ]};
           "overall_rating" := VFloat 4.5%float;
           "amenities" := sample_amenities ]}.

Definition sample_hotel_results : pydict :=
  {[ "properties" := VList [sample_property "Hotel Lumiere" "$120";
                            sample_property "Maison Rive" "$140";
                            sample_property "Le Petit Quai" "$150"] ]}.

Definition sample_leg (a from_ to_ : string) : pyval :=
  VDict {[ "airline" := VStr a;
           "departure_airport" :=
             VDict {[ "name" := VStr from_; "time" := VStr "2025-06-01 08:00" ]};
           "arrival_airport" :=
             VDict {[ "name" := VStr to_; "time" := VStr "2025-06-01 14:00" ]};
           "price" := VInt 700 ]}.

Definition sample_best0 : pyval :=
  VDict {[ "flights" := VList [sample_leg "Emirates" "Dubai" "Singapore";
                               sample_leg "Qantas" "Singapore" "Sydney"];
           "price" := VInt 1520 ]}.

Definition sample_best1 : pyval :=
  VDict {[ "flights" := VList [sample_leg "Etihad" "Abu Dhabi" "Sydney"];
           "price" := VInt 1710 ]}.

Definition sample_flight_results : pydict :=
  {[ "best_flights" := VList [sample_best0; sample_best1] ]}.

Definition sample_extracted : ExtractedTripInfo :=
  mkExtractedTripInfo "2025-06-01" "2025-06-06" (VInt 3)
    {[ "source_iata" := VStr "DXB";
       "destination_iata" := VStr "SYD";
       "hotel_city" := VStr "Sydney";
       "no_of_adults" := VInt 2;
       "no_of_children" := VInt 0 ]}.

Definition sample_document : FullTravelItinerary :=
  mkFullTravelItinerary (Some ["Flight search completed."])
    {[ "itinerary" := VList [] ]}.

(** A world in which the search and the chains answer: the first
    augmentation call fails, the later ones succeed. *)
Definition sample_world : World :=
  mkWorld "key" (fun _ => "<repr>")
    (fun cls => "1 validation error for " +:+ cls)
    (fun _ => "[{'type': 'missing'}]")
    (fun _ => None)
    (fun r => match r with VNone | VFloat _ => Some r | _ => None end)
    (fun params =>
       match params !! "engine" with
       | Some (VStr "google_flights") => Ok sample_flight_results
       | _ => Ok sample_hotel_results
       end)
    (fun _ => Ok sample_extracted)
    (fun _ => Ok (mkDestinationInformation
                    [mkActivity "Harbour walk" "A walk along the quay" "Free" "Morning"]
                    [mkTravelOption "Train" "Suburban rail"]
                    [mkResearchDetail "Currency" "Australian dollar"]))
    (fun i _ =>
       match i with
       | O => Raise (Exn OtherException "model unavailable" "")
       | _ => Ok ("Address: 1 Quay Street" +:+ nl +:+ "Perks: Harbour view")
       end)
    (fun _ => Ok sample_document)
    (fun d => Some d).

(** The same world with every chain failing and the final schema rejecting
    every document. *)
Definition failing_world : World :=
  mkWorld "key" (fun _ => "<repr>")
    (fun cls => "1 validation error for " +:+ cls)
    (fun _ => "[{'type': 'missing'}]")
    (fun _ => None)
    (pydantic_rating sample_world)
    (GoogleSearch sample_world)
    (fun _ => Raise (Exn ValidationError "1 validation error" "[...]"))
    (fun _ => Raise (Exn OtherException "model unavailable" ""))
    (fun _ _ => Raise (Exn OtherException "model unavailable" ""))
    (fun _ => Raise (Exn OtherException "model unavailable" ""))
    (fun _ => None).

Definition sample_user_info : pydict :=
  {[ "source_iata" := VStr "DXB";
     "destination_iata" := VStr "SYD";
     "hotel_city" := VStr "Sydney";
     "departure_date" := VStr "2025-06-01";
     "return_date" := VStr "2025-06-06";
     "no_of_adults" := VInt 2 ]}.

Definition sample_state (ui : pydict) : TravelPlannerState :=
  mkState ui None None None None (Some []).


(** A record whose dates do not parse, and a world that extracts it. *)
Definition sample_extracted_undated : ExtractedTripInfo :=
  mkExtractedTripInfo "next Monday" "2025-06-06" (VInt 3) (other_fields sample_extracted).

Definition undated_world : World :=
  mkWorld (SERPAPI_API_KEY sample_world) (py_repr sample_world)
    (pydantic_message sample_world) (pydantic_errors sample_world)
    (pydantic_int sample_world)
    (pydantic_rating sample_world) (GoogleSearch sample_world)
    (fun _ => Ok sample_extracted_undated)
    (info_agent_chain sample_world) (augmentation_chain sample_world)
    (structured_itinerary_chain sample_world)
    (FinalFullTravelItinerary sample_world).


Definition sample_hotels : list Hotel :=
  [mkHotel "Hotel Lumiere" "$120" (VFloat 4.5%float) ["Free Wi-Fi"; "Pool"] "" "" "";
   mkHotel "Maison Rive" "$140" VNone [] "" "" ""].


(** What [hotel_search] answers in the sample world. *)
Definition sample_simplified_hotel (name price : string) : pyval :=
  VDict {[ "hotel_name" := VStr name;
           "price_per_night" := VStr price;
           "rating" := VFloat 4.5%float;
           "amenities" := sample_amenities ]}.

Definition sample_hotel_reply : pydict :=
  hotels_reply "Sydney"
    [sample_simplified_hotel "Hotel Lumiere" "$120";
     sample_simplified_hotel "Maison Rive" "$140"] None.

(** The state when the Itinerary Compiler starts, after a Hotel stage that
    found the sample hotels. *)
Definition sample_itinerary_state : TravelPlannerState :=
  mkState sample_user_info
    (Some (VDict {[ "flights" := VList []; "note" := VStr "No flight options found." ]}))
    (Some (VDict sample_hotel_reply)) (Some None) None
    (Some ["No flight options found."]).


(** ** States with and without destination results *)




(** A request in which [num_days] came as [null], after a Flight and a
    Hotel stage that found nothing. *)
Definition sample_null_days_state : TravelPlannerState :=
  mkState (<[ "num_days" := VNone ]> sample_user_info)
    (Some (VDict {[ "flights" := VList []; "note" := VStr "No flight options found." ]}))
    (Some (VDict {[ "hotels" := VList []; "note" := VStr "No hotel options found." ]}))
    (Some None) None
    (Some ["No flight options found."; "No hotel options found."]).


(** ** Search entries the connectors can read *)

(** The value under [k] is a dictionary, or [k] is not a key of [d]: then
    [d.get(k, {}).get(...)] does not raise. *)
Definition dict_or_absent (d : pydict) (k : string) : bool :=
  match d !! k with
  | None | Some (VDict _) => true
  | _ => false
  end.

(** A flight leg whose two airports can be read. *)
Definition leg_ok (leg : pyval) : bool :=
  match leg with
  | VDict d =>
      dict_or_absent d "departure_airport" && dict_or_absent d "arrival_airport"
  | _ => false
  end.

(** A hotel entry whose nightly rate can be read. *)
Definition entry_ok (result : pyval) : bool :=
  match result with
  | VDict d => dict_or_absent d "rate_per_night"
  | _ => false
  end.


(** The sample world with a search provider that cannot be reached. *)
Definition offline_world : World :=
  mkWorld "key" (py_repr sample_world) (pydantic_message sample_world)
    (pydantic_errors sample_world)
    (pydantic_int sample_world) (pydantic_rating sample_world)
    (fun _ => Raise (Exn OtherException "connection refused" ""))
    (extractor_chain sample_world) (info_agent_chain sample_world)
    (augmentation_chain sample_world) (structured_itinerary_chain sample_world)
    (FinalFullTravelItinerary sample_world).


(** The sample world with an itinerary model that lists a hotel with the
    six amenities of the search. *)
Definition six_amenities_world : World :=
  mkWorld "key" (py_repr sample_world) (pydantic_message sample_world)
    (pydantic_errors sample_world)
    (pydantic_int sample_world) (pydantic_rating sample_world)
    (GoogleSearch sample_world)
    (extractor_chain sample_world) (info_agent_chain sample_world)
    (augmentation_chain sample_world)
    (fun _ =>
       Ok (mkFullTravelItinerary None
             {[ "hotels" := VList [sample_simplified_hotel "Hotel Lumiere" "$120"] ]}))
    (FinalFullTravelItinerary sample_world).


(** ** Stages that only append to the notes *)

(** A stage that leaves the notes it found in place, at the head of the
    list when it exits and of the list it returns. *)
Definition appends_only (stage : World -> TravelPlannerState -> Run) : Prop :=
  forall (w : World) (s : TravelPlannerState),
    notes_of s `prefix_of` (stage w s).2
    /\ forall u ns,
         (stage w s).1 = Ok u -> new_notes u = Some ns ->
         notes_of s `prefix_of` ns.


(** The four fields of the Flight stage are non-empty text. *)
Definition flight_fields_text (ui : pydict) (a b c d : string) : Prop :=
  (ui !! "source_iata" = Some (VStr a) /\ a <> "")
  /\ (ui !! "destination_iata" = Some (VStr b) /\ b <> "")
  /\ (ui !! "departure_date" = Some (VStr c) /\ c <> "")
  /\ (ui !! "return_date" = Some (VStr d) /\ d <> "").

(** [c in s] for a character. *)
Fixpoint string_mem (c : ascii) (s : string) : bool :=
  match s with
  | EmptyString => false
  | String a s' => Ascii.eqb a c || string_mem c s'
  end.

(** The three lines the augmentation prompt asks for. *)
Definition prompted_text (addr descr prk : string) : string :=
  "Address:" +:+ addr +:+ nl +:+ "Description:" +:+ descr +:+ nl
    +:+ "Perks:" +:+ prk.


(** The note the augmentation loop leaves for a hotel whose call raised. *)
Definition augmentation_note (h : Hotel) (e : exn) : string :=
  "Error during hotel augmentation for " +:+ hotel_name h +:+ ": " +:+ exn_str e.

(** A value that is not a dictionary: [v.get] raises on it. *)
Definition not_a_dict (v : pyval) : bool :=
  match v with
  | VDict _ => false
  | _ => true
  end.

(** The flight and hotel results the Destination stage can read: each is
    not set, or is a dictionary. *)
Definition results_readable (s : TravelPlannerState) : bool :=
  match flight_results s with
  | Some v => negb (not_a_dict v)
  | None => true
  end
  && match hotel_results s with
     | Some v => negb (not_a_dict v)
     | None => true
     end.

(** ** [workflow.py] and [main.py] *)

(** How the orchestrator sets the notes of the state after a stage, from
    the notes of the state before it, the list the stage leaves behind and
    the notes it returns, if any.  It depends on how [TravelPlannerState]
    declares [notes] in the absent [models.py], and is a parameter. *)
Definition NotesPolicy : Type :=
  option (list string) -> list string -> option (list string)
  -> option (list string).

(** The policy of a key without a reducer: the returned list replaces the
    notes; without one, the list of the state stays, as appended to. *)
Definition replace_notes : NotesPolicy :=
  fun before after returned =>
    match returned with
    | Some ns => Some ns
    | None => match before with
              | Some _ => Some after
              | None => None
              end
    end.

(** Modelled from the spec: the merge of the Pipeline Orchestrator, the
    state graph over [TravelPlannerState] of [models.py]: every key a stage
    returns replaces the key of the state; [notes] follow the policy. *)
Definition apply_update (policy : NotesPolicy) (s : TravelPlannerState)
    (u : Update) (after : list string) : TravelPlannerState :=
  mkState (default (user_info s) (new_user_info u))
    (match new_flight_results u with
     | Some d => Some (VDict d)
     | None => flight_results s
     end)
    (match new_hotel_results u with
     | Some d => Some (VDict d)
     | None => hotel_results s
     end)
    (match new_destination_info_results u with
     | Some o => Some o
     | None => destination_info_results s
     end)
    (match new_final_itinerary u with
     | Some d => Some (VDict d)
     | None => final_itinerary s
     end)
    (policy (notes s) after (new_notes u)).

(** A node of the graph: the stage runs on the state, and what it returns
    is merged; what it raises ends the run. *)
Definition run_stage (policy : NotesPolicy)
    (stage : World -> TravelPlannerState -> Run) (w : World)
    (s : TravelPlannerState) : Result TravelPlannerState :=
  let '(r, after) := stage w s in
  u ← r;
  Ok (apply_update policy s u after).

(** The edges from [info_extractor] to [destination_info]. *)
Definition workflow_before_itinerary (policy : NotesPolicy) (w : World)
    (s : TravelPlannerState) : Result TravelPlannerState :=
  s1 ← run_stage policy info_extractor_agent_node w s;
  s2 ← run_stage policy flight_agent_node w s1;
  s3 ← run_stage policy hotel_agent_node w s2;
  run_stage policy destination_agent_node w s3.

(** [workflow]: the five nodes in a row, then [END]. *)
Definition workflow (policy : NotesPolicy) (w : World)
    (s : TravelPlannerState) : Result TravelPlannerState :=
  s4 ← workflow_before_itinerary policy w s;
  run_stage policy itinerary_agent_node w s4.

(** What [plan_trip_endpoint] answers: the itinerary, or an
    [HTTPException]. *)
Inductive Response :=
| Itinerary (doc : pydict)
| HTTPException (status_code : Z) (detail : string).

(** The state [plan_trip_endpoint] starts the graph with. *)
Definition initial_state (request : pydict) : TravelPlannerState :=
  mkState request (Some VNone) (Some VNone) (Some None) (Some VNone) (Some []).

(** The body of the [try] of [plan_trip_endpoint]; [http_str] is [str] of
    an [HTTPException]. *)
Definition plan_trip_try (policy : NotesPolicy) (http_str : Z -> string -> string)
    (w : World) (request : pydict) : Result pydict :=
  final_state ← workflow policy w (initial_state request);
  match final_itinerary final_state with
  | Some (VDict final_itinerary_data) =>
      if truthy (VDict final_itinerary_data) then
        match FinalFullTravelItinerary w final_itinerary_data with
        | Some doc => Ok doc
        | None => Raise (validation_error w "FinalFullTravelItinerary")
        end
      else
        Raise (Exn OtherException
                 (http_str 500 "Failed to generate complete itinerary.") "")
  | Some v =>
      if truthy v then
        raise_type ("src.models.FinalFullTravelItinerary() "
                      +:+ "argument after ** must be a mapping, not "
                      +:+ type_name v)
      else
        Raise (Exn OtherException
                 (http_str 500 "Failed to generate complete itinerary.") "")
  | None =>
      Raise (Exn OtherException
               (http_str 500 "Failed to generate complete itinerary.") "")
  end.

Definition plan_trip_endpoint (policy : NotesPolicy)
    (http_str : Z -> string -> string) (w : World) (request : pydict)
  : Response :=
  match plan_trip_try policy http_str w request with
  | Ok doc => Itinerary doc
  | Raise e =>
      HTTPException 500
        ("An internal error occurred during trip planning: " +:+ exn_str e)
  end.

(** [str] of an [HTTPException], as starlette writes it. *)
Definition sample_http_str (status_code : Z) (detail : string) : string :=
  pretty status_code +:+ ": " +:+ detail.


(** ** States the Itinerary Compiler gets through *)

(** A computation that returns. *)
Definition returns {A} (r : Result A) : bool :=
  match r with
  | Ok _ => true
  | Raise _ => false
  end.

(** A hotel entry whose amenities can be sliced: a dictionary whose
    amenities, if any, are a list or text. *)
Definition hotel_data_ok (hotel_data : pyval) : bool :=
  match hotel_data with
  | VDict d =>
      match dict_get d "amenities" (VList []) with
      | VList _ | VStr _ => true
      | _ => false
      end
  | _ => false
  end.

(** Results whose entries under [k] can all be read: nothing, or a
    dictionary with nothing under [k], or with a list of readable entries. *)
Definition entries_ok (item_ok : pyval -> bool) (k : string) (results : pyval)
  : bool :=
  if truthy results then
    match results with
    | VDict d =>
        let v := dict_get d k VNone in
        if truthy v then
          match v with
          | VList items => forallb item_ok items
          | _ => false
          end
        else true
    | _ => false
    end
  else true.

(** A day count [int] converts or rejects with a [ValueError]: the key is
    absent, or holds an [int], a [bool], text, or a float that is not
    infinite. *)
Definition num_days_ok (ui : pydict) : bool :=
  match ui !! "num_days" with
  | None | Some (VInt _) | Some (VBool _) | Some (VStr _) => true
  | Some (VFloat f) =>
      match Prim2SF f with
      | SpecFloat.S754_infinity _ => false
      | _ => true
      end
  | _ => false
  end.

(** The states on which the Itinerary Compiler reaches its chain. *)
Definition itinerary_state_ok (s : TravelPlannerState) : bool :=
  entries_ok hotel_data_ok "hotels" (default (VDict ∅) (hotel_results s))
  && entries_ok (fun v => negb (not_a_dict v)) "flights"
       (default (VDict ∅) (flight_results s))
  && num_days_ok (user_info s).


(** ** The order of calendar days *)

(** [a < b] on dates. *)
Definition date_before (a b : date) : Prop :=
  year a < year b
  \/ (year a = year b
      /\ (month a < month b \/ (month a = month b /\ day a < day b))).

(** Number of days of the year [y]. *)
Definition year_length (y : Z) : Z := if is_leap y then 366 else 365.

(** The days before each month of a common year; a leap year has one more
    from March on. *)
Definition days_before_month_table (y m : Z) : Z :=
  match m with
  | 2 => 31 | 3 => 59 | 4 => 90 | 5 => 120 | 6 => 151 | 7 => 181
  | 8 => 212 | 9 => 243 | 10 => 273 | 11 => 304 | 12 => 334
  | _ => 0
  end
  + (if (3 <=? m) && is_leap y then 1 else 0).


(** * Theorems *)

(** ** The library functions on sample inputs *)

Example strptime_padded : strptime "2025-06-01" = Some (Date 2025 6 1).
Proof. reflexivity. Qed.

Example strptime_unpadded : strptime "2024-2-29" = Some (Date 2024 2 29).
Proof. reflexivity. Qed.

Example strptime_no_such_day : strptime "2025-02-29" = None.
Proof. reflexivity. Qed.

Example strptime_data_remains : strptime "2025-06-011" = None.
Proof. reflexivity. Qed.

Example toordinal_2025_06_01 : toordinal (Date 2025 6 1) = 739403.
Proof. reflexivity. Qed.

Example calculated_num_days_six :
  calculated_num_days (Date 2025 6 1) (Date 2025 6 6) = 6.
Proof. reflexivity. Qed.

Example int_of_text_spaces : int_of_text " 12 " = Some 12.
Proof. reflexivity. Qed.

Example int_of_text_underscore : int_of_text "-1_000" = Some (-1000).
Proof. reflexivity. Qed.

Example int_of_text_words : int_of_text "five" = None.
Proof. reflexivity. Qed.

Example int_of_text_separator :
  int_of_text (String (ascii_of_nat 28) "5") = None
  /\ strip (String (ascii_of_nat 28) "5") = "5".
Proof. split; reflexivity. Qed.

Example int_of_text_digit_limit :
  int_of_text (string_of_list_ascii (List.repeat "1"%char 4301)) = None
  /\ int_of_text (string_of_list_ascii (List.repeat "0"%char 4300)) = Some 0.
Proof. split; vm_compute; reflexivity. Qed.

Example int_of_float_truncates :
  int_of_float 3.75%float = Ok 3 /\ int_of_float (-3.75)%float = Ok (-3).
Proof. split; reflexivity. Qed.

Example itinerary_num_days_text :
  itinerary_num_days sample_world {[ "num_days" := VStr "five" ]} = Ok 0.
Proof. reflexivity. Qed.

Example augmented_details_labels :
  let d := augmented_details
             ("Address: 15 Parliament Street" +:+ nl
                +:+ "Here is the hotel" +:+ nl
                +:+ " Perks : Close to transport: metro and bus ") in
  d !! "address" = Some "15 Parliament Street"
  /\ d !! "perks" = Some "Close to transport: metro and bus"
  /\ d !! "description" = None.
Proof. vm_compute. by repeat split. Qed.

(** ** Helper lemmas *)

Lemma append_cons (a : ascii) (s t : string) :
  String a s +:+ t = String a (s +:+ t).
Proof. reflexivity. Qed.

Lemma append_nil_l (s : string) : "" +:+ s = s.
Proof. reflexivity. Qed.

Lemma append_nil_r (s : string) : s +:+ "" = s.
Proof. induction s as [|a s IH]; [reflexivity|]. by rewrite append_cons, IH. Qed.

Lemma append_assoc (s t u : string) : (s +:+ t) +:+ u = s +:+ (t +:+ u).
Proof.
  induction s as [|a s IH]; [reflexivity|].
  by rewrite !append_cons, IH.
Qed.

Lemma contains_refl (s : string) : contains s s.
Proof. exists "", "". by rewrite append_nil_l, append_nil_r. Qed.

Lemma contains_app_l (sub s t : string) : contains sub s -> contains sub (s +:+ t).
Proof.
  intros (pre & post & ->). exists pre, (post +:+ t).
  by rewrite !append_assoc.
Qed.

Lemma contains_app_r (sub s t : string) : contains sub t -> contains sub (s +:+ t).
Proof.
  intros (pre & post & ->). exists (s +:+ pre), post.
  by rewrite !append_assoc.
Qed.

(** Every element of a joined list occurs in the joined text. *)
Lemma contains_join (sep x : string) (l : list string) :
  In x l -> contains x (join sep l).
Proof.
  induction l as [|y l IH]; [intros []|].
  intros [->|Hin].
  - destruct l as [|z l]; [apply contains_refl|].
    cbn [join]. apply contains_app_l, contains_refl.
  - destruct l as [|z l]; [destruct Hin|].
    cbn [join]. apply contains_app_r, contains_app_r, IH, Hin.
Qed.

Lemma traverse_length {A B} (f : A -> Result B) (l : list A) (r : list B) :
  traverse f l = Ok r -> length r = length l.
Proof.
  revert r. induction l as [|x l IH]; intros r; cbn.
  - by intros [= <-].
  - destruct (f x) as [y|e]; cbn; [|done].
    destruct (traverse f l) as [r'|e]; cbn; [|done].
    intros [= <-]. cbn. by rewrite (IH r').
Qed.

Lemma traverse_Forall2 {A B} (f : A -> Result B) (l : list A) (r : list B) :
  traverse f l = Ok r -> Forall2 (fun x y => f x = Ok y) l r.
Proof.
  revert r. induction l as [|x l IH]; intros r; cbn.
  - intros [= <-]. constructor.
  - destruct (f x) as [y|e] eqn:Hx; cbn; [|done].
    destruct (traverse f l) as [r'|e]; cbn; [|done].
    intros [= <-]. constructor; [done|]. by apply IH.
Qed.

(** ** The Hotel Search Connector *)

(** C5.  Whatever the external search returns, a reply of [hotel_search]
    carries a list of at most two hotels under its key [hotels]. *)
Theorem hotel_search_at_most_two (w : World)
    (place check_in_date check_out_date : string) (number_of_adults : Z)
    (budget : option string) (reply : pydict) :
  hotel_search w place check_in_date check_out_date number_of_adults budget
  = Ok reply ->
  exists hotels,
    reply !! "hotels" = Some (VList hotels) /\ (length hotels <= 2)%nat.
Proof.
  unfold hotel_search.
  destruct (GoogleSearch w _) as [results|e].
  - destruct (py_iter _) as [items|e]; cbn; [|done].
    destruct (traverse hotel_info (take 2 items)) as [hs|e] eqn:Ht; cbn; [|done].
    apply traverse_length in Ht.
    assert (length hs <= 2)%nat as Hle.
    { rewrite Ht, length_take. lia. }
    destruct hs as [|h hs]; intros [= <-];
      eexists; (split; [by simplify_map_eq|]); [cbn; lia|done].
  - intros [= <-]. eexists. split; [by simplify_map_eq|]. cbn; lia.
Qed.

(** The reply of [hotel_search] to a search that found three properties. *)
Lemma hotel_search_at_most_two_witness :
  hotel_search sample_world "Sydney" "2025-06-01" "2025-06-06" 2 (Some "Economy")
  = Ok sample_hotel_reply /\
  exists hotels,
    sample_hotel_reply !! "hotels" = Some (VList hotels)
    /\ (length hotels <= 2)%nat.
Proof.
  assert (hotel_search sample_world "Sydney" "2025-06-01" "2025-06-06" 2
            (Some "Economy") = Ok sample_hotel_reply) as H
      by (vm_compute; reflexivity).
  split; [exact H|].
  exact (hotel_search_at_most_two _ _ _ _ _ _ _ H).
Defined.

(** ** The Flight Search Connector *)

Lemma dict_get_Some (d : pydict) (k : string) (dflt v : pyval) :
  d !! k = Some v -> dict_get d k dflt = v.
Proof. unfold dict_get. by intros ->. Qed.

Lemma dict_get_None (d : pydict) (k : string) (dflt : pyval) :
  d !! k = None -> dict_get d k dflt = dflt.
Proof. unfold dict_get. by intros ->. Qed.

Lemma py_get_Ok (v : pyval) (k : string) (dflt r : pyval) :
  py_get v k dflt = Ok r -> exists d, v = VDict d /\ r = dict_get d k dflt.
Proof. destruct v; cbn; try done. intros [= <-]. by eexists. Qed.

(** A flight built from a leg carries the overall price of the option. *)
Lemma simplified_flight_price (w : World) (best0 leg flight : pyval) :
  simplified_flight w best0 leg = Ok flight ->
  py_get flight "price" VNone = Ok (VStr (py_str w (overall_price best0))).
Proof.
  unfold simplified_flight. intros H.
  repeat match type of H with
         | mbind _ ?r = Ok _ =>
             let E := fresh "E" in
             destruct r eqn:E; cbn in H; [|discriminate H]
         end.
  injection H as <-.
  match goal with E : py_get best0 "price" _ = Ok _ |- _ =>
    apply py_get_Ok in E as (d & -> & ->) end.
  cbn. unfold dict_get at 1. by simplify_map_eq.
Qed.

(** A loop over text visits text, on which [simplified_flight] raises. *)
Lemma traverse_simplified_flight_text (w : World) (best0 : pyval)
    (ks : list string) :
  ks <> [] -> forall r, traverse (simplified_flight w best0) (VStr <$> ks) <> Ok r.
Proof. destruct ks as [|k ks]; [done|]. intros _ r. cbn. done. Qed.

Lemma chars_nil (s : string) : chars s = [] -> s = "".
Proof. by destruct s. Qed.

(** C10.  When the search answers with a non-empty list of best flights, a
    reply of [fetch_flights] lists one flight per leg of the first option,
    in order and each built from that leg, whatever the later options are;
    and the price of every listed flight is the text of the overall price of
    the first option. *)
Theorem fetch_flights_first_option (w : World)
    (source destination departure_date return_date : string)
    (results : pydict) (best0 : pyval) (later : list pyval) (reply : pydict) :
  GoogleSearch w (flight_params w source destination departure_date return_date)
  = Ok results ->
  results !! "best_flights" = Some (VList (best0 :: later)) ->
  fetch_flights w source destination departure_date return_date = Ok reply ->
  exists flights,
    reply !! "flights" = Some (VList flights)
    /\ Forall2 (fun leg flight => simplified_flight w best0 leg = Ok flight)
         (first_option_legs best0) flights
    /\ Forall (fun flight =>
                 py_get flight "price" VNone
                 = Ok (VStr (py_str w (overall_price best0)))) flights.
Proof.
  intros Hsearch Hbest. unfold fetch_flights. rewrite Hsearch.
  cbv zeta. rewrite (dict_get_Some _ _ _ _ Hbest). cbn [truthy negb].
  destruct (py_get best0 "flights" VNone) as [legs|e] eqn:Hlegs; cbn; [|done].
  apply py_get_Ok in Hlegs as (d & -> & ->).
  cbn [first_option_legs py_get].
  destruct (d !! "flights") as [v|] eqn:Hv.
  2:{ rewrite !(dict_get_None _ _ _ Hv). cbn.
      intros [= <-]. exists []. split; [by simplify_map_eq|]. by split. }
  rewrite !(dict_get_Some _ _ _ _ Hv).
  destruct (truthy v) eqn:Htruthy.
  2:{ intros [= <-]. exists [].
      split; [by simplify_map_eq|].
      destruct v as [| | | | |l|]; try by split.
      destruct l; [by split|done]. }
  destruct v as [| | | |s|legs|d']; cbn; try done.
  - (* text: the loop visits characters *)
    intros H. exfalso.
    destruct (traverse _ (VStr <$> chars s)) as [r|] eqn:Ht; [|done].
    eapply traverse_simplified_flight_text; [|exact Ht].
    intros Hnil%chars_nil. subst s. done.
  - destruct (traverse _ legs) as [flights|] eqn:Ht; cbn; [|done].
    intros [= <-]. exists flights.
    split; [by simplify_map_eq|].
    pose proof (traverse_Forall2 _ _ _ Ht) as HF. split; [exact HF|].
    clear Ht Hv Htruthy Hbest.
    induction HF as [|x y l l' Hx HF IH]; constructor; [|exact IH].
    exact (simplified_flight_price w (VDict d) x y Hx).
  - (* a dictionary: the loop visits keys *)
    intros H. exfalso.
    destruct (traverse _ (VStr <$> (map_to_list d').*1)) as [r|] eqn:Ht; [|done].
    eapply traverse_simplified_flight_text; [|exact Ht].
    intros Hnil. apply fmap_nil_inv, map_to_list_empty_iff in Hnil. subst d'.
    cbn in Htruthy. by rewrite bool_decide_eq_true_2 in Htruthy.
Qed.

(** The first of two options has two legs: two flights, both priced 1520. *)
Lemma fetch_flights_first_option_witness :
  let flight (a from_ to_ : string) :=
    VDict {[ "airline" := VStr a;
             "departure_time" := VStr "2025-06-01 08:00";
             "arrival_time" := VStr "2025-06-01 14:00";
             "departure_airport" := VStr from_;
             "arrival_airport" := VStr to_;
             "price" := VStr "1520" ]} in
  let reply :=
    flights_reply "DXB" "SYD"
      [flight "Emirates" "Dubai" "Singapore";
       flight "Qantas" "Singapore" "Sydney"] None in
  fetch_flights sample_world "DXB" "SYD" "2025-06-01" "2025-06-06" = Ok reply /\
  exists flights,
    reply !! "flights" = Some (VList flights)
    /\ Forall2 (fun leg flight =>
                  simplified_flight sample_world sample_best0 leg = Ok flight)
         (first_option_legs sample_best0) flights
    /\ Forall (fun flight =>
                 py_get flight "price" VNone
                 = Ok (VStr (py_str sample_world (overall_price sample_best0))))
         flights.
Proof.
  intros flight reply.
  assert (fetch_flights sample_world "DXB" "SYD" "2025-06-01" "2025-06-06"
          = Ok reply) as H by (vm_compute; reflexivity).
  split; [exact H|].
  refine (fetch_flights_first_option sample_world _ _ _ _ sample_flight_results
            sample_best0 [sample_best1] reply _ _ H);
    vm_compute; reflexivity.
Defined.

(** ** The Info Extraction stage *)

Lemma ExtractedTripInfo_dump_num_days (e : ExtractedTripInfo) (ui : pydict) :
  (ExtractedTripInfo_dump e ∪ ui) !! "num_days" = Some (num_days e).
Proof.
  apply lookup_union_Some_l. unfold ExtractedTripInfo_dump. by simplify_map_eq.
Qed.

(** C1.  When the extraction returns a record, the stage returns a
    [user_info] in which [num_days] is [(return_date - departure_date).days
    + 1] whenever both dates parse, whatever day count the model gave; when
    a date does not parse the model's value is kept, the stage still returns
    and the note about the dates is appended. *)
Theorem num_days_recomputed (w : World) (s : TravelPlannerState)
    (e : ExtractedTripInfo) :
  extractor_chain w (user_info s) = Ok e ->
  exists ui ns,
    info_extractor_agent_node w s
    = (Ok (mkUpdate (Some ui) None None None None (Some ns)), ns)
    /\ (forall start_date end_date,
          strptime (departure_date e) = Some start_date ->
          strptime (return_date e) = Some end_date ->
          ui !! "num_days"
          = Some (VInt (toordinal end_date - toordinal start_date + 1))
          /\ ns = notes_of s ++ [extracted_note])
    /\ (strptime (departure_date e) = None \/ strptime (return_date e) = None ->
        ui !! "num_days" = Some (num_days e)
        /\ ns = notes_of s ++ [num_days_note; extracted_note]).
Proof.
  intros He. unfold info_extractor_agent_node, recompute_num_days. rewrite He.
  destruct (strptime (departure_date e)) as [d1|] eqn:H1;
    [destruct (strptime (return_date e)) as [d2|] eqn:H2|];
    eexists _, _; (split; [reflexivity|]); split.
  - intros ? ? [= <-] [= <-]. split; [|done].
    apply (ExtractedTripInfo_dump_num_days (set_num_days e _)).
  - intros [|]; done.
  - intros ? ? _ [=].
  - intros _. split; [apply ExtractedTripInfo_dump_num_days|].
    by rewrite <- app_assoc.
  - intros ? ? [=].
  - intros _. split; [apply ExtractedTripInfo_dump_num_days|].
    by rewrite <- app_assoc.
Qed.

(** A six-day trip for which the model answered three days, and a trip
    whose departure date is not a date. *)
Lemma num_days_recomputed_witness :
  (extractor_chain sample_world sample_user_info = Ok sample_extracted
   /\ exists ui ns,
       info_extractor_agent_node sample_world (sample_state sample_user_info)
       = (Ok (mkUpdate (Some ui) None None None None (Some ns)), ns)
       /\ ui !! "num_days" = Some (VInt 6))
  /\ (extractor_chain undated_world sample_user_info = Ok sample_extracted_undated
      /\ exists ui ns,
          info_extractor_agent_node undated_world (sample_state sample_user_info)
          = (Ok (mkUpdate (Some ui) None None None None (Some ns)), ns)
          /\ ui !! "num_days" = Some (VInt 3)
          /\ ns = [num_days_note; extracted_note]).
Proof.
  split; (split; [reflexivity|]).
  - destruct (num_days_recomputed sample_world (sample_state sample_user_info)
                sample_extracted eq_refl) as (ui & ns & Hrun & Hparsed & _).
    exists ui, ns. split; [exact Hrun|].
    exact (proj1 (Hparsed (Date 2025 6 1) (Date 2025 6 6) eq_refl eq_refl)).
  - destruct (num_days_recomputed undated_world (sample_state sample_user_info)
                sample_extracted_undated eq_refl) as (ui & ns & Hrun & _ & Hkept).
    exists ui, ns. split; [exact Hrun|].
    exact (Hkept (or_introl eq_refl)).
Defined.

(** C2.  When the extraction raises, a validation error or anything else,
    the stage returns: the [user_info] of the state as it was, and the notes
    of the state followed by the one error note. *)
Theorem info_extraction_failure (w : World) (s : TravelPlannerState) (e : exn) :
  extractor_chain w (user_info s) = Raise e ->
  info_extractor_agent_node w s
  = (Ok (mkUpdate (Some (user_info s)) None None None None
           (Some (notes_of s ++ [extractor_error_msg e]))),
     notes_of s ++ [extractor_error_msg e]).
Proof. intros He. unfold info_extractor_agent_node. by rewrite He. Qed.

Lemma info_extraction_failure_witness :
  let e := Exn ValidationError "1 validation error" "[...]" in
  let s := mkState sample_user_info None None None None (Some ["earlier note"]) in
  extractor_chain failing_world (user_info s) = Raise e
  /\ info_extractor_agent_node failing_world s
     = (Ok (mkUpdate (Some sample_user_info) None None None None
              (Some ["earlier note"; extractor_error_msg e])),
        ["earlier note"; extractor_error_msg e]).
Proof.
  intros e s. split; [reflexivity|].
  exact (info_extraction_failure failing_world s e eq_refl).
Defined.

(** ** The Flight stage *)

Lemma py_all_map_false (g : string -> pyval) (fields : list string) (f : string) :
  In f fields -> truthy (g f) = false -> py_all (g <$> fields) = false.
Proof.
  unfold py_all. induction fields as [|x l IH]; [intros []|].
  intros [->|Hin] Hf; cbn.
  - by rewrite Hf.
  - rewrite (IH Hin Hf). apply andb_false_r.
Qed.

Lemma missing_info_In (ui : pydict) (fields : list string) (f : string) :
  In f fields -> truthy (dict_get ui f VNone) = false ->
  In f (missing_info ui fields).
Proof.
  intros Hin Hf. apply filter_In. split; [exact Hin|]. by rewrite Hf.
Qed.

(** A field that is absent, [None] or the empty text is missing. *)
Lemma absent_or_empty_missing (ui : pydict) (f : string) :
  ui !! f = None \/ ui !! f = Some VNone \/ ui !! f = Some (VStr "") ->
  truthy (dict_get ui f VNone) = false.
Proof. unfold dict_get. by intros [->|[->| ->]]. Qed.

Definition flight_missing_msg (ui : pydict) : string :=
  "Error during Flight Agent processing: "
    +:+ "Missing required flight parameters from user_info: "
    +:+ join ", " (missing_info ui flight_fields).

(** C3.  When one of the four fields the Flight stage needs is absent or
    empty (not truthy) in [user_info], the stage returns, without raising,
    [flight_results] with an empty list of flights and a note, and the note
    names every field that is absent or empty. *)
Theorem flight_stage_missing_fields (w : World) (s : TravelPlannerState)
    (f : string) :
  In f flight_fields ->
  truthy (dict_get (user_info s) f VNone) = false ->
  let msg := flight_missing_msg (user_info s) in
  flight_agent_node w s
  = (Ok (mkUpdate None
           (Some {[ "flights" := VList []; "note" := VStr msg ]})
           None None None (Some (notes_of s ++ [msg]))),
     notes_of s ++ [msg])
  /\ forall g,
       In g flight_fields ->
       truthy (dict_get (user_info s) g VNone) = false ->
       contains g msg.
Proof.
  intros Hin Hf msg. split.
  - unfold flight_agent_node, flight_agent_try.
    change [dict_get (user_info s) "source_iata" VNone;
            dict_get (user_info s) "destination_iata" VNone;
            dict_get (user_info s) "departure_date" VNone;
            dict_get (user_info s) "return_date" VNone]
      with ((fun k => dict_get (user_info s) k VNone) <$> flight_fields).
    rewrite (py_all_map_false _ _ f Hin Hf). cbn [negb exn_str].
    reflexivity.
  - intros g Hg Hgf. unfold msg, flight_missing_msg.
    apply contains_app_r, contains_app_r, contains_join.
    by apply missing_info_In.
Qed.

(** A request without [source_iata] and with an empty [return_date]. *)
Lemma flight_stage_missing_fields_witness :
  let ui : pydict :=
    {[ "destination_iata" := VStr "SYD";
       "departure_date" := VStr "2025-06-01";
       "return_date" := VStr "" ]} in
  let msg :=
    "Error during Flight Agent processing: Missing required flight parameters from user_info: source_iata, return_date" in
  (In "source_iata" flight_fields
   /\ truthy (dict_get ui "source_iata" VNone) = false)
  /\ flight_agent_node sample_world (sample_state ui)
     = (Ok (mkUpdate None
              (Some {[ "flights" := VList []; "note" := VStr msg ]})
              None None None (Some [msg])), [msg])
  /\ contains "source_iata" msg /\ contains "return_date" msg.
Proof.
  intros ui msg.
  assert (In "source_iata" flight_fields) as Hin by (left; reflexivity).
  assert (In "return_date" flight_fields) as Hin'
      by (do 3 right; left; reflexivity).
  assert (truthy (dict_get ui "source_iata" VNone) = false) as Hf
      by reflexivity.
  assert (truthy (dict_get ui "return_date" VNone) = false) as Hf'
      by reflexivity.
  split; [by split|].
  destruct (flight_stage_missing_fields sample_world (sample_state ui)
              "source_iata" Hin Hf) as [Hrun Hnames].
  split; [exact Hrun|].
  split; [exact (Hnames _ Hin Hf)|exact (Hnames _ Hin' Hf')].
Defined.

(** ** The Hotel stage *)

Definition hotel_missing_msg (ui : pydict) : string :=
  "Hotel search failed: "
    +:+ "Missing required hotel parameters from user_info: "
    +:+ join ", " (missing_info ui hotel_fields).

(** What the guard of the Hotel stage tests: the city and the two dates as
    they are in [user_info], the adult count with 1 in place of an absent
    key. *)
Definition hotel_guard_fails (ui : pydict) : Prop :=
  truthy (dict_get ui "hotel_city" VNone) = false
  \/ truthy (dict_get ui "departure_date" VNone) = false
  \/ truthy (dict_get ui "return_date" VNone) = false
  \/ truthy (dict_get ui "no_of_adults" (VInt 1)) = false.

(** An adult count that fails the guard is in [user_info], and is not
    truthy there. *)
Lemma adults_fail_present (ui : pydict) :
  truthy (dict_get ui "no_of_adults" (VInt 1)) = false ->
  is_Some (ui !! "no_of_adults")
  /\ truthy (dict_get ui "no_of_adults" VNone) = false.
Proof.
  unfold dict_get. destruct (ui !! "no_of_adults") as [v|]; cbn; [|done].
  intros Hv. split; [by eexists|exact Hv].
Qed.

(** C4, as the code has it.  When the hotel city, the departure date or
    the return date is absent or empty in [user_info], or the adult count is
    there and is empty or zero, the Hotel stage returns, without searching
    and without raising, [hotel_results] with an empty list of hotels and a
    note that names every one of the four fields that is absent or empty.
    An adult count that is absent from [user_info] is read as 1: with the
    city and the two dates given as non-empty text, and a budget that is
    text, [None] or absent, the stage runs [hotel_search] for one adult and
    relays what it replies. *)
Theorem hotel_stage_missing_fields (w : World) (s : TravelPlannerState) :
  (hotel_guard_fails (user_info s) ->
   let msg := hotel_missing_msg (user_info s) in
   hotel_agent_node w s
   = (Ok (mkUpdate None None
            (Some {[ "hotels" := VList []; "note" := VStr msg ]})
            None None (Some (notes_of s ++ [msg]))),
      notes_of s ++ [msg])
   /\ forall g,
        In g hotel_fields ->
        truthy (dict_get (user_info s) g VNone) = false ->
        contains g msg)
  /\ (forall (place check_in_date check_out_date : string)
        (budget : option string),
        user_info s !! "no_of_adults" = None ->
        user_info s !! "hotel_city" = Some (VStr place) -> place <> "" ->
        user_info s !! "departure_date" = Some (VStr check_in_date) ->
        check_in_date <> "" ->
        user_info s !! "return_date" = Some (VStr check_out_date) ->
        check_out_date <> "" ->
        as_optional_str w "HotelInput" (dict_get (user_info s) "budget" VNone)
        = Ok budget ->
        hotel_agent_node w s
        = match hotel_search w place check_in_date check_out_date 1 budget with
          | Ok tool_output =>
              let note := dict_get tool_output "note" VNone in
              let current_notes :=
                notes_of s ++ (if truthy note then [py_str w note] else []) in
              (Ok (mkUpdate None None (Some tool_output) None None
                     (Some current_notes)), current_notes)
          | Raise e =>
              let error_msg := "Hotel search failed: " +:+ exn_str e in
              (Ok (mkUpdate None None
                     (Some {[ "hotels" := VList []; "note" := VStr error_msg ]})
                     None None (Some (notes_of s ++ [error_msg]))),
               notes_of s ++ [error_msg])
          end).
Proof.
  split.
  - intros Hguard msg. split.
    + unfold hotel_agent_node, hotel_agent_try.
      assert (py_all [dict_get (user_info s) "hotel_city" VNone;
                      dict_get (user_info s) "departure_date" VNone;
                      dict_get (user_info s) "return_date" VNone;
                      dict_get (user_info s) "no_of_adults" (VInt 1)] = false)
        as ->.
      { unfold py_all. cbn [forallb].
        destruct Hguard as [->|[->|[->| ->]]];
          rewrite ?andb_false_r; reflexivity. }
      reflexivity.
    + intros g Hg Hgf. unfold msg, hotel_missing_msg.
      apply contains_app_r, contains_app_r, contains_join.
      by apply missing_info_In.
  - intros place check_in_date check_out_date budget Hn Hp Hp' Hi Hi' Ho Ho' Hb.
    unfold hotel_agent_node, hotel_agent_try.
    rewrite (dict_get_Some _ _ _ _ Hp), (dict_get_Some _ _ _ _ Hi),
      (dict_get_Some _ _ _ _ Ho), (dict_get_None _ "no_of_adults" _ Hn).
    assert (py_all [VStr place; VStr check_in_date; VStr check_out_date; VInt 1]
            = true) as ->.
    { unfold py_all. cbn. by rewrite !bool_decide_eq_false_2. }
    cbn [negb]. unfold invoke_hotel_search. rewrite Hb.
    cbn [as_str as_int mbind Result_bind].
    destruct (hotel_search w place check_in_date check_out_date 1 budget)
      as [tool_output|e]; cbn [mbind Result_bind]; [|reflexivity].
    by destruct (truthy (dict_get tool_output "note" VNone)).
Qed.

(** A request without a hotel city and with an adult count of zero; and
    the sample request without its adult count, for which the two sample
    hotels are found. *)
Lemma hotel_stage_missing_fields_witness :
  let ui : pydict :=
    {[ "departure_date" := VStr "2025-06-01";
       "return_date" := VStr "2025-06-06";
       "no_of_adults" := VInt 0 ]} in
  let msg :=
    "Hotel search failed: Missing required hotel parameters from user_info: hotel_city, no_of_adults" in
  let ui1 : pydict := delete "no_of_adults" sample_user_info in
  (hotel_guard_fails ui
   /\ hotel_agent_node sample_world (sample_state ui)
      = (Ok (mkUpdate None None
               (Some {[ "hotels" := VList []; "note" := VStr msg ]})
               None None (Some [msg])), [msg])
   /\ contains "hotel_city" msg /\ contains "no_of_adults" msg)
  /\ (ui1 !! "no_of_adults" = None
      /\ hotel_params sample_world "Sydney" "2025-06-01" "2025-06-06" 1 None
           !! "adults" = Some (VInt 1)
      /\ hotel_agent_node sample_world (sample_state ui1)
         = (Ok (mkUpdate None None (Some sample_hotel_reply) None None (Some [])),
            [])).
Proof.
  intros ui msg ui1.
  assert (hotel_guard_fails ui) as Hguard by (left; reflexivity).
  destruct (hotel_stage_missing_fields sample_world (sample_state ui))
    as [Hfails _].
  destruct (hotel_stage_missing_fields sample_world (sample_state ui1))
    as [_ Hone].
  split.
  - split; [exact Hguard|].
    destruct (Hfails Hguard) as [Hrun Hnames].
    split; [exact Hrun|].
    split; apply Hnames; try reflexivity.
    + left; reflexivity.
    + do 3 right; left; reflexivity.
  - assert (ui1 !! "no_of_adults" = None) as Hn by (vm_compute; reflexivity).
    assert (ui1 !! "hotel_city" = Some (VStr "Sydney")) as Hp
        by (vm_compute; reflexivity).
    assert (ui1 !! "departure_date" = Some (VStr "2025-06-01")) as Hi
        by (vm_compute; reflexivity).
    assert (ui1 !! "return_date" = Some (VStr "2025-06-06")) as Ho
        by (vm_compute; reflexivity).
    assert (as_optional_str sample_world "HotelInput" (dict_get ui1 "budget" VNone)
            = Ok None) as Hb by (vm_compute; reflexivity).
    assert (hotel_search sample_world "Sydney" "2025-06-01" "2025-06-06" 1 None
            = Ok sample_hotel_reply) as Hsearch by (vm_compute; reflexivity).
    split; [exact Hn|]. split; [vm_compute; reflexivity|].
    pose proof (Hone "Sydney" "2025-06-01" "2025-06-06" None
                  Hn Hp ltac:(discriminate) Hi ltac:(discriminate)
                  Ho ltac:(discriminate) Hb) as Hrun.
    rewrite Hsearch in Hrun.
    exact (eq_trans Hrun ltac:(vm_compute; reflexivity)).
Defined.

(** C4 as it is worded fails: with the city and the dates given and no
    adult count at all, the stage searches for one adult and returns the
    hotels that were found. *)
Lemma hotel_stage_absent_adults_counterexample :
  ~ (forall (w : World) (s : TravelPlannerState),
       (exists f, In f hotel_fields /\ user_info s !! f = None) ->
       exists u ns note,
         hotel_agent_node w s = (Ok u, ns)
         /\ new_hotel_results u
            = Some {[ "hotels" := VList []; "note" := VStr note ]}).
Proof.
  intros Hclaim.
  destruct (Hclaim sample_world
              (sample_state (delete "no_of_adults" sample_user_info)))
    as (u & ns & note & Hrun & Hres).
  { exists "no_of_adults". split; [do 3 right; left; reflexivity|reflexivity]. }
  assert (match (hotel_agent_node sample_world
                   (sample_state (delete "no_of_adults" sample_user_info))).1 with
          | Ok u' => new_hotel_results u' ≫= (fun d : pydict => d !! "hotels")
          | Raise _ => None
          end = Some (VList [])) as Hhotels.
  { rewrite Hrun. cbn [fst]. rewrite Hres. cbn. by simplify_map_eq. }
  vm_compute in Hhotels. discriminate Hhotels.
Qed.

(** ** Hotel records in the Itinerary Compiler stage *)

Lemma as_str_list_length (w : World) (cls : string) (l : list pyval)
    (r : list string) :
  as_str_list w cls l = Ok r -> length r = length l.
Proof.
  revert r. induction l as [|v l IH]; intros r; cbn.
  - by intros [= <-].
  - destruct (as_str w cls v); cbn; [|done].
    destruct (as_str_list w cls l) as [r'|]; cbn; [|done].
    intros [= <-]. cbn. by rewrite (IH r').
Qed.

(** A record built by [Hotel(...)] has the amenities it was given. *)
Lemma Hotel_new_amenities (w : World) (n p r am : pyval) (ad de pe : string)
    (h : Hotel) :
  Hotel_new w n p r am ad de pe = Ok h ->
  exists l, am = VList l /\ length (amenities h) = length l.
Proof.
  unfold Hotel_new.
  destruct (as_str w "Hotel" n); cbn; [|done].
  destruct (as_str w "Hotel" p); cbn; [|done].
  destruct (pydantic_rating w r); cbn; [|done].
  destruct am as [| | | | |l|]; cbn; try done.
  destruct (as_str_list w "Hotel" l) as [am'|] eqn:Ham; cbn; [|done].
  intros [= <-]. exists l. split; [done|]. cbn. by eapply as_str_list_length.
Qed.

Lemma hotel_of_data_amenities (w : World) (hotel_data : pyval) (h : Hotel) :
  hotel_of_data w hotel_data = Ok (inl h) -> (length (amenities h) <= 5)%nat.
Proof.
  unfold hotel_of_data. intros H.
  repeat match type of H with
         | mbind _ ?r = Ok _ =>
             let E := fresh "E" in
             destruct r eqn:E; cbn in H; [|discriminate H]
         end.
  unfold note_invalid in H.
  destruct (Hotel_new _ _ _ _ _ _ _ _) as [h'|e] eqn:Hnew;
    [|by destruct (is_ValidationError e)].
  injection H as ->.
  apply Hotel_new_amenities in Hnew as (l & -> & ->).
  match goal with E : py_slice_to 5 ?v = Ok (VList l) |- _ =>
    destruct v; cbn in E; try discriminate E; injection E as <- end.
  rewrite length_take. lia.
Qed.

Lemma collect_Forall {A} (P : A -> Prop) (f : pyval -> Result (A + string))
    (items : list pyval) (ns ns' : list string) (r : list A) :
  (forall x a, f x = Ok (inl a) -> P a) ->
  collect f items ns = (Ok r, ns') -> Forall P r.
Proof.
  intros Hf. revert ns ns' r.
  induction items as [|x items IH]; intros ns ns' r; cbn.
  - intros [= <- _]. constructor.
  - destruct (f x) as [[a|note]|e] eqn:Hx; [| |done].
    + destruct (collect f items ns) as [[r'|e] ns''] eqn:Hc; cbn; [|done].
      intros [= <- _]. constructor; [by eapply Hf|by eapply IH].
    + apply IH.
Qed.

Lemma augment_hotel_amenities (w : World) (i : nat) (city : pyval) (h : Hotel) :
  amenities (augment_hotel w i city h).1 = amenities h.
Proof. unfold augment_hotel. by destruct (augmentation_chain w i _). Qed.

Lemma augment_hotels_Forall (P : Hotel -> Prop) (w : World) (city : pyval)
    (hs : list Hotel) :
  (forall i h, P h -> P (augment_hotel w i city h).1) ->
  forall i ns, Forall P hs -> Forall P (augment_hotels w i city hs ns).1.
Proof.
  intros HP. induction hs as [|h hs IH]; intros i ns; cbn; [done|].
  intros [Hh Hhs]%Forall_cons.
  destruct (augment_hotel w i city h) as [h' note] eqn:Hah.
  destruct (augment_hotels w (S i) city hs _) as [r ns'] eqn:Hrec. cbn.
  constructor.
  - specialize (HP i h Hh). by rewrite Hah in HP.
  - specialize (IH (S i) (ns ++ option_list note) Hhs). by rewrite Hrec in IH.
Qed.

(** A hotel the connector builds carries the amenities of its search
    entry, [[]] when the entry has none. *)
Lemma hotel_info_amenities (result hotel : pyval) :
  hotel_info result = Ok hotel ->
  exists d,
    result = VDict d
    /\ py_get hotel "amenities" VNone = Ok (dict_get d "amenities" (VList [])).
Proof.
  unfold hotel_info. intros H.
  destruct result as [| | | | | |d]; try discriminate H. cbn in H.
  repeat match type of H with
         | mbind _ ?r = Ok _ =>
             let E := fresh "E" in
             destruct r eqn:E; cbn in H; [|discriminate H]
         end.
  injection H as <-. exists d. split; [reflexivity|].
  cbn. unfold dict_get. by simplify_map_eq.
Qed.

Lemma Hotel_dump_amenities (h : Hotel) :
  list_length_at "amenities" (Hotel_dump h) = length (amenities h).
Proof.
  unfold list_length_at, Hotel_dump. simplify_map_eq. by rewrite length_fmap.
Qed.

(** C6, as the code has it.  Every [Hotel] record the Itinerary Compiler
    stage builds from [hotel_results], before and after augmentation, and
    every hotel it hands to the itinerary chain, has at most five amenities,
    however many the search returned for that hotel.  The hotels of a reply
    of [hotel_search] carry the amenities of the first two search entries
    as they came, and the Hotel stage stores that reply as it is.  The
    document the stage hands to the final schema is the one the itinerary
    chain answered, key by key, with [user_request_summary] written: the
    stage returns what the schema validated, or the document itself with
    [notes_and_warnings] and [disclaimer] rewritten when the schema rejects
    it, and leaves the hotels as the chain listed them. *)
Theorem itinerary_hotels_at_most_five_amenities (w : World)
    (s : TravelPlannerState) :
  (forall (ns ns' : list string) (hotel_updated : list Hotel),
     itinerary_hotel_updated w (default (VDict ∅) (hotel_results s)) ns
     = (Ok hotel_updated, ns') ->
     Forall (fun h => (length (amenities h) <= 5)%nat) hotel_updated)
  /\ (forall (ns ns' : list string) (augmented : list Hotel),
        itinerary_hotels w s ns = (Ok augmented, ns') ->
        Forall (fun h => (length (amenities h) <= 5)%nat) augmented)
  /\ (forall (input : ItineraryInput) (ns : list string),
        itinerary_prepare w s = (Ok input, ns) ->
        Forall (fun h => (list_length_at "amenities" h <= 5)%nat)
          (in_augmented_hotel_details_objects_json input))
  /\ (forall (place check_in_date check_out_date : string)
        (number_of_adults : Z) (budget : option string)
        (results reply : pydict) (hotels : list pyval),
        GoogleSearch w
          (hotel_params w place check_in_date check_out_date number_of_adults
             budget)
        = Ok results ->
        hotel_search w place check_in_date check_out_date number_of_adults budget
        = Ok reply ->
        reply !! "hotels" = Some (VList hotels) ->
        exists entries,
          py_iter (if negb (truthy (dict_get results "properties" (VList [])))
                   then dict_get results "ads" (VList [])
                   else dict_get results "properties" (VList []))
          = Ok entries
          /\ Forall2
               (fun result hotel =>
                  exists d,
                    result = VDict d
                    /\ py_get hotel "amenities" VNone
                       = Ok (dict_get d "amenities" (VList [])))
               (take 2 entries) hotels)
  /\ (forall (u : Update) (ns : list string) (hr : pydict),
        hotel_agent_node w s = (Ok u, ns) ->
        new_hotel_results u = Some hr ->
        (exists msg, hr = {[ "hotels" := VList []; "note" := VStr msg ]})
        \/ (exists place check_in_date check_out_date number_of_adults budget,
              hotel_search w place check_in_date check_out_date number_of_adults
                budget
              = Ok hr))
  /\ (forall (input : ItineraryInput) (ns : list string)
        (c : FullTravelItinerary),
        itinerary_prepare w s = (Ok input, ns) ->
        structured_itinerary_chain w input = Ok c ->
        let data : pydict :=
          <[ "user_request_summary" := VDict (user_info s) ]>
            (FullTravelItinerary_dump c) in
        (forall k,
           k <> "user_request_summary" -> k <> "notes_and_warnings" ->
           data !! k = itinerary_fields c !! k)
        /\ exists doc ns',
             itinerary_agent_node w s
             = (Ok (mkUpdate None None None None (Some doc) None), ns')
             /\ match FinalFullTravelItinerary w data with
                | Some final => doc = final
                | None =>
                    forall k,
                      k <> "notes_and_warnings" -> k <> "disclaimer" ->
                      doc !! k = data !! k
                end).
Proof.
  assert (forall ns ns' hotel_updated,
            itinerary_hotel_updated w (default (VDict ∅) (hotel_results s)) ns
            = (Ok hotel_updated, ns') ->
            Forall (fun h => (length (amenities h) <= 5)%nat) hotel_updated)
    as Hupdated.
  { intros ns ns' hotel_updated. unfold itinerary_hotel_updated.
    destruct (truthy _); [|intros [= <- _]; constructor].
    destruct (py_get _ "hotels" VNone) as [hotels|]; [|done].
    destruct (truthy hotels); [|intros [= <- _]; constructor].
    destruct (py_iter hotels) as [items|]; [|done].
    apply collect_Forall. apply hotel_of_data_amenities. }
  assert (forall ns ns' augmented,
            itinerary_hotels w s ns = (Ok augmented, ns') ->
            Forall (fun h => (length (amenities h) <= 5)%nat) augmented)
    as Haugmented.
  { intros ns ns' augmented. unfold itinerary_hotels.
    destruct (itinerary_hotel_updated w _ ns) as [[hotel_updated|e] ns1] eqn:Hup;
      [|done].
    destruct (augment_hotels w 0 _ hotel_updated ns1) as [aug ns2] eqn:Haug.
    intros [= <- _].
    pose proof (Hupdated _ _ _ Hup) as Hfive.
    eapply (augment_hotels_Forall _ w _ hotel_updated) with (i := 0%nat) (ns := ns1)
      in Hfive.
    - by rewrite Haug in Hfive.
    - intros i h Hh. by rewrite augment_hotel_amenities. }
  split; [exact Hupdated|]. split; [exact Haugmented|].
  split; [|split; [|split]].
  - intros input ns. unfold itinerary_prepare.
    destruct (itinerary_hotels w s (notes_of s)) as [[augmented|e] ns1] eqn:Hh;
      [|done].
    destruct (destination_lists _) as [[? ?] ?].
    destruct (itinerary_flights w s ns1) as [[fs|e] ns2]; [|done].
    destruct (itinerary_num_days w (user_info s)); [|done].
    intros [= <- _]. cbn [in_augmented_hotel_details_objects_json].
    apply Forall_fmap. eapply Forall_impl; [exact (Haugmented _ _ _ Hh)|].
    intros h Hle.
    change (list_length_at "amenities" (Hotel_dump h) <= 5)%nat.
    by rewrite Hotel_dump_amenities.
  - intros place check_in_date check_out_date number_of_adults budget results
      reply hotels Hsearch. unfold hotel_search. rewrite Hsearch.
    destruct (py_iter _) as [entries|]; cbn [mbind Result_bind]; [|done].
    destruct (traverse hotel_info (take 2 entries)) as [hs|] eqn:Ht;
      cbn [mbind Result_bind]; [|done].
    apply traverse_Forall2 in Ht.
    intros Hreply Hhotels. exists entries. split; [reflexivity|].
    assert (hotels = hs) as ->.
    { destruct hs; injection Hreply as <-; unfold hotels_reply in Hhotels;
        simplify_map_eq; reflexivity. }
    eapply Forall2_impl; [exact Ht|]. intros result hotel.
    apply hotel_info_amenities.
  - intros u ns hr. unfold hotel_agent_node.
    destruct (hotel_agent_try w (user_info s)) as [[tool_output note]|e] eqn:Htry.
    + intros [= <- _]. cbn. intros [= <-]. right.
      revert Htry. unfold hotel_agent_try.
      destruct (negb _); [done|].
      destruct (invoke_hotel_search w _ _ _ _ _) as [reply|] eqn:Hinv;
        cbn [mbind Result_bind]; [|done].
      intros [= <- _].
      revert Hinv. unfold invoke_hotel_search.
      repeat match goal with
             | |- mbind _ ?r = Ok _ -> _ =>
                 destruct r; cbn [mbind Result_bind]; [|done]
             end.
      intros H. by eexists _, _, _, _, _.
    + intros [= <- _]. cbn. intros [= <-]. left. by eexists.
  - intros input ns c Hprep Hc data. split.
    + intros k Hk1 Hk2. unfold data, FullTravelItinerary_dump.
      rewrite lookup_insert_ne by done.
      destruct (notes_and_warnings c).
      * by rewrite lookup_insert_ne.
      * by rewrite lookup_delete_ne.
    + unfold itinerary_agent_node. rewrite Hprep.
      unfold itinerary_compile. rewrite Hc. fold data.
      destruct (FinalFullTravelItinerary w data) as [final|].
      * by eexists _, _.
      * eexists _, _. split; [reflexivity|]. intros k Hk1 Hk2.
        by rewrite !lookup_insert_ne.
Qed.


(** Two hotels found with six amenities each: the first augmentation call
    fails, the second succeeds, both records have five amenities; the
    hotels of the reply of the search have the six amenities of their
    entries. *)
Lemma itinerary_hotels_at_most_five_amenities_witness :
  let five := ["Free Wi-Fi"; "Pool"; "Spa"; "Bar"; "Gym"] in
  let augmented :=
    [mkHotel "Hotel Lumiere" "$120" (VFloat 4.5%float) five "" "" "";
     mkHotel "Maison Rive" "$140" (VFloat 4.5%float) five
       "1 Quay Street" "" "Harbour view"] in
  let ns :=
    ["Error during hotel augmentation for Hotel Lumiere: model unavailable"] in
  (itinerary_hotels sample_world sample_itinerary_state [] = (Ok augmented, ns)
   /\ Forall (fun h => (length (amenities h) <= 5)%nat) augmented)
  /\ (hotel_search sample_world "Sydney" "2025-06-01" "2025-06-06" 2 None
      = Ok sample_hotel_reply
      /\ exists entries,
           Forall2
             (fun result hotel =>
                exists d,
                  result = VDict d
                  /\ py_get hotel "amenities" VNone
                     = Ok (dict_get d "amenities" (VList [])))
             (take 2 entries)
             [sample_simplified_hotel "Hotel Lumiere" "$120";
              sample_simplified_hotel "Maison Rive" "$140"]).
Proof.
  intros five augmented ns.
  destruct (itinerary_hotels_at_most_five_amenities sample_world
              sample_itinerary_state)
    as (_ & Haugmented & _ & Hconnector & _).
  assert (itinerary_hotels sample_world sample_itinerary_state []
          = (Ok augmented, ns)) as H by (vm_compute; reflexivity).
  assert (hotel_search sample_world "Sydney" "2025-06-01" "2025-06-06" 2 None
          = Ok sample_hotel_reply) as Hsearch by (vm_compute; reflexivity).
  split.
  - split; [exact H|]. exact (Haugmented _ _ _ H).
  - split; [exact Hsearch|].
    destruct (Hconnector "Sydney" "2025-06-01" "2025-06-06" 2 None
                sample_hotel_results sample_hotel_reply
                [sample_simplified_hotel "Hotel Lumiere" "$120";
                 sample_simplified_hotel "Maison Rive" "$140"]
                eq_refl Hsearch ltac:(vm_compute; reflexivity))
      as (entries & _ & Hall).
    exists entries. exact Hall.
Defined.

(** C6 as it is worded fails in two places.  A hotel in the reply of
    [hotel_search], which the Hotel stage stores in the state as it is,
    keeps all the amenities the search returned, here six.  And a hotel of
    the final document has the amenities the itinerary chain listed for it,
    here six again. *)
Lemma hotel_search_amenities_counterexample :
  ~ (forall (w : World) (place check_in_date check_out_date : string)
       (number_of_adults : Z) (budget : option string) (reply : pydict)
       (hotels : list pyval) (h : pyval),
       hotel_search w place check_in_date check_out_date number_of_adults budget
       = Ok reply ->
       reply !! "hotels" = Some (VList hotels) ->
       In h hotels ->
       (list_length_at "amenities" h <= 5)%nat)
  /\ ~ (forall (w : World) (s : TravelPlannerState) (u : Update)
          (ns : list string) (doc : pydict) (hotels : list pyval) (h : pyval),
          itinerary_agent_node w s = (Ok u, ns) ->
          new_final_itinerary u = Some doc ->
          doc !! "hotels" = Some (VList hotels) ->
          In h hotels ->
          (list_length_at "amenities" h <= 5)%nat).
Proof.
  assert (list_length_at "amenities"
            (sample_simplified_hotel "Hotel Lumiere" "$120") = 6%nat) as Hsix
      by (vm_compute; reflexivity).
  split; intros Hclaim.
  - specialize (Hclaim sample_world "Sydney" "2025-06-01" "2025-06-06" 2 None
                  sample_hotel_reply
                  [sample_simplified_hotel "Hotel Lumiere" "$120";
                   sample_simplified_hotel "Maison Rive" "$140"]
                  (sample_simplified_hotel "Hotel Lumiere" "$120")).
    rewrite Hsix in Hclaim.
    assert (6 <= 5)%nat; [|lia].
    apply Hclaim; [vm_compute; reflexivity|vm_compute; reflexivity|by left].
  - assert (match (itinerary_agent_node six_amenities_world
                     sample_itinerary_state).1 with
            | Ok u => new_final_itinerary u ≫= (fun d : pydict => d !! "hotels")
            | Raise _ => None
            end
            = Some (VList [sample_simplified_hotel "Hotel Lumiere" "$120"]))
      as Hhotels by (vm_compute; reflexivity).
    destruct (itinerary_agent_node six_amenities_world sample_itinerary_state)
      as [[u|e] ns] eqn:Hrun; cbn [fst] in Hhotels; [|discriminate Hhotels].
    destruct (new_final_itinerary u) as [doc|] eqn:Hdoc; cbn in Hhotels;
      [|discriminate Hhotels].
    specialize (Hclaim six_amenities_world sample_itinerary_state u ns doc
                  [sample_simplified_hotel "Hotel Lumiere" "$120"]
                  (sample_simplified_hotel "Hotel Lumiere" "$120")
                  Hrun Hdoc Hhotels (or_introl eq_refl)).
    rewrite Hsix in Hclaim. lia.
Qed.


(** ** Hotel augmentation *)

(** C7.  The augmentation loop returns one record per record of
    [hotel_updated], and where the augmentation call of a hotel raises, the
    record at its place is the record the loop was given. *)
Theorem augmentation_keeps_every_hotel (w : World) (i : nat) (city : pyval)
    (hotel_updated : list Hotel) (ns : list string) :
  let augmented := (augment_hotels w i city hotel_updated ns).1 in
  length augmented = length hotel_updated
  /\ forall (k : nat) (h : Hotel) (e : exn),
       hotel_updated !! k = Some h ->
       augmentation_chain w (i + k) (augmentation_input w city h) = Raise e ->
       augmented !! k = Some h.
Proof.
  revert i ns. induction hotel_updated as [|h0 hs IH]; intros i ns; cbn.
  - split; [done|]. intros k h e Hk. by rewrite lookup_nil in Hk.
  - destruct (augment_hotel w i city h0) as [h0' note] eqn:Hah.
    destruct (augment_hotels w (S i) city hs (ns ++ option_list note))
      as [r ns'] eqn:Hrec.
    destruct (IH (S i) (ns ++ option_list note)) as [Hlen Hkeep].
    rewrite Hrec in Hlen, Hkeep. cbn in Hlen, Hkeep. cbn. split; [by rewrite Hlen|].
    intros [|k] h e Hk Hraise; cbn in Hk |- *.
    + injection Hk as ->. rewrite Nat.add_0_r in Hraise.
      unfold augment_hotel in Hah. rewrite Hraise in Hah. by injection Hah as <- _.
    + apply (Hkeep k h e Hk).
      by replace (S (i + k))%nat with (i + S k)%nat by lia.
Qed.

(** Two hotels, the augmentation call of the first one raises. *)
Lemma augmentation_keeps_every_hotel_witness :
  let h := mkHotel "Hotel Lumiere" "$120" (VFloat 4.5%float)
             ["Free Wi-Fi"; "Pool"] "" "" "" in
  let e := Exn OtherException "model unavailable" "" in
  let augmented := (augment_hotels sample_world 0 (VStr "Sydney") sample_hotels []).1 in
  (sample_hotels !! 0%nat = Some h
   /\ augmentation_chain sample_world 0
        (augmentation_input sample_world (VStr "Sydney") h) = Raise e)
  /\ length augmented = 2%nat
  /\ augmented !! 0%nat = Some h.
Proof.
  intros h e augmented.
  destruct (augmentation_keeps_every_hotel sample_world 0 (VStr "Sydney")
              sample_hotels []) as [Hlen Hkeep].
  split; [by split|]. split; [exact Hlen|].
  exact (Hkeep 0%nat h e eq_refl eq_refl).
Defined.

(** ** The Itinerary Compiler from the compilation on *)

(** From the invocation of the itinerary chain on, the stage always returns
    a document. *)
Lemma itinerary_compile_returns (w : World) (ui : pydict) (input : ItineraryInput)
    (ns : list string) :
  exists doc, new_final_itinerary (itinerary_compile w ui input ns).1 = Some doc.
Proof.
  unfold itinerary_compile.
  destruct (structured_itinerary_chain w input); [|by eexists].
  destruct (FinalFullTravelItinerary w _); by eexists.
Qed.

(** When the itinerary chain raises, the document holds the notes, the
    error message among them, and the disclaimer, and nothing else. *)
Lemma itinerary_compile_failure (w : World) (ui : pydict)
    (input : ItineraryInput) (ns : list string) (e : exn) :
  structured_itinerary_chain w input = Raise e ->
  itinerary_compile w ui input ns
  = (mkUpdate None None None None
       (Some {[ "notes_and_warnings" :=
                  VList (VStr <$> (ns ++ [compilation_error_msg e]));
                "disclaimer" := VStr "Partial itinerary due to internal error." ]})
       None,
     ns ++ [compilation_error_msg e]).
Proof. intros He. unfold itinerary_compile. by rewrite He. Qed.

(** When the final schema rejects the assembled document, the document is
    returned all the same, with the failure among its notes and with a
    disclaimer. *)
Lemma itinerary_final_validation_failure (w : World) (ui : pydict)
    (input : ItineraryInput) (ns : list string) (c : FullTravelItinerary) :
  structured_itinerary_chain w input = Ok c ->
  FinalFullTravelItinerary w
    (<[ "user_request_summary" := VDict ui ]> (FullTravelItinerary_dump c)) = None ->
  exists doc failed,
    (itinerary_compile w ui input ns).1
    = mkUpdate None None None None (Some doc) None
    /\ doc !! "user_request_summary" = Some (VDict ui)
    /\ doc !! "disclaimer"
       = Some (VStr "Partial itinerary generated due to final validation error.")
    /\ doc !! "notes_and_warnings"
       = Some (VList (VStr <$> (default [] (notes_and_warnings c) ++ [failed]))).
Proof.
  intros Hc Hfinal. unfold itinerary_compile. rewrite Hc, Hfinal.
  eexists _, _. split; [reflexivity|]. by simplify_map_eq.
Qed.


(** ** The Itinerary Compiler before the compilation *)

(** C8, where the code departs from it.  [int(num_days)] is guarded
    against [ValueError] only: when [user_info] holds [num_days] as [None]
    and the hotels and flights of the state can be read, the stage raises a
    [TypeError] to its caller before it reaches the itinerary chain. *)
Theorem itinerary_stage_raises_on_null_num_days (w : World)
    (s : TravelPlannerState) (hs : list Hotel) (fs : list Flight)
    (ns1 ns2 : list string) :
  itinerary_hotels w s (notes_of s) = (Ok hs, ns1) ->
  itinerary_flights w s ns1 = (Ok fs, ns2) ->
  user_info s !! "num_days" = Some VNone ->
  exists e,
    itinerary_agent_node w s = (Raise e, ns2) /\ exn_cls e = TypeError.
Proof.
  intros Hh Hf Hn. unfold itinerary_agent_node, itinerary_prepare.
  rewrite Hh. destruct (destination_lists _) as [[? ?] ?]. rewrite Hf.
  unfold itinerary_num_days. rewrite (dict_get_Some _ _ _ _ Hn). cbn.
  by eexists.
Qed.

Lemma itinerary_stage_raises_on_null_num_days_witness :
  let s := sample_null_days_state in
  (itinerary_hotels sample_world s (notes_of s) = (Ok [], notes_of s)
   /\ itinerary_flights sample_world s (notes_of s) = (Ok [], notes_of s)
   /\ user_info s !! "num_days" = Some VNone)
  /\ exists e,
       itinerary_agent_node sample_world s = (Raise e, notes_of s)
       /\ exn_cls e = TypeError.
Proof.
  intros s.
  assert (itinerary_hotels sample_world s (notes_of s) = (Ok [], notes_of s))
    as Hh by (vm_compute; reflexivity).
  assert (itinerary_flights sample_world s (notes_of s) = (Ok [], notes_of s))
    as Hf by (vm_compute; reflexivity).
  assert (user_info s !! "num_days" = Some VNone) as Hn by reflexivity.
  split; [by repeat split|].
  exact (itinerary_stage_raises_on_null_num_days sample_world s [] []
           (notes_of s) (notes_of s) Hh Hf Hn).
Defined.

(** * Further properties of the code *)

(** ** [fetch_flights] and [hotel_search]: the shape of a reply *)

Lemma traverse_not_nil {A B} (f : A -> Result B) (l : list A) (r : list B) :
  traverse f l = Ok r -> l <> [] -> r <> [].
Proof.
  intros Ht Hl Hr. apply traverse_length in Ht. subst r.
  destruct l; [done|discriminate Ht].
Qed.

Lemma py_iter_truthy (v : pyval) (items : list pyval) :
  truthy v = true -> py_iter v = Ok items -> items <> [].
Proof.
  destruct v as [| | | |s|l|d]; cbn; try done.
  - intros Hs [= <-]. destruct s; [done|]. done.
  - intros Hl [= <-]. by destruct l.
  - intros Hd [= <-] Hnil.
    apply fmap_nil_inv, fmap_nil_inv, map_to_list_empty_iff in Hnil. subst d.
    by rewrite bool_decide_eq_true_2 in Hd.
Qed.

Lemma simplified_flight_dict (w : World) (best0 leg flight : pyval) :
  simplified_flight w best0 leg = Ok flight -> exists d, flight = VDict d.
Proof.
  unfold simplified_flight. intros H.
  repeat match type of H with
         | mbind _ ?r = Ok _ =>
             let E := fresh "E" in
             destruct r eqn:E; cbn in H; [|discriminate H]
         end.
  injection H as <-. by eexists.
Qed.

(** A reply of [fetch_flights] is one of two things: no flight and a note
    that is not empty, or flights, each a dictionary, and no note. *)
Lemma fetch_flights_cases (w : World)
    (source destination departure_date return_date : string) (reply : pydict) :
  fetch_flights w source destination departure_date return_date = Ok reply ->
  (exists n, n <> "" /\ reply = flights_reply source destination [] (Some n))
  \/ (exists flights,
        flights <> [] /\ Forall (fun f => exists d, f = VDict d) flights
        /\ reply = flights_reply source destination flights None).
Proof.
  unfold fetch_flights.
  destruct (GoogleSearch w _) as [results|e].
  2:{ intros [= <-]. left. eexists. split; [|reflexivity]. done. }
  cbv zeta. destruct (truthy (dict_get results "best_flights" (VList []))); cbn [negb].
  2:{ intros [= <-]. left. eexists. split; [|reflexivity]. done. }
  assert (forall r : pydict,
            Ok (flights_reply source destination []
                  (Some "No detailed flight legs found within the best flight option."))
            = Ok r ->
            (exists n, n <> "" /\ r = flights_reply source destination [] (Some n))
            \/ (exists flights, flights <> []
                  /\ Forall (fun f => exists d, f = VDict d) flights
                  /\ r = flights_reply source destination flights None)) as Hno.
  { intros r [= <-]. left. eexists. split; [|reflexivity]. done. }
  destruct (dict_get results "best_flights" (VList [])) as [| | | | |[|best0 rest]|];
    try apply Hno.
  destruct (py_get best0 "flights" VNone) as [legs|] eqn:Hget0; cbn; [|done].
  destruct (truthy legs) eqn:Hlegs; [|apply Hno].
  destruct (py_get best0 "flights" (VList [])) as [legs'|] eqn:Hget; cbn; [|done].
  destruct (py_iter legs') as [items|] eqn:Hiter; cbn; [|done].
  destruct (traverse _ items) as [flights|] eqn:Ht; cbn; [|done].
  intros [= <-]. right. exists flights.
  split; [|split; [|reflexivity]].
  2:{ apply traverse_Forall2 in Ht. clear -Ht.
      induction Ht as [|x y l l' Hx _ IH]; constructor; [|exact IH].
      by eapply simplified_flight_dict. }
  destruct flights as [|f flights]; [|done].
  apply traverse_length in Ht. destruct items; [|discriminate Ht].
  (* no item to visit: the value under [flights] was not truthy *)
  exfalso. destruct best0 as [| | | | | |d]; try discriminate Hget.
  cbn in Hget, Hget0. injection Hget as <-. injection Hget0 as <-.
  unfold dict_get in Hlegs, Hiter.
  destruct (d !! "flights") as [v|]; cbn in Hlegs, Hiter; [|done].
  by eapply py_iter_truthy.
Qed.

(** X1.  A reply of [fetch_flights] repeats the source and the destination
    it was asked for and lists flights; it carries a note exactly when it
    lists no flight. *)
Theorem fetch_flights_note_iff_no_flights (w : World)
    (source destination departure_date return_date : string) (reply : pydict) :
  fetch_flights w source destination departure_date return_date = Ok reply ->
  reply !! "source" = Some (VStr source)
  /\ reply !! "destination" = Some (VStr destination)
  /\ exists flights,
       reply !! "flights" = Some (VList flights)
       /\ (flights = [] <-> is_Some (reply !! "note")).
Proof.
  intros [(n & _ & ->)|(flights & Hne & _ & ->)]%fetch_flights_cases;
    unfold flights_reply; simplify_map_eq; (split; [done|]); (split; [done|]);
    eexists; (split; [done|]).
  - split; [by eexists|done].
  - split; [done|]. by intros [? [=]].
Qed.

Lemma fetch_flights_note_iff_no_flights_witness :
  let reply :=
    flights_reply "DXB" "SYD" []
      (Some "Error fetching flights: connection refused") in
  fetch_flights offline_world "DXB" "SYD" "2025-06-01" "2025-06-06" = Ok reply
  /\ reply !! "source" = Some (VStr "DXB")
  /\ reply !! "destination" = Some (VStr "SYD")
  /\ exists flights,
       reply !! "flights" = Some (VList flights)
       /\ (flights = [] <-> is_Some (reply !! "note")).
Proof.
  intros reply.
  assert (fetch_flights offline_world "DXB" "SYD" "2025-06-01" "2025-06-06"
          = Ok reply) as H by (vm_compute; reflexivity).
  split; [exact H|].
  exact (fetch_flights_note_iff_no_flights _ _ _ _ _ _ H).
Defined.

(** A reply of [hotel_search] is one of two things: no hotel and a note
    that is not empty, or one or two hotels and no note. *)
Lemma hotel_search_cases (w : World)
    (place check_in_date check_out_date : string) (number_of_adults : Z)
    (budget : option string) (reply : pydict) :
  hotel_search w place check_in_date check_out_date number_of_adults budget
  = Ok reply ->
  (exists n, n <> "" /\ reply = hotels_reply place [] (Some n))
  \/ (exists hotels,
        hotels <> [] /\ (length hotels <= 2)%nat
        /\ reply = hotels_reply place hotels None).
Proof.
  unfold hotel_search.
  destruct (GoogleSearch w _) as [results|e].
  2:{ intros [= <-]. left. eexists. split; [|reflexivity]. done. }
  destruct (py_iter _) as [items|]; cbn; [|done].
  destruct (traverse hotel_info (take 2 items)) as [hs|] eqn:Ht; cbn; [|done].
  apply traverse_length in Ht.
  destruct hs as [|h hs]; intros [= <-].
  - left. eexists. split; [|reflexivity]. done.
  - right. exists (h :: hs). split; [done|]. split; [|reflexivity].
    rewrite Ht, length_take. lia.
Qed.

(** X2.  A reply of [hotel_search] repeats the place it was asked for and
    lists hotels; it carries a note exactly when it lists no hotel. *)
Theorem hotel_search_note_iff_no_hotels (w : World)
    (place check_in_date check_out_date : string) (number_of_adults : Z)
    (budget : option string) (reply : pydict) :
  hotel_search w place check_in_date check_out_date number_of_adults budget
  = Ok reply ->
  reply !! "place" = Some (VStr place)
  /\ exists hotels,
       reply !! "hotels" = Some (VList hotels)
       /\ (hotels = [] <-> is_Some (reply !! "note")).
Proof.
  intros [(n & _ & ->)|(hotels & Hne & _ & ->)]%hotel_search_cases;
    unfold hotels_reply; simplify_map_eq; (split; [done|]);
    eexists; (split; [done|]).
  - split; [by eexists|done].
  - split; [done|]. by intros [? [=]].
Qed.

Lemma hotel_search_note_iff_no_hotels_witness :
  hotel_search sample_world "Sydney" "2025-06-01" "2025-06-06" 2 None
  = Ok sample_hotel_reply
  /\ sample_hotel_reply !! "place" = Some (VStr "Sydney")
  /\ exists hotels,
       sample_hotel_reply !! "hotels" = Some (VList hotels)
       /\ (hotels = [] <-> is_Some (sample_hotel_reply !! "note")).
Proof.
  assert (hotel_search sample_world "Sydney" "2025-06-01" "2025-06-06" 2 None
          = Ok sample_hotel_reply) as H by (vm_compute; reflexivity).
  split; [exact H|].
  exact (hotel_search_note_iff_no_hotels _ _ _ _ _ _ _ H).
Defined.

(** ** [fetch_flights] and [hotel_search]: entries that can be read *)

Lemma dict_or_absent_get (d : pydict) (k : string) :
  dict_or_absent d k = true -> exists d', dict_get d k (VDict ∅) = VDict d'.
Proof.
  unfold dict_or_absent, dict_get.
  destruct (d !! k) as [[]|]; cbn; try done; by eexists.
Qed.

Lemma simplified_flight_leg_ok (w : World) (b : pydict) (leg : pyval) :
  leg_ok leg = true -> exists flight, simplified_flight w (VDict b) leg = Ok flight.
Proof.
  destruct leg as [| | | | | |d]; try done. cbn [leg_ok].
  intros [Hdep Harr]%andb_true_iff.
  apply dict_or_absent_get in Hdep as [dep Hdep].
  apply dict_or_absent_get in Harr as [arr Harr].
  unfold simplified_flight. cbn. rewrite Hdep, Harr. cbn. by eexists.
Qed.

Lemma traverse_total {A B} (f : A -> Result B) (l : list A) :
  Forall (fun x => exists y, f x = Ok y) l -> exists r, traverse f l = Ok r.
Proof.
  induction 1 as [|x l [y Hy] _ [r Hr]]; cbn; [by eexists|].
  rewrite Hy. cbn. rewrite Hr. cbn. by eexists.
Qed.

(** X3.  When the first best-flight option is a dictionary whose legs are
    a list of dictionaries with readable airports, [fetch_flights] returns,
    with one flight per leg. *)
Theorem fetch_flights_returns_on_readable_legs (w : World)
    (source destination departure_date return_date : string)
    (results b : pydict) (later legs : list pyval) :
  GoogleSearch w (flight_params w source destination departure_date return_date)
  = Ok results ->
  results !! "best_flights" = Some (VList (VDict b :: later)) ->
  b !! "flights" = Some (VList legs) ->
  forallb leg_ok legs = true ->
  exists reply flights,
    fetch_flights w source destination departure_date return_date = Ok reply
    /\ reply !! "flights" = Some (VList flights)
    /\ length flights = length legs.
Proof.
  intros Hsearch Hbest Hlegs Hok. unfold fetch_flights. rewrite Hsearch.
  cbv zeta. rewrite (dict_get_Some _ _ _ _ Hbest). cbn [truthy negb py_get].
  cbn. rewrite !(dict_get_Some _ _ _ _ Hlegs).
  destruct legs as [|leg legs'] eqn:Hl.
  { cbn. eexists _, []. split; [reflexivity|]. by simplify_map_eq. }
  cbn [truthy py_iter]. rewrite <- Hl in *. clear Hl.
  destruct (traverse_total (simplified_flight w (VDict b)) legs) as [flights Ht].
  { apply Forall_forall. intros leg0 Hin.
    apply simplified_flight_leg_ok.
    rewrite forallb_forall in Hok. apply Hok. by apply list_elem_of_In. }
  cbn. rewrite Ht. cbn. eexists _, flights. split; [reflexivity|].
  split; [by simplify_map_eq|]. by eapply traverse_length.
Qed.

Lemma fetch_flights_returns_on_readable_legs_witness :
  (GoogleSearch sample_world
     (flight_params sample_world "DXB" "SYD" "2025-06-01" "2025-06-06")
   = Ok sample_flight_results
   /\ forallb leg_ok [sample_leg "Emirates" "Dubai" "Singapore";
                      sample_leg "Qantas" "Singapore" "Sydney"] = true)
  /\ exists reply flights,
       fetch_flights sample_world "DXB" "SYD" "2025-06-01" "2025-06-06" = Ok reply
       /\ reply !! "flights" = Some (VList flights)
       /\ length flights = 2%nat.
Proof.
  assert (forallb leg_ok [sample_leg "Emirates" "Dubai" "Singapore";
                          sample_leg "Qantas" "Singapore" "Sydney"] = true)
    as Hok by (vm_compute; reflexivity).
  split; [split; [vm_compute; reflexivity|exact Hok]|].
  refine (fetch_flights_returns_on_readable_legs sample_world
            "DXB" "SYD" "2025-06-01" "2025-06-06" sample_flight_results
            {[ "flights" := VList [sample_leg "Emirates" "Dubai" "Singapore";
                                   sample_leg "Qantas" "Singapore" "Sydney"];
               "price" := VInt 1520 ]}
            [sample_best1] _ _ _ _ Hok); vm_compute; reflexivity.
Defined.

Lemma hotel_info_entry_ok (result : pyval) :
  entry_ok result = true -> exists h, hotel_info result = Ok h.
Proof.
  destruct result as [| | | | | |d]; try done. cbn [entry_ok].
  intros [rate Hrate]%dict_or_absent_get.
  unfold hotel_info. cbn. rewrite Hrate. cbn.
  destruct (truthy (dict_get rate "lowest" VNone)); cbn;
    destruct (truthy (dict_get d "overall_rating" VNone)); cbn; by eexists.
Qed.

(** X4.  [hotel_search] reads the entries under [properties], and those
    under [ads] when [properties] is absent or empty.  When the first two
    entries are dictionaries with a readable rate it returns, with one hotel
    for each of them, in order; the entries after the second are not read. *)
Theorem hotel_search_first_two_entries (w : World)
    (place check_in_date check_out_date : string) (number_of_adults : Z)
    (budget : option string) (results : pydict) (entries : list pyval) :
  GoogleSearch w
    (hotel_params w place check_in_date check_out_date number_of_adults budget)
  = Ok results ->
  (results !! "properties" = Some (VList entries) /\ entries <> [])
  \/ (truthy (dict_get results "properties" (VList [])) = false
      /\ results !! "ads" = Some (VList entries)) ->
  forallb entry_ok (take 2 entries) = true ->
  exists reply hotels,
    hotel_search w place check_in_date check_out_date number_of_adults budget
    = Ok reply
    /\ reply !! "hotels" = Some (VList hotels)
    /\ Forall2 (fun result hotel => hotel_info result = Ok hotel)
         (take 2 entries) hotels.
Proof.
  intros Hsearch Hsrc Hok. unfold hotel_search. rewrite Hsearch. cbv zeta.
  assert ((if negb (truthy (dict_get results "properties" (VList [])))
           then dict_get results "ads" (VList [])
           else dict_get results "properties" (VList [])) = VList entries) as ->.
  { destruct Hsrc as [[Hp Hne]|[Hp Ha]].
    - rewrite (dict_get_Some _ _ _ _ Hp). by destruct entries.
    - rewrite Hp. cbn. by apply dict_get_Some. }
  cbn [py_iter]. cbn.
  destruct (traverse_total hotel_info (take 2 entries)) as [hs Ht].
  { apply Forall_forall. intros r Hin. apply hotel_info_entry_ok.
    rewrite forallb_forall in Hok. apply Hok. by apply list_elem_of_In. }
  rewrite Ht. cbn. pose proof (traverse_Forall2 _ _ _ Ht) as HF.
  destruct hs as [|h hs]; eexists _, _; (split; [reflexivity|]);
    (split; [by simplify_map_eq|exact HF]).
Qed.

(** Three properties found, the third one not even a dictionary. *)
Lemma hotel_search_first_two_entries_witness :
  let entries := [sample_property "Hotel Lumiere" "$120";
                  sample_property "Maison Rive" "$140"; VNone] in
  let results : pydict := {[ "properties" := VList entries ]} in
  let w :=
    mkWorld "key" (py_repr sample_world) (pydantic_message sample_world)
      (pydantic_errors sample_world)
      (pydantic_int sample_world) (pydantic_rating sample_world)
      (fun _ => Ok results)
      (extractor_chain sample_world) (info_agent_chain sample_world)
      (augmentation_chain sample_world) (structured_itinerary_chain sample_world)
      (FinalFullTravelItinerary sample_world) in
  forallb entry_ok (take 2 entries) = true
  /\ exists reply hotels,
       hotel_search w "Sydney" "2025-06-01" "2025-06-06" 2 None = Ok reply
       /\ reply !! "hotels" = Some (VList hotels)
       /\ Forall2 (fun result hotel => hotel_info result = Ok hotel)
            (take 2 entries) hotels.
Proof.
  intros entries results w.
  assert (forallb entry_ok (take 2 entries) = true) as Hok
      by (vm_compute; reflexivity).
  split; [exact Hok|].
  refine (hotel_search_first_two_entries w "Sydney" "2025-06-01" "2025-06-06" 2
            None results entries eq_refl (or_introl (conj _ _)) Hok).
  - vm_compute; reflexivity.
  - discriminate.
Defined.

(** ** [hotel_search]: the budget *)

Lemma lower_ascii_idemp (c : ascii) : lower_ascii (lower_ascii c) = lower_ascii c.
Proof. destruct c as [[] [] [] [] [] [] [] []]; reflexivity. Qed.

Lemma lower_idemp (s : string) : lower (lower s) = lower s.
Proof.
  induction s as [|c s IH]; [done|]. cbn. by rewrite lower_ascii_idemp, IH.
Qed.

Lemma truthy_lower (s : string) : truthy (VStr (lower s)) = truthy (VStr s).
Proof. by destruct s. Qed.

(** X5.  The price band of [hotel_search] depends on the budget through
    its lower-case form only.  The three tiers set [min_price] and
    [max_price] to their band; any other budget, the empty one included,
    gives the search the parameters it gets without a budget. *)
Theorem hotel_params_budget (w : World)
    (place check_in_date check_out_date : string) (number_of_adults : Z)
    (budget : string) :
  let params :=
    hotel_params w place check_in_date check_out_date number_of_adults
      (Some budget) in
  params
  = hotel_params w place check_in_date check_out_date number_of_adults
      (Some (lower budget))
  /\ (forall lo hi,
        price_ranges (lower budget) = Some (lo, hi) ->
        params !! "min_price" = Some (VInt lo)
        /\ params !! "max_price" = Some (VInt hi))
  /\ (price_ranges (lower budget) = None ->
      params
      = hotel_params w place check_in_date check_out_date number_of_adults None).
Proof.
  cbv zeta. unfold hotel_params. rewrite truthy_lower, lower_idemp.
  split; [done|]. split.
  - intros lo hi Hband. rewrite Hband.
    assert (truthy (VStr budget) = true) as ->.
    { destruct budget; [|done]. cbn in Hband. discriminate Hband. }
    by simplify_map_eq.
  - intros ->. by destruct (truthy (VStr budget)).
Qed.

Lemma hotel_params_budget_witness :
  let params := hotel_params sample_world "Sydney" "2025-06-01" "2025-06-06" 2
                  (Some "Luxury") in
  price_ranges (lower "Luxury") = Some (301, 10000)
  /\ params !! "min_price" = Some (VInt 301)
  /\ params !! "max_price" = Some (VInt 10000).
Proof.
  intros params. split; [reflexivity|].
  exact (proj1 (proj2 (hotel_params_budget sample_world "Sydney" "2025-06-01"
                         "2025-06-06" 2 "Luxury")) 301 10000 eq_refl).
Defined.

Lemma price_ranges_Some (name : string) (lo hi : Z) :
  price_ranges name = Some (lo, hi) ->
  (name = "economy" /\ lo = 50 /\ hi = 175)
  \/ (name = "standard" /\ lo = 176 /\ hi = 300)
  \/ (name = "luxury" /\ lo = 301 /\ hi = 10000).
Proof.
  unfold price_ranges. repeat case_bool_decide; intros [=]; subst; auto.
Qed.

(** X6.  The price bands of the three tiers do not overlap and leave no
    gap: every nightly price from 50 to 10000 lies in the band of exactly
    one tier. *)
Theorem price_ranges_partition (p : Z) :
  50 <= p <= 10000 ->
  exists name,
    (exists lo hi, price_ranges name = Some (lo, hi) /\ lo <= p <= hi)
    /\ forall name' lo hi,
         price_ranges name' = Some (lo, hi) -> lo <= p <= hi -> name' = name.
Proof.
  intros Hp.
  destruct (Z_le_gt_dec p 175); [|destruct (Z_le_gt_dec p 300)].
  - exists "economy". split; [exists 50, 175; split; [reflexivity|lia]|].
    intros ? ? ? [(-> & -> & ->)|[(-> & -> & ->)|(-> & -> & ->)]]%price_ranges_Some;
      [done|lia|lia].
  - exists "standard". split; [exists 176, 300; split; [reflexivity|lia]|].
    intros ? ? ? [(-> & -> & ->)|[(-> & -> & ->)|(-> & -> & ->)]]%price_ranges_Some;
      [lia|done|lia].
  - exists "luxury". split; [exists 301, 10000; split; [reflexivity|lia]|].
    intros ? ? ? [(-> & -> & ->)|[(-> & -> & ->)|(-> & -> & ->)]]%price_ranges_Some;
      [lia|lia|done].
Qed.

Lemma price_ranges_partition_witness :
  50 <= 176 <= 10000
  /\ exists name,
       (exists lo hi, price_ranges name = Some (lo, hi) /\ lo <= 176 <= hi)
       /\ forall name' lo hi,
            price_ranges name' = Some (lo, hi) -> lo <= 176 <= hi -> name' = name.
Proof.
  assert (50 <= 176 <= 10000) as H by lia.
  split; [exact H|exact (price_ranges_partition 176 H)].
Defined.

(** ** The Info Extraction stage: the merge *)

(** X7.  When the extraction returns a record, the [user_info] the stage
    returns holds the two dates of the record, every other field of the
    record, and every key of the [user_info] of the state that the record
    does not have, with its value. *)
Theorem info_extraction_merges (w : World) (s : TravelPlannerState)
    (e : ExtractedTripInfo) :
  extractor_chain w (user_info s) = Ok e ->
  exists ui ns,
    info_extractor_agent_node w s
    = (Ok (mkUpdate (Some ui) None None None None (Some ns)), ns)
    /\ ui !! "departure_date" = Some (VStr (departure_date e))
    /\ ui !! "return_date" = Some (VStr (return_date e))
    /\ forall k,
         k <> "departure_date" -> k <> "return_date" -> k <> "num_days" ->
         ui !! k = match other_fields e !! k with
                   | Some v => Some v
                   | None => user_info s !! k
                   end.
Proof.
  intros He. unfold info_extractor_agent_node. rewrite He.
  assert (exists v, (recompute_num_days e).1 = set_num_days e v) as [v Hv].
  { unfold recompute_num_days.
    destruct (strptime (departure_date e)); [destruct (strptime (return_date e))|];
      cbn; first [by eexists | by exists (num_days e); destruct e]. }
  destruct (recompute_num_days e) as [e' failed]. cbn in Hv. subst e'.
  eexists _, _. split; [reflexivity|].
  unfold ExtractedTripInfo_dump. cbn [departure_date return_date num_days
                                       other_fields set_num_days].
  split; [apply lookup_union_Some_l; by simplify_map_eq|].
  split; [apply lookup_union_Some_l; by simplify_map_eq|].
  intros k H1 H2 H3. rewrite lookup_union, !lookup_insert_ne by done.
  destruct (other_fields e !! k), (user_info s !! k); done.
Qed.

Lemma info_extraction_merges_witness :
  let s := sample_state (<[ "activity_preferences" := VStr "museums" ]>
                           sample_user_info) in
  extractor_chain sample_world (user_info s) = Ok sample_extracted
  /\ exists ui ns,
       info_extractor_agent_node sample_world s
       = (Ok (mkUpdate (Some ui) None None None None (Some ns)), ns)
       /\ ui !! "activity_preferences" = Some (VStr "museums")
       /\ ui !! "no_of_children" = Some (VInt 0).
Proof.
  intros s. split; [reflexivity|].
  destruct (info_extraction_merges sample_world s sample_extracted eq_refl)
    as (ui & ns & Hrun & _ & _ & Hk).
  exists ui, ns. split; [exact Hrun|]. split.
  - rewrite (Hk "activity_preferences") by done. reflexivity.
  - rewrite (Hk "no_of_children") by done. reflexivity.
Defined.

(** ** The Flight stage and its tool *)

Lemma as_str_raises (w : World) (cls : string) (v : pyval) (e : exn) :
  as_str w cls v = Raise e -> is_ValidationError e = true.
Proof. destruct v; cbn; try done; by intros [= <-]. Qed.

(** The constructor of [Flight] raises nothing but a [ValidationError]. *)
Lemma Flight_new_raises (w : World) (a dt at_ da aa p : pyval) (e : exn) :
  Flight_new w a dt at_ da aa p = Raise e -> is_ValidationError e = true.
Proof.
  unfold Flight_new. intros H.
  repeat match type of H with
         | mbind _ ?r = Raise _ =>
             let E := fresh "E" in
             destruct r eqn:E; cbn in H;
             [|injection H as <-; by eapply as_str_raises]
         end.
  discriminate H.
Qed.

Lemma flight_of_data_dict (w : World) (d : pydict) :
  exists o, flight_of_data w (VDict d) = Ok o.
Proof.
  unfold flight_of_data. cbn. unfold skip_invalid.
  destruct (Flight_new _ _ _ _ _ _ _) as [f|e] eqn:Hnew; [by eexists|].
  rewrite (Flight_new_raises _ _ _ _ _ _ _ _ Hnew). by eexists.
Qed.

Lemma flight_of_data_dicts (w : World) (items : list pyval) :
  Forall (fun f => exists d, f = VDict d) items ->
  exists os, traverse (flight_of_data w) items = Ok os.
Proof.
  intros Hd. apply traverse_total.
  eapply Forall_impl; [exact Hd|]. intros ? [d ->]. apply flight_of_data_dict.
Qed.

Lemma length_omap_id {A} (l : list (option A)) :
  (length (omap id l) <= length l)%nat.
Proof. induction l as [|[a|] l IH]; cbn; lia. Qed.

Lemma truthy_insert (k : string) (v : pyval) (m : pydict) :
  truthy (VDict (<[ k := v ]> m)) = true.
Proof.
  cbn. rewrite bool_decide_eq_false_2; [done|]. apply insert_non_empty.
Qed.

Lemma truthy_flights_reply (source destination : string) (flights : list pyval)
    (note : option string) :
  truthy (VDict (flights_reply source destination flights note)) = true.
Proof. destruct note; apply truthy_insert. Qed.

Lemma py_all_text (a b c d : string) :
  a <> "" -> b <> "" -> c <> "" -> d <> "" ->
  py_all [VStr a; VStr b; VStr c; VStr d] = true.
Proof.
  intros. unfold py_all. cbn.
  by rewrite !bool_decide_eq_false_2.
Qed.

(** X8.  With its four fields given as non-empty text, the Flight stage
    relays what [fetch_flights] replies.  A reply with a note (no flight was
    found, or the search failed) becomes [flight_results] with no flight and
    that note, and the note is appended to the notes.  A reply without a
    note becomes [flight_results] with the note "Flight search completed.",
    nothing is appended to the notes, and the flights stored are typed
    records, no more of them than the reply lists. *)
Theorem flight_stage_relays_reply (w : World) (s : TravelPlannerState)
    (a b c d : string) (reply : pydict) :
  flight_fields_text (user_info s) a b c d ->
  fetch_flights w a b c d = Ok reply ->
  exists fr ns,
    flight_agent_node w s
    = (Ok (mkUpdate None (Some fr) None None None (Some ns)), ns)
    /\ (forall n,
          reply !! "note" = Some (VStr n) ->
          fr = {[ "flights" := VList []; "note" := VStr n ]}
          /\ ns = notes_of s ++ [n])
    /\ (reply !! "note" = None ->
        fr !! "note" = Some (VStr "Flight search completed.")
        /\ ns = notes_of s
        /\ exists fs flights,
             reply !! "flights" = Some (VList flights)
             /\ fr !! "flights" = Some (VList (Flight_dump <$> fs))
             /\ (length fs <= length flights)%nat).
Proof.
  intros ((Ha & Ha') & (Hb & Hb') & (Hc & Hc') & (Hd & Hd')) Hfetch.
  unfold flight_agent_node, flight_agent_try.
  rewrite (dict_get_Some _ _ _ _ Ha), (dict_get_Some _ _ _ _ Hb),
    (dict_get_Some _ _ _ _ Hc), (dict_get_Some _ _ _ _ Hd).
  rewrite py_all_text by done. cbn [negb].
  unfold invoke_fetch_flights. cbn [as_str mbind Result_bind].
  rewrite Hfetch. cbn [mbind Result_bind].
  apply fetch_flights_cases in Hfetch
    as [(n & Hn & ->)|(flights & Hne & Hdicts & ->)].
  - rewrite truthy_flights_reply.
    assert (dict_get (flights_reply a b [] (Some n)) "flights" VNone = VList [])
      as -> by (unfold flights_reply, dict_get; by simplify_map_eq).
    assert (forall dflt, dict_get (flights_reply a b [] (Some n)) "note" dflt
                         = VStr n) as Hnote
        by (intros; unfold flights_reply, dict_get; by simplify_map_eq).
    cbn. rewrite !Hnote. cbn. rewrite bool_decide_eq_false_2 by done. cbn.
    eexists _, _. split; [reflexivity|]. split.
    + unfold flights_reply. rewrite lookup_insert_eq. by intros ? [= <-].
    + unfold flights_reply. by rewrite lookup_insert_eq.
  - rewrite truthy_flights_reply.
    assert (dict_get (flights_reply a b flights None) "flights" VNone
            = VList flights)
      as -> by (unfold flights_reply, dict_get; by simplify_map_eq).
    assert (forall dflt, dict_get (flights_reply a b flights None) "note" dflt
                         = dflt) as Hnote
        by (intros; unfold flights_reply, dict_get; by simplify_map_eq).
    assert (truthy (VList flights) = true) as -> by (by destruct flights).
    cbn [andb py_iter mbind Result_bind].
    destruct (flight_of_data_dicts w flights Hdicts) as [os Hos].
    rewrite Hos. cbn. rewrite !Hnote. cbn. rewrite app_nil_r.
    eexists _, _. split; [reflexivity|]. split.
    + unfold flights_reply. by simplify_map_eq.
    + intros _. split; [by simplify_map_eq|]. split; [done|].
      exists (omap id os), flights.
      split; [unfold flights_reply; by simplify_map_eq|].
      split; [by simplify_map_eq|].
      etrans; [apply length_omap_id|]. by rewrite (traverse_length _ _ _ Hos).
Qed.

(** The search provider cannot be reached. *)
Lemma flight_stage_relays_reply_witness :
  let s := mkState sample_user_info None None None None (Some ["earlier note"]) in
  let n := "Error fetching flights: connection refused" in
  let reply := flights_reply "DXB" "SYD" [] (Some n) in
  (flight_fields_text (user_info s) "DXB" "SYD" "2025-06-01" "2025-06-06"
   /\ fetch_flights offline_world "DXB" "SYD" "2025-06-01" "2025-06-06" = Ok reply)
  /\ flight_agent_node offline_world s
     = (Ok (mkUpdate None
              (Some {[ "flights" := VList []; "note" := VStr n ]})
              None None None (Some ["earlier note"; n])),
        ["earlier note"; n]).
Proof.
  intros s n reply.
  assert (flight_fields_text (user_info s) "DXB" "SYD" "2025-06-01" "2025-06-06")
    as Hf by (repeat split; done).
  assert (fetch_flights offline_world "DXB" "SYD" "2025-06-01" "2025-06-06"
          = Ok reply) as Hr by (vm_compute; reflexivity).
  split; [by split|].
  destruct (flight_stage_relays_reply offline_world s _ _ _ _ reply Hf Hr)
    as (fr & ns & Hrun & Hnote & _).
  destruct (Hnote n eq_refl) as [-> ->]. exact Hrun.
Defined.

(** ** From the Flight stage to the Itinerary Compiler *)

Lemma flight_of_dict_dump (w : World) (f : Flight) :
  flight_of_dict w (Flight_dump f) = Ok (inl f).
Proof.
  unfold flight_of_dict, Flight_dump, dict_get. simplify_map_eq.
  by destruct f.
Qed.

Lemma collect_dumps (w : World) (fs : list Flight) (ns : list string) :
  collect (flight_of_dict w) (Flight_dump <$> fs) ns = (Ok fs, ns).
Proof.
  induction fs as [|f fs IH]; [done|].
  cbn [fmap list_fmap collect]. rewrite flight_of_dict_dump.
  change (list_fmap _ _ Flight_dump fs) with (Flight_dump <$> fs).
  by rewrite IH.
Qed.

(** What the Flight stage stores is a list of dumped records and a note. *)
Lemma flight_agent_try_shape (w : World) (ui fr : pydict) (note : option string) :
  flight_agent_try w ui = Ok (fr, note) ->
  exists fs nv,
    fr = {[ "flights" := VList (Flight_dump <$> fs); "note" := nv ]}.
Proof.
  unfold flight_agent_try.
  destruct (negb _); [done|].
  destruct (invoke_fetch_flights w _ _ _ _) as [tool_output|]; cbn; [|done].
  match goal with
  | |- context [mbind _ ?r] => destruct r as [fs|]; cbn; [|done]
  end.
  intros [= <- _]. by eexists _, _.
Qed.

(** X9.  Whatever the Flight stage returns as [flight_results], the
    Itinerary Compiler reads it back in full: every flight stored is
    rebuilt as the record it was dumped from, no exception is raised and no
    note is added. *)
Theorem flight_results_read_back (w w' : World) (s s' : TravelPlannerState)
    (u : Update) (ns ns' : list string) (fr : pydict) :
  flight_agent_node w s = (Ok u, ns) ->
  new_flight_results u = Some fr ->
  flight_results s' = Some (VDict fr) ->
  exists fs,
    fr !! "flights" = Some (VList (Flight_dump <$> fs))
    /\ itinerary_flights w' s' ns' = (Ok fs, ns').
Proof.
  intros Hrun Hfr Hs'.
  assert (exists fs nv,
            fr = {[ "flights" := VList (Flight_dump <$> fs); "note" := nv ]})
    as (fs & nv & ->).
  { revert Hrun. unfold flight_agent_node.
    destruct (flight_agent_try w (user_info s)) as [[fr0 note]|e] eqn:Htry.
    - intros [= <- _]. cbn in Hfr. injection Hfr as <-.
      by eapply flight_agent_try_shape.
    - intros [= <- _]. cbn in Hfr. injection Hfr as <-.
      by exists [], (VStr ("Error during Flight Agent processing: " +:+ exn_str e)). }
  exists fs. split; [by simplify_map_eq|].
  unfold itinerary_flights. rewrite Hs'. cbn [default from_option id].
  rewrite truthy_insert. cbn [py_get]. unfold dict_get. simplify_map_eq.
  destruct fs as [|f fs]; [done|].
  cbn [truthy fmap list_fmap py_iter].
  apply (collect_dumps w' (f :: fs)).
Qed.

(** The two legs found in the sample world are stored by the Flight
    stage and rebuilt by the Itinerary Compiler. *)
Lemma flight_results_read_back_witness :
  let s := sample_state sample_user_info in
  let f1 := mkFlight "Emirates" "2025-06-01 08:00" "2025-06-01 14:00"
              "Dubai" "Singapore" "1520" in
  let f2 := mkFlight "Qantas" "2025-06-01 08:00" "2025-06-01 14:00"
              "Singapore" "Sydney" "1520" in
  let fr : pydict :=
    {[ "flights" := VList [Flight_dump f1; Flight_dump f2];
       "note" := VStr "Flight search completed." ]} in
  let s' := mkState sample_user_info (Some (VDict fr)) None None None (Some []) in
  flight_agent_node sample_world s
  = (Ok (mkUpdate None (Some fr) None None None (Some [])), [])
  /\ exists fs,
       fs = [f1; f2]
       /\ fr !! "flights" = Some (VList (Flight_dump <$> fs))
       /\ itinerary_flights offline_world s' [] = (Ok fs, []).
Proof.
  intros s f1 f2 fr s'.
  assert (flight_agent_node sample_world s
          = (Ok (mkUpdate None (Some fr) None None None (Some [])), [])) as H
      by (vm_compute; reflexivity).
  split; [exact H|].
  destruct (flight_results_read_back sample_world offline_world s s' _ [] [] fr
              H eq_refl eq_refl) as (fs & Hfs & Hread).
  assert (itinerary_flights offline_world s' [] = (Ok [f1; f2], [])) as Hrun
      by (vm_compute; reflexivity).
  assert (fs = [f1; f2]) as Heq by congruence.
  exists fs. exact (conj Heq (conj Hfs Hread)).
Defined.

(** ** The Hotel stage *)

(** The Hotel stage returns, with at most two hotels. *)
Lemma hotel_agent_node_returns (w : World) (s : TravelPlannerState) :
  exists hr ns hotels,
    hotel_agent_node w s
    = (Ok (mkUpdate None None (Some hr) None None (Some ns)), ns)
    /\ hr !! "hotels" = Some (VList hotels)
    /\ (length hotels <= 2)%nat.
Proof.
  unfold hotel_agent_node.
  destruct (hotel_agent_try w (user_info s)) as [[tool_output note]|e] eqn:Htry.
  2:{ eexists _, _, []. split; [reflexivity|]. split; [by simplify_map_eq|].
      cbn; lia. }
  revert Htry. unfold hotel_agent_try.
  destruct (negb _); [done|].
  destruct (invoke_hotel_search w _ _ _ _ _) as [reply|] eqn:Hinv; cbn; [|done].
  intros [= <- <-].
  assert (exists place ci co n budget,
            hotel_search w place ci co n budget = Ok reply)
    as (place & ci & co & n & budget & Hsearch).
  { revert Hinv. unfold invoke_hotel_search.
    repeat match goal with
           | |- mbind _ ?r = Ok _ -> _ => destruct r; cbn; [|done]
           end.
    intros H. by eexists _, _, _, _, _. }
  apply hotel_search_cases in Hsearch
    as [(n' & _ & ->)|(hotels & _ & Hle & ->)].
  - eexists _, _, []. split; [reflexivity|].
    split; [unfold hotels_reply; by simplify_map_eq|]. cbn; lia.
  - eexists _, _, hotels. split; [reflexivity|].
    split; [unfold hotels_reply; by simplify_map_eq|done].
Qed.

(** X10.  Whatever the state, the Hotel stage returns, and the
    [hotel_results] it returns list at most two hotels. *)
Theorem hotel_stage_at_most_two (w : World) (s : TravelPlannerState) :
  exists hr ns hotels,
    hotel_agent_node w s
    = (Ok (mkUpdate None None (Some hr) None None (Some ns)), ns)
    /\ hr !! "hotels" = Some (VList hotels)
    /\ (length hotels <= 2)%nat.
Proof. exact (hotel_agent_node_returns w s). Qed.

(** ** The notes are only appended to *)

Lemma collect_notes {A} (f : pyval -> Result (A + string)) (items : list pyval)
    (ns : list string) :
  exists added,
    (collect f items ns).2 = ns ++ added
    /\ forall rs,
         (collect f items ns).1 = Ok rs ->
         (length rs + length added = length items)%nat.
Proof.
  revert ns. induction items as [|x items IH]; intros ns; cbn.
  - exists []. split; [by rewrite app_nil_r|]. by intros ? [= <-].
  - destruct (f x) as [[a|note]|e].
    + destruct (IH ns) as (added & Hns & Hlen).
      destruct (collect f items ns) as [r ns']. cbn in *.
      exists added. split; [done|].
      destruct r as [rs'|]; cbn; [|done]. intros ? [= <-]. cbn.
      by rewrite (Hlen rs' eq_refl).
    + destruct (IH (ns ++ [note])) as (added & Hns & Hlen).
      exists (note :: added). split; [by rewrite Hns, <- app_assoc|].
      intros rs Hrs. cbn. rewrite <- (Hlen rs Hrs). lia.
    + exists []. split; [by rewrite app_nil_r|done].
Qed.

Lemma collect_prefix {A} (f : pyval -> Result (A + string)) (items : list pyval)
    (ns : list string) :
  ns `prefix_of` (collect f items ns).2.
Proof. destruct (collect_notes f items ns) as (added & -> & _). by eexists. Qed.

Lemma augment_hotels_prefix (w : World) (i : nat) (city : pyval)
    (hs : list Hotel) (ns : list string) :
  ns `prefix_of` (augment_hotels w i city hs ns).2.
Proof.
  revert i ns. induction hs as [|h hs IH]; intros i ns; cbn; [done|].
  destruct (augment_hotel w i city h) as [h' note].
  specialize (IH (S i) (ns ++ option_list note)).
  destruct (augment_hotels w (S i) city hs _) as [r ns']. cbn in *.
  etrans; [|exact IH]. by apply prefix_app_r.
Qed.

Lemma itinerary_hotel_updated_prefix (w : World) (hr : pyval) (ns : list string) :
  ns `prefix_of` (itinerary_hotel_updated w hr ns).2.
Proof.
  unfold itinerary_hotel_updated.
  destruct (truthy hr); [|done].
  destruct (py_get hr "hotels" VNone) as [hotels|]; [|done].
  destruct (truthy hotels); [|done].
  destruct (py_iter hotels); [|done].
  apply collect_prefix.
Qed.

Lemma itinerary_hotels_prefix (w : World) (s : TravelPlannerState)
    (ns : list string) :
  ns `prefix_of` (itinerary_hotels w s ns).2.
Proof.
  unfold itinerary_hotels.
  pose proof (itinerary_hotel_updated_prefix w
                (default (VDict ∅) (hotel_results s)) ns) as H1.
  destruct (itinerary_hotel_updated w _ ns) as [[hu|e] ns1]; cbn in *; [|done].
  match goal with
  | |- context [augment_hotels w 0 ?c hu ns1] =>
      pose proof (augment_hotels_prefix w 0 c hu ns1) as H2;
      destruct (augment_hotels w 0 c hu ns1) as [aug ns2]
  end.
  cbn in *. by etrans.
Qed.

Lemma itinerary_flights_prefix (w : World) (s : TravelPlannerState)
    (ns : list string) :
  ns `prefix_of` (itinerary_flights w s ns).2.
Proof.
  unfold itinerary_flights.
  destruct (truthy _); [|done].
  destruct (py_get _ "flights" VNone) as [flights|]; [|done].
  destruct (truthy flights); [|done].
  destruct (py_iter flights); [|done].
  apply collect_prefix.
Qed.

Lemma itinerary_prepare_prefix (w : World) (s : TravelPlannerState) :
  notes_of s `prefix_of` (itinerary_prepare w s).2.
Proof.
  unfold itinerary_prepare.
  pose proof (itinerary_hotels_prefix w s (notes_of s)) as H1.
  destruct (itinerary_hotels w s (notes_of s)) as [[hs|e] ns1]; cbn in *; [|done].
  destruct (destination_lists _) as [[? ?] ?].
  pose proof (itinerary_flights_prefix w s ns1) as H2.
  destruct (itinerary_flights w s ns1) as [[fs|e] ns2]; cbn in *; [|by etrans].
  destruct (itinerary_num_days w _); cbn; by etrans.
Qed.

Lemma itinerary_compile_prefix (w : World) (ui : pydict) (input : ItineraryInput)
    (ns : list string) :
  ns `prefix_of` (itinerary_compile w ui input ns).2
  /\ new_notes (itinerary_compile w ui input ns).1 = None.
Proof.
  unfold itinerary_compile.
  destruct (structured_itinerary_chain w input); cbn.
  - destruct (FinalFullTravelItinerary w _); cbn;
      (split; [|done]); [done|by apply prefix_app_r].
  - split; [by apply prefix_app_r|done].
Qed.

(** X11.  Every stage only appends to the notes: the notes the state came
    with are the head of the list the stage leaves behind, whether it
    returns or raises, and of the notes it returns, if it returns any. *)
Theorem stages_append_only :
  appends_only info_extractor_agent_node
  /\ appends_only flight_agent_node
  /\ appends_only hotel_agent_node
  /\ appends_only destination_agent_node
  /\ appends_only itinerary_agent_node.
Proof.
  repeat split.
  - unfold info_extractor_agent_node.
    destruct (extractor_chain w _) as [e|e]; cbn; [|by apply prefix_app_r].
    destruct (recompute_num_days e) as [e' [|]]; cbn;
      [rewrite <- app_assoc|]; by apply prefix_app_r.
  - unfold info_extractor_agent_node.
    destruct (extractor_chain w _) as [e|e]; cbn.
    + destruct (recompute_num_days e) as [e' [|]]; cbn; intros ? ? [= <-] [= <-];
        [rewrite <- app_assoc|]; by apply prefix_app_r.
    + intros ? ? [= <-] [= <-]. by apply prefix_app_r.
  - unfold flight_agent_node.
    destruct (flight_agent_try w _) as [[? ?]|]; cbn; by apply prefix_app_r.
  - unfold flight_agent_node.
    destruct (flight_agent_try w _) as [[? ?]|]; cbn; intros ? ? [= <-] [= <-];
      by apply prefix_app_r.
  - unfold hotel_agent_node.
    destruct (hotel_agent_try w _) as [[? ?]|]; cbn; by apply prefix_app_r.
  - unfold hotel_agent_node.
    destruct (hotel_agent_try w _) as [[? ?]|]; cbn; intros ? ? [= <-] [= <-];
      by apply prefix_app_r.
  - unfold destination_agent_node.
    destruct (destination_query w s); cbn; [|done].
    destruct (info_agent_chain w _); cbn; [done|by apply prefix_app_r].
  - unfold destination_agent_node.
    destruct (destination_query w s); cbn; [|done].
    destruct (info_agent_chain w _); cbn; [by intros ? ? [= <-] [=]|].
    intros ? ? [= <-] [= <-]. unfold notes_of.
    destruct (notes s) as [l|]; cbn; [|by apply prefix_nil].
    rewrite <- app_assoc. by apply prefix_app_r.
  - unfold itinerary_agent_node.
    pose proof (itinerary_prepare_prefix w s) as H1.
    destruct (itinerary_prepare w s) as [[input|e] ns]; cbn in *; [|done].
    pose proof (itinerary_compile_prefix w (user_info s) input ns) as [H2 _].
    destruct (itinerary_compile w (user_info s) input ns) as [u ns']. cbn in *.
    by etrans.
  - unfold itinerary_agent_node.
    destruct (itinerary_prepare w s) as [[input|e] ns]; cbn; [|done].
    pose proof (itinerary_compile_prefix w (user_info s) input ns) as [_ H2].
    destruct (itinerary_compile w (user_info s) input ns) as [u ns']. cbn in *.
    intros ? ? [= <-] Hn. by rewrite H2 in Hn.
Qed.

(** ** Hotel records in the Itinerary Compiler: entries, names and prices *)




(** X13.  A [Hotel] record built from an entry of [hotel_results] has the
    name of the entry, "N/A" when the entry has none; its price is the
    price of the entry when that is text, "N/A" when the entry has none,
    and the number after a dollar sign when it is a number; its address,
    description and perks are empty. *)
Theorem hotel_record_name_and_price (w : World) (d : pydict) (h : Hotel) :
  hotel_of_data w (VDict d) = Ok (inl h) ->
  hotel_name h = match d !! "hotel_name" with
                 | Some (VStr n) => n
                 | _ => "N/A"
                 end
  /\ price_per_night h = match d !! "price_per_night" with
                         | None => "N/A"
                         | Some (VStr p) => p
                         | Some v => "$" +:+ py_str w v
                         end
  /\ address h = "" /\ description h = "" /\ perks h = "".
Proof.
  unfold hotel_of_data. cbn [py_get mbind Result_bind].
  destruct (py_slice_to 5 _) as [am5|]; cbn [mbind Result_bind]; [|done].
  unfold note_invalid.
  destruct (Hotel_new _ _ _ _ _ _ _ _) as [h'|e] eqn:Hnew;
    [|by destruct (is_ValidationError e)].
  intros [= ->]. unfold Hotel_new in Hnew.
  repeat match type of Hnew with
         | mbind _ ?r = Ok _ =>
             let E := fresh "E" in
             destruct r eqn:E; cbn [mbind Result_bind] in Hnew;
             [|discriminate Hnew]
         end.
  injection Hnew as <-. cbn. repeat split.
  - match goal with
    | H : as_str w "Hotel" (dict_get d "hotel_name" _) = Ok _ |- _ =>
        unfold dict_get in H; destruct (d !! "hotel_name") as [[]|];
        cbn in H; by simplify_eq
    end.
  - match goal with
    | H : as_str w "Hotel" (if _ then _ else _) = Ok _ |- _ =>
        unfold dict_get in H; destruct (d !! "price_per_night") as [[]|];
        cbn in H; by simplify_eq
    end.
Qed.

Lemma hotel_record_name_and_price_witness :
  let d : pydict := {[ "price_per_night" := VInt 90; "amenities" := VList [] ]} in
  let h := mkHotel "N/A" "$90" VNone [] "" "" "" in
  hotel_of_data sample_world (VDict d) = Ok (inl h)
  /\ hotel_name h = "N/A" /\ price_per_night h = "$90".
Proof.
  intros d h.
  assert (hotel_of_data sample_world (VDict d) = Ok (inl h)) as H
      by (vm_compute; reflexivity).
  split; [exact H|].
  destruct (hotel_record_name_and_price sample_world d h H) as (Hn & Hp & _).
  split; [exact Hn|exact Hp].
Defined.

(** ** Hotel augmentation: what a response changes *)

Lemma split_on_not_nil (c : ascii) (s : string) : split_on c s <> [].
Proof.
  induction s as [|a s IH]; cbn; [done|].
  destruct (Ascii.eqb a c); [done|]. by destruct (split_on c s).
Qed.

Lemma split_on_no_sep (c : ascii) (s : string) :
  string_mem c s = false -> split_on c s = [s].
Proof.
  induction s as [|a s IH]; cbn; [done|].
  intros [Ha Hs]%orb_false_iff. rewrite Ha, (IH Hs). done.
Qed.

Lemma split_on_app (c : ascii) (s1 s2 : string) :
  string_mem c s1 = false ->
  split_on c (s1 +:+ String c s2) = s1 :: split_on c s2.
Proof.
  induction s1 as [|a s1 IH]; cbn.
  - intros _. rewrite append_nil_l. cbn. by rewrite Ascii.eqb_refl.
  - intros [Ha Hs]%orb_false_iff. rewrite append_cons. cbn.
    by rewrite Ha, (IH Hs).
Qed.

Lemma split_colon_app (k v : string) :
  string_mem ":" k = false -> split_colon (k +:+ String ":" v) = Some (k, v).
Proof.
  induction k as [|a k IH]; cbn.
  - intros _. by rewrite append_nil_l.
  - intros [Ha Hk]%orb_false_iff. rewrite append_cons. cbn.
    by rewrite Ha, (IH Hk).
Qed.

Lemma split_colon_None (s : string) :
  string_mem ":" s = false -> split_colon s = None.
Proof.
  induction s as [|a s IH]; cbn; [done|].
  intros [Ha Hs]%orb_false_iff. by rewrite Ha, (IH Hs).
Qed.

Lemma string_mem_split_on (c c' : ascii) (s : string) :
  string_mem c s = false ->
  Forall (fun line => string_mem c line = false) (split_on c' s).
Proof.
  induction s as [|a s IH]; cbn; [by repeat constructor|].
  intros [Ha Hs]%orb_false_iff. specialize (IH Hs).
  destruct (Ascii.eqb a c'); [by constructor|].
  destruct (split_on c' s) as [|x r]; [by repeat constructor; cbn; rewrite Ha|].
  apply Forall_cons in IH as [Hx Hr]. constructor; [|done].
  cbn. by rewrite Ha, Hx.
Qed.

(** A text without a colon has no labelled line. *)
Lemma augmented_details_no_colon (text : string) :
  string_mem ":" text = false -> augmented_details text = ∅.
Proof.
  intros H. unfold augmented_details.
  pose proof (string_mem_split_on ":" newline text H) as HF.
  generalize (∅ : gmap string string).
  induction HF as [|line lines Hline _ IH]; intros acc; cbn; [done|].
  rewrite (split_colon_None line Hline). apply IH.
Qed.

(** X14.  Augmentation leaves the name, the price, the rating and the
    amenities of a hotel as they were, whatever the response; and a
    response without any colon leaves the whole record as it was. *)
Theorem augmentation_changes_three_fields (w : World) (i : nat) (city : pyval)
    (h : Hotel) :
  let h' := (augment_hotel w i city h).1 in
  (hotel_name h' = hotel_name h
   /\ price_per_night h' = price_per_night h
   /\ rating h' = rating h
   /\ amenities h' = amenities h)
  /\ forall text,
       augmentation_chain w i (augmentation_input w city h) = Ok text ->
       string_mem ":" text = false ->
       h' = h.
Proof.
  cbv zeta. unfold augment_hotel. split.
  - by destruct (augmentation_chain w i _).
  - intros text -> Hno. rewrite (augmented_details_no_colon text Hno).
    cbn. rewrite !lookup_empty. by destruct h.
Qed.

(** A response that only apologises. *)
Lemma augmentation_changes_three_fields_witness :
  let w :=
    mkWorld "key" (py_repr sample_world) (pydantic_message sample_world)
      (pydantic_errors sample_world)
      (pydantic_int sample_world) (pydantic_rating sample_world)
      (GoogleSearch sample_world)
      (extractor_chain sample_world) (info_agent_chain sample_world)
      (fun _ _ => Ok "I do not know this hotel.")
      (structured_itinerary_chain sample_world)
      (FinalFullTravelItinerary sample_world) in
  let h := mkHotel "Hotel Lumiere" "$120" VNone ["Pool"] "" "" "" in
  string_mem ":" "I do not know this hotel." = false
  /\ (augment_hotel w 0 (VStr "Sydney") h).1 = h.
Proof.
  intros w h. split; [reflexivity|].
  exact (proj2 (augmentation_changes_three_fields w 0 (VStr "Sydney") h)
           "I do not know this hotel." eq_refl eq_refl).
Defined.

(** X15.  A response in the three prompted lines, with no line break
    inside the three texts, sets the address, the description and the perks
    of the hotel to those texts without the white space around them. *)
Theorem augmentation_prompted_text (w : World) (i : nat) (city : pyval)
    (h : Hotel) (addr descr prk : string) :
  augmentation_chain w i (augmentation_input w city h)
  = Ok (prompted_text addr descr prk) ->
  string_mem newline addr = false ->
  string_mem newline descr = false ->
  string_mem newline prk = false ->
  augment_hotel w i city h
  = (mkHotel (hotel_name h) (price_per_night h) (rating h) (amenities h)
       (strip addr) (strip descr) (strip prk), None).
Proof.
  intros Hresp Ha Hd Hp. unfold augment_hotel. rewrite Hresp.
  assert (augmented_details (prompted_text addr descr prk)
          = <[ "perks" := strip prk ]>
              (<[ "description" := strip descr ]>
                 (<[ "address" := strip addr ]> ∅))) as ->.
  { unfold augmented_details, prompted_text, nl.
    change ("Address:" +:+ addr +:+ String newline "" +:+ "Description:"
              +:+ descr +:+ String newline "" +:+ "Perks:" +:+ prk)
      with (("Address:" +:+ addr)
              +:+ String newline (("Description:" +:+ descr)
                                    +:+ String newline ("Perks:" +:+ prk))).
    rewrite split_on_app by (cbn; exact Ha).
    rewrite split_on_app by (cbn; exact Hd).
    rewrite split_on_no_sep by (cbn; exact Hp).
    cbn [foldl].
    change ("Address:" +:+ addr) with ("Address" +:+ String ":" addr).
    change ("Description:" +:+ descr) with ("Description" +:+ String ":" descr).
    change ("Perks:" +:+ prk) with ("Perks" +:+ String ":" prk).
    rewrite !split_colon_app by reflexivity. reflexivity. }
  by simplify_map_eq.
Qed.

Lemma augmentation_prompted_text_witness :
  let w :=
    mkWorld "key" (py_repr sample_world) (pydantic_message sample_world)
      (pydantic_errors sample_world)
      (pydantic_int sample_world) (pydantic_rating sample_world)
      (GoogleSearch sample_world)
      (extractor_chain sample_world) (info_agent_chain sample_world)
      (fun _ _ => Ok (prompted_text " 1 Quay Street, Sydney" " A hotel: by the water "
                        " Harbour view"))
      (structured_itinerary_chain sample_world)
      (FinalFullTravelItinerary sample_world) in
  let h := mkHotel "Hotel Lumiere" "$120" VNone ["Pool"] "" "" "" in
  string_mem newline " A hotel: by the water " = false
  /\ augment_hotel w 0 (VStr "Sydney") h
     = (mkHotel "Hotel Lumiere" "$120" VNone ["Pool"]
          "1 Quay Street, Sydney" "A hotel: by the water" "Harbour view", None).
Proof.
  intros w h. split; [reflexivity|].
  exact (augmentation_prompted_text w 0 (VStr "Sydney") h
           " 1 Quay Street, Sydney" " A hotel: by the water " " Harbour view"
           eq_refl eq_refl eq_refl eq_refl).
Defined.


(** ** Hotel augmentation: the notes *)

(** X16.  The notes after the augmentation loop are the notes before it
    followed by one note for each hotel whose call raises, in the order of
    the hotels, naming the hotel and the error, and by nothing else: when
    every call answers, the notes are as they were. *)
Theorem augmentation_notes (w : World) (i : nat) (city : pyval)
    (hotel_updated : list Hotel) (ns : list string) :
  (augment_hotels w i city hotel_updated ns).2
  = ns ++ omap id
            (imap (fun k h =>
                     match augmentation_chain w (i + k)
                             (augmentation_input w city h) with
                     | Raise e => Some (augmentation_note h e)
                     | Ok _ => None
                     end) hotel_updated).
Proof.
  revert i ns. induction hotel_updated as [|h0 hs IH]; intros i ns.
  - cbn. by rewrite app_nil_r.
  - cbn [augment_hotels].
    destruct (augment_hotel w i city h0) as [h0' note] eqn:Hah.
    specialize (IH (S i) (ns ++ option_list note)).
    destruct (augment_hotels w (S i) city hs (ns ++ option_list note))
      as [r ns'] eqn:Hrec.
    cbn [snd] in IH |- *. rewrite IH, <- app_assoc. f_equal.
    cbn [imap omap]. rewrite Nat.add_0_r.
    assert (note = match augmentation_chain w i (augmentation_input w city h0) with
                   | Raise e => Some (augmentation_note h0 e)
                   | Ok _ => None
                   end) as ->.
    { revert Hah. unfold augment_hotel.
      destruct (augmentation_chain w i _); by intros [= _ <-]. }
    assert (imap (fun k h =>
                    match augmentation_chain w (S i + k)
                            (augmentation_input w city h) with
                    | Raise e => Some (augmentation_note h e)
                    | Ok _ => None
                    end) hs
            = imap ((fun k h =>
                       match augmentation_chain w (i + k)
                               (augmentation_input w city h) with
                       | Raise e => Some (augmentation_note h e)
                       | Ok _ => None
                       end) ∘ S) hs) as ->.
    { apply imap_ext. intros k h _. cbn.
      by replace (i + S k)%nat with (S (i + k))%nat by lia. }
    by destruct (augmentation_chain w i (augmentation_input w city h0)).
Qed.

(** Two hotels, the augmentation call of the first one raises: one note. *)
Lemma augmentation_notes_witness :
  (augment_hotels sample_world 0 (VStr "Sydney") sample_hotels
     ["No flight options found."]).2
  = ["No flight options found.";
     "Error during hotel augmentation for Hotel Lumiere: model unavailable"].
Proof.
  rewrite (augmentation_notes sample_world 0 (VStr "Sydney") sample_hotels
             ["No flight options found."]).
  vm_compute. reflexivity.
Defined.

(** ** The Itinerary Compiler: what it returns once its input is prepared *)

(** X17.  When the input of the itinerary chain is prepared and the chain
    raises, the stage returns a document with two keys, the notes gathered
    so far followed by the error message, and the disclaimer of a partial
    itinerary; it returns no [notes] key, and the notes of the state come
    first in the document. *)
Theorem itinerary_stage_chain_failure (w : World) (s : TravelPlannerState)
    (input : ItineraryInput) (ns : list string) (e : exn) :
  itinerary_prepare w s = (Ok input, ns) ->
  structured_itinerary_chain w input = Raise e ->
  let all_notes := ns ++ [compilation_error_msg e] in
  itinerary_agent_node w s
  = (Ok (mkUpdate None None None None
           (Some {[ "notes_and_warnings" := VList (VStr <$> all_notes);
                    "disclaimer" := VStr "Partial itinerary due to internal error." ]})
           None),
     all_notes)
  /\ notes_of s `prefix_of` all_notes.
Proof.
  intros Hprep He. cbv zeta. split.
  - unfold itinerary_agent_node. rewrite Hprep.
    unfold itinerary_compile. by rewrite He.
  - pose proof (itinerary_prepare_prefix w s) as H. rewrite Hprep in H.
    cbn in H. etrans; [exact H|]. by apply prefix_app_r.
Qed.

Lemma itinerary_stage_chain_failure_witness :
  let s := sample_itinerary_state in
  let e := Exn OtherException "model unavailable" "" in
  exists input ns,
    (itinerary_prepare failing_world s = (Ok input, ns)
     /\ structured_itinerary_chain failing_world input = Raise e)
    /\ (itinerary_agent_node failing_world s).2 = ns ++ [compilation_error_msg e]
    /\ notes_of s `prefix_of` (ns ++ [compilation_error_msg e]).
Proof.
  intros s e.
  destruct (itinerary_prepare failing_world s) as [[input|] ns] eqn:Hprep;
    [|vm_compute in Hprep; discriminate Hprep].
  exists input, ns. split; [split; reflexivity|].
  destruct (itinerary_stage_chain_failure failing_world s input ns e Hprep
              eq_refl) as [Hrun Hpre].
  split; [|exact Hpre].
  exact (f_equal snd Hrun).
Defined.

(** X18.  When the final schema rejects the assembled document, the stage
    returns the document all the same: every key the model produced is
    there with its value, except that [user_request_summary] is the
    [user_info] of the state, [notes_and_warnings] is the list the model
    produced followed by the failure, and [disclaimer] marks the
    itinerary as partial. *)
Theorem itinerary_stage_final_validation_failure (w : World)
    (s : TravelPlannerState) (input : ItineraryInput) (ns : list string)
    (c : FullTravelItinerary) :
  itinerary_prepare w s = (Ok input, ns) ->
  structured_itinerary_chain w input = Ok c ->
  FinalFullTravelItinerary w
    (<[ "user_request_summary" := VDict (user_info s) ]>
       (FullTravelItinerary_dump c)) = None ->
  exists doc failed,
    (itinerary_agent_node w s).1
    = Ok (mkUpdate None None None None (Some doc) None)
    /\ doc !! "user_request_summary" = Some (VDict (user_info s))
    /\ doc !! "disclaimer"
       = Some (VStr "Partial itinerary generated due to final validation error.")
    /\ doc !! "notes_and_warnings"
       = Some (VList (VStr <$> (default [] (notes_and_warnings c) ++ [failed])))
    /\ forall k,
         k <> "user_request_summary" -> k <> "disclaimer" ->
         k <> "notes_and_warnings" ->
         doc !! k = itinerary_fields c !! k.
Proof.
  intros Hprep Hc Hfinal. unfold itinerary_agent_node. rewrite Hprep.
  unfold itinerary_compile. rewrite Hc, Hfinal. cbn.
  eexists _, _. split; [reflexivity|].
  split; [by simplify_map_eq|]. split; [by simplify_map_eq|].
  split; [by simplify_map_eq|].
  intros k H1 H2 H3. rewrite !lookup_insert_ne by done.
  unfold FullTravelItinerary_dump.
  destruct (notes_and_warnings c);
    [by rewrite lookup_insert_ne|by rewrite lookup_delete_ne].
Qed.

Lemma itinerary_stage_final_validation_failure_witness :
  let s := sample_itinerary_state in
  let w :=
    mkWorld "key" (py_repr sample_world) (pydantic_message sample_world)
      (pydantic_errors sample_world)
      (pydantic_int sample_world) (pydantic_rating sample_world)
      (GoogleSearch sample_world)
      (extractor_chain sample_world) (info_agent_chain sample_world)
      (augmentation_chain sample_world) (structured_itinerary_chain sample_world)
      (fun _ => None) in
  exists input ns doc,
    (itinerary_prepare w s = (Ok input, ns)
     /\ structured_itinerary_chain w input = Ok sample_document)
    /\ (itinerary_agent_node w s).1
       = Ok (mkUpdate None None None None (Some doc) None)
    /\ doc !! "itinerary" = Some (VList []).
Proof.
  intros s w.
  destruct (itinerary_prepare w s) as [[input|] ns] eqn:Hprep;
    [|vm_compute in Hprep; discriminate Hprep].
  destruct (itinerary_stage_final_validation_failure w s input ns
              sample_document Hprep eq_refl eq_refl)
    as (doc & failed & Hrun & _ & _ & _ & Hkeys).
  exists input, ns, doc. split; [split; reflexivity|].
  split; [exact Hrun|].
  rewrite (Hkeys "itinerary") by done. reflexivity.
Defined.


(** ** The Destination stage: results it cannot read *)

Lemma py_get_not_a_dict (v : pyval) (k : string) (dflt : pyval) :
  not_a_dict v = true ->
  exists e, py_get v k dflt = Raise e /\ exn_cls e = AttributeError.
Proof. destruct v; try done; intros _; by eexists. Qed.

Lemma py_get_Raise (v : pyval) (k : string) (dflt : pyval) (e : exn) :
  py_get v k dflt = Raise e -> exn_cls e = AttributeError.
Proof. destruct v; cbn; try done; by intros [= <-]. Qed.

Lemma destination_query_readable (w : World) (s : TravelPlannerState) :
  results_readable s = true -> exists query, destination_query w s = Ok query.
Proof.
  unfold results_readable, destination_query.
  intros [Hf Hh]%andb_true_iff.
  destruct (flight_results s) as [[]|]; try done;
    destruct (hotel_results s) as [[]|]; try done; cbn; by eexists.
Qed.

(** With readable results the Destination stage returns, and sets the
    destination results and, at most, the notes. *)
Lemma destination_agent_node_returns (w : World) (s : TravelPlannerState) :
  results_readable s = true ->
  exists u ns o,
    destination_agent_node w s = (Ok u, ns)
    /\ new_destination_info_results u = Some o
    /\ new_user_info u = None
    /\ new_flight_results u = None
    /\ new_hotel_results u = None.
Proof.
  intros [query Hq]%(destination_query_readable w).
  unfold destination_agent_node. rewrite Hq.
  destruct (info_agent_chain w query); by eexists _, _, _.
Qed.

(** X19.  The Destination stage reads the flight and hotel results before
    its [try].  When each of them is a dictionary or is not set, the stage
    returns, whatever the chain does.  When one of them is set to something
    else, [None] for one, the stage raises an [AttributeError], the chain is
    not invoked and the notes are left as they were. *)
Theorem destination_stage_reads_results (w : World) (s : TravelPlannerState) :
  (results_readable s = true ->
   exists u ns o,
     destination_agent_node w s = (Ok u, ns)
     /\ new_destination_info_results u = Some o)
  /\ (results_readable s = false ->
      exists e,
        destination_agent_node w s = (Raise e, notes_of s)
        /\ exn_cls e = AttributeError).
Proof.
  split.
  - intros (u & ns & o & Hrun & Ho & _)%(destination_agent_node_returns w).
    by exists u, ns, o.
  - unfold results_readable, destination_agent_node, destination_query.
    intros [Hf|Hh]%andb_false_iff.
    + destruct (flight_results s) as [v|]; [|done].
      apply negb_false_iff in Hf.
      destruct (py_get_not_a_dict v "flights" (VStr "No flight info") Hf)
        as (e & He & Hcls).
      cbn [default from_option id]. rewrite He. cbn. by exists e.
    + destruct (hotel_results s) as [v|]; [|done].
      apply negb_false_iff in Hh.
      destruct (py_get_not_a_dict v "hotels" (VStr "No hotel info") Hh)
        as (e & He & Hcls).
      cbn [default from_option id].
      destruct (py_get _ "flights" _) as [fl|e1] eqn:H1; cbn.
      * destruct (py_get _ "note" _) as [fn|e2] eqn:H2; cbn.
        -- rewrite He. cbn. by exists e.
        -- exists e2. split; [done|]. by eapply py_get_Raise.
      * exists e1. split; [done|]. by eapply py_get_Raise.
Qed.

(** The state [plan_trip_endpoint] starts with: the results are [None]. *)
Lemma destination_stage_reads_results_witness :
  let s := initial_state sample_user_info in
  results_readable s = false
  /\ exists e,
       destination_agent_node sample_world s = (Raise e, [])
       /\ exn_cls e = AttributeError.
Proof.
  intros s. split; [reflexivity|].
  exact (proj2 (destination_stage_reads_results sample_world s) eq_refl).
Defined.

(** ** [workflow]: the five stages in a row *)

Lemma run_stage_Ok (policy : NotesPolicy)
    (stage : World -> TravelPlannerState -> Run) (w : World)
    (s : TravelPlannerState) (u : Update) (ns : list string) :
  stage w s = (Ok u, ns) ->
  run_stage policy stage w s = Ok (apply_update policy s u ns).
Proof. unfold run_stage. by intros ->. Qed.

Lemma info_extractor_agent_node_returns (w : World) (s : TravelPlannerState) :
  exists ui ns,
    info_extractor_agent_node w s
    = (Ok (mkUpdate (Some ui) None None None None (Some ns)), ns).
Proof.
  unfold info_extractor_agent_node.
  destruct (extractor_chain w _) as [e|e]; [|by eexists _, _].
  destruct (recompute_num_days e) as [e' failed]. by eexists _, _.
Qed.

Lemma flight_agent_node_returns (w : World) (s : TravelPlannerState) :
  exists fs nv ns,
    flight_agent_node w s
    = (Ok (mkUpdate None
             (Some {[ "flights" := VList (Flight_dump <$> fs); "note" := nv ]})
             None None None (Some ns)), ns).
Proof.
  unfold flight_agent_node.
  destruct (flight_agent_try w (user_info s)) as [[fr note]|e] eqn:Htry.
  - destruct (flight_agent_try_shape _ _ _ _ Htry) as (fs & nv & ->).
    by eexists fs, nv, _.
  - by eexists [], _, _.
Qed.

(** The first four stages return, and what they leave in the state. *)
Lemma workflow_before_itinerary_returns (policy : NotesPolicy) (w : World)
    (s : TravelPlannerState) :
  exists s4 fs nv hr hotels,
    workflow_before_itinerary policy w s = Ok s4
    /\ (exists u ns,
          info_extractor_agent_node w s = (Ok u, ns)
          /\ new_user_info u = Some (user_info s4))
    /\ flight_results s4
       = Some (VDict {[ "flights" := VList (Flight_dump <$> fs); "note" := nv ]})
    /\ (hotel_results s4 = Some (VDict hr)
        /\ hr !! "hotels" = Some (VList hotels)
        /\ (length hotels <= 2)%nat)
    /\ is_Some (destination_info_results s4).
Proof.
  unfold workflow_before_itinerary.
  destruct (info_extractor_agent_node_returns w s) as (ui & ns1 & H1).
  rewrite (run_stage_Ok _ _ _ _ _ _ H1). cbn [mbind Result_bind].
  set (s1 := apply_update policy s _ ns1).
  destruct (flight_agent_node_returns w s1) as (fs & nv & ns2 & H2).
  rewrite (run_stage_Ok _ _ _ _ _ _ H2). cbn [mbind Result_bind].
  set (s2 := apply_update policy s1 _ ns2).
  destruct (hotel_agent_node_returns w s2) as (hr & ns3 & hotels & H3 & Hh & Hle).
  rewrite (run_stage_Ok _ _ _ _ _ _ H3). cbn [mbind Result_bind].
  set (s3 := apply_update policy s2 _ ns3).
  assert (results_readable s3 = true) as Hread by reflexivity.
  destruct (destination_agent_node_returns w s3 Hread)
    as (u4 & ns4 & o & H4 & Ho & Hu & Hf & Hhr).
  rewrite (run_stage_Ok _ _ _ _ _ _ H4).
  eexists _, fs, nv, hr, hotels. split; [reflexivity|].
  unfold apply_update. cbn. rewrite Ho, Hu, Hf, Hhr. cbn.
  split; [by eexists _, _|]. split; [done|]. split; [done|]. by eexists.
Qed.

(** X20.  From any state, the first four stages of the workflow return:
    the state that reaches the Itinerary Compiler has the [user_info] the
    Info Extraction stage returned, flight results that are a dictionary of
    dumped flight records, hotel results that are a dictionary with at most
    two hotels, and destination results that are set. *)
Theorem workflow_reaches_itinerary (policy : NotesPolicy) (w : World)
    (s : TravelPlannerState) :
  exists s4 fs nv hr hotels,
    workflow_before_itinerary policy w s = Ok s4
    /\ (exists u ns,
          info_extractor_agent_node w s = (Ok u, ns)
          /\ new_user_info u = Some (user_info s4))
    /\ flight_results s4
       = Some (VDict {[ "flights" := VList (Flight_dump <$> fs); "note" := nv ]})
    /\ (hotel_results s4 = Some (VDict hr)
        /\ hr !! "hotels" = Some (VList hotels)
        /\ (length hotels <= 2)%nat)
    /\ is_Some (destination_info_results s4).
Proof. exact (workflow_before_itinerary_returns policy w s). Qed.


(** The Itinerary Compiler reads dumped flight records back. *)
Lemma itinerary_flights_dumps (w : World) (s : TravelPlannerState)
    (fs : list Flight) (nv : pyval) (ns : list string) :
  flight_results s
  = Some (VDict {[ "flights" := VList (Flight_dump <$> fs); "note" := nv ]}) ->
  itinerary_flights w s ns = (Ok fs, ns).
Proof.
  intros Hs. unfold itinerary_flights. rewrite Hs. cbn [default from_option id].
  rewrite truthy_insert. cbn [py_get]. unfold dict_get. simplify_map_eq.
  destruct fs as [|f fs]; [done|].
  cbn [truthy fmap list_fmap py_iter].
  apply (collect_dumps w (f :: fs)).
Qed.

Lemma itinerary_compile_update (w : World) (ui : pydict) (input : ItineraryInput)
    (ns : list string) :
  exists doc,
    (itinerary_compile w ui input ns).1
    = mkUpdate None None None None (Some doc) None.
Proof.
  unfold itinerary_compile.
  destruct (structured_itinerary_chain w input); [|by eexists].
  destruct (FinalFullTravelItinerary w _); by eexists.
Qed.

(** What the workflow does once the first four stages have left [s4]. *)
Lemma workflow_outcome_from (policy : NotesPolicy) (w : World)
    (s s4 : TravelPlannerState) (fs : list Flight) (nv : pyval) :
  workflow_before_itinerary policy w s = Ok s4 ->
  flight_results s4
  = Some (VDict {[ "flights" := VList (Flight_dump <$> fs); "note" := nv ]}) ->
  match workflow policy w s with
  | Ok s5 =>
      exists doc,
        final_itinerary s5 = Some (VDict doc) /\ user_info s5 = user_info s4
  | Raise e =>
      (exists ns, itinerary_hotels w s4 (notes_of s4) = (Raise e, ns))
      \/ itinerary_num_days w (user_info s4) = Raise e
  end.
Proof.
  intros H4 Hfl. unfold workflow. rewrite H4. cbn [mbind Result_bind].
  unfold run_stage, itinerary_agent_node, itinerary_prepare.
  destruct (itinerary_hotels w s4 (notes_of s4)) as [[hs|e] ns1] eqn:Hh.
  2:{ cbn. left. by exists ns1. }
  destruct (destination_lists _) as [[? ?] ?].
  rewrite (itinerary_flights_dumps w s4 fs nv ns1 Hfl).
  destruct (itinerary_num_days w (user_info s4)) as [n|e] eqn:Hn.
  2:{ cbn. by right. }
  match goal with
  | |- context [itinerary_compile w ?ui ?input ?ns] =>
      destruct (itinerary_compile_update w ui input ns) as [doc Hdoc];
      destruct (itinerary_compile w ui input ns) as [u ns']
  end.
  cbn in Hdoc. subst u. cbn. by exists doc.
Qed.

(** X21.  The workflow stops early in two places only, both in the
    Itinerary Compiler: where it builds the hotel records, and where it
    converts [num_days].  Whenever it returns, the final state holds a final
    itinerary, and the [user_info] the Info Extraction stage returned. *)
Theorem workflow_outcome (policy : NotesPolicy) (w : World)
    (s : TravelPlannerState) :
  exists s4,
    workflow_before_itinerary policy w s = Ok s4
    /\ match workflow policy w s with
       | Ok s5 =>
           exists doc,
             final_itinerary s5 = Some (VDict doc)
             /\ user_info s5 = user_info s4
       | Raise e =>
           (exists ns, itinerary_hotels w s4 (notes_of s4) = (Raise e, ns))
           \/ itinerary_num_days w (user_info s4) = Raise e
       end.
Proof.
  destruct (workflow_before_itinerary_returns policy w s)
    as (s4 & fs & nv & hr & hotels & H4 & _ & Hfl & _).
  exists s4. split; [exact H4|].
  by eapply workflow_outcome_from.
Qed.

(** ** [plan_trip_endpoint] *)

(** X22.  [plan_trip_endpoint] answers with an itinerary only when the
    final schema accepts the final itinerary the workflow left in the
    state.  Any other outcome is a response of status 500 whose detail is
    the text of the general handler followed by a reason: the text of the
    exception the workflow raised, the text of the validation error, or,
    when the final itinerary is an empty dictionary, the text of the
    exception that says the itinerary is not complete.  That last message
    is never the detail itself. *)
Theorem plan_trip_endpoint_responses (policy : NotesPolicy)
    (http_str : Z -> string -> string) (w : World) (request : pydict) :
  match plan_trip_endpoint policy http_str w request with
  | Itinerary doc =>
      exists s5 data,
        workflow policy w (initial_state request) = Ok s5
        /\ final_itinerary s5 = Some (VDict data)
        /\ FinalFullTravelItinerary w data = Some doc
  | HTTPException status_code detail =>
      status_code = 500
      /\ exists reason,
           detail = "An internal error occurred during trip planning: " +:+ reason
           /\ ((exists e,
                  workflow policy w (initial_state request) = Raise e
                  /\ reason = exn_str e)
               \/ reason = pydantic_message w "FinalFullTravelItinerary"
               \/ (exists s5,
                     workflow policy w (initial_state request) = Ok s5
                     /\ final_itinerary s5 = Some (VDict ∅)
                     /\ reason
                        = http_str 500 "Failed to generate complete itinerary."))
  end.
Proof.
  unfold plan_trip_endpoint, plan_trip_try.
  destruct (workflow_before_itinerary_returns policy w (initial_state request))
    as (s4 & fs & nv & hr & hotels & H4 & _ & Hfl & _).
  pose proof (workflow_outcome_from policy w _ s4 fs nv H4 Hfl) as Hout.
  destruct (workflow policy w (initial_state request)) as [s5|e];
    cbn [mbind Result_bind].
  2:{ split; [done|]. eexists. split; [reflexivity|]. left. by exists e. }
  destruct Hout as (data & Hdata & _). rewrite Hdata.
  destruct (truthy (VDict data)) eqn:Ht.
  - destruct (FinalFullTravelItinerary w data) as [doc|] eqn:Hfinal.
    + by exists s5, data.
    + split; [done|]. eexists. split; [reflexivity|]. right. by left.
  - split; [done|]. eexists. split; [reflexivity|]. right. right.
    exists s5. cbn in Ht. apply negb_false_iff, bool_decide_eq_true in Ht.
    by subst data.
Qed.


(** ** The Itinerary Compiler: the states it gets through *)

Lemma as_str_list_raises (w : World) (cls : string) (l : list pyval) (e : exn) :
  as_str_list w cls l = Raise e -> is_ValidationError e = true.
Proof.
  induction l as [|v l IH]; cbn; [done|].
  destruct (as_str w cls v) eqn:Hv; cbn; [|intros [= <-]; by eapply as_str_raises].
  destruct (as_str_list w cls l); cbn; [done|]. intros [= <-]. by apply IH.
Qed.

(** The constructor of [Hotel] raises nothing but a [ValidationError]. *)
Lemma Hotel_new_raises (w : World) (n p r am : pyval) (ad de pe : string)
    (e : exn) :
  Hotel_new w n p r am ad de pe = Raise e -> is_ValidationError e = true.
Proof.
  unfold Hotel_new.
  destruct (as_str w "Hotel" n) eqn:Hn; cbn;
    [|intros [= <-]; by eapply as_str_raises].
  destruct (as_str w "Hotel" p) eqn:Hp; cbn;
    [|intros [= <-]; by eapply as_str_raises].
  destruct (pydantic_rating w r); cbn; [|by intros [= <-]].
  destruct am; cbn; try by intros [= <-].
  destruct (as_str_list w "Hotel" l) eqn:Hl; cbn; [done|].
  intros [= <-]. by eapply as_str_list_raises.
Qed.

Lemma note_invalid_returns {A} (note : exn -> string) (r : Result A) :
  (forall e, r = Raise e -> is_ValidationError e = true) ->
  returns (note_invalid note r) = true.
Proof.
  intros H. destruct r as [a|e]; [done|]. cbn. by rewrite (H e eq_refl).
Qed.

Lemma hotel_of_data_returns (w : World) (hotel_data : pyval) :
  returns (hotel_of_data w hotel_data) = hotel_data_ok hotel_data.
Proof.
  destruct hotel_data as [| | | | | |d]; try done.
  unfold hotel_of_data, hotel_data_ok. cbn [py_get mbind Result_bind].
  destruct (dict_get d "amenities" (VList [])); cbn; try done;
    apply note_invalid_returns; intros e; apply Hotel_new_raises.
Qed.

Lemma flight_of_dict_returns (w : World) (flight_data : pyval) :
  returns (flight_of_dict w flight_data) = negb (not_a_dict flight_data).
Proof.
  destruct flight_data as [| | | | | |d]; try done. cbn.
  apply note_invalid_returns. intros e. apply Flight_new_raises.
Qed.

Lemma collect_returns {A} (f : pyval -> Result (A + string))
    (item_ok : pyval -> bool) (items : list pyval) (ns : list string) :
  (forall x, returns (f x) = item_ok x) ->
  returns (collect f items ns).1 = forallb item_ok items.
Proof.
  intros Hf. revert ns. induction items as [|x items IH]; intros ns; cbn; [done|].
  rewrite <- (Hf x). destruct (f x) as [[a|note]|e]; cbn; [|apply IH|done].
  specialize (IH ns). destruct (collect f items ns) as [[r|e] ns']; done.
Qed.

Lemma forallb_text (item_ok : pyval -> bool) (ks : list string) :
  (forall t, item_ok (VStr t) = false) -> ks <> [] ->
  forallb item_ok (VStr <$> ks) = false.
Proof. intros H. destruct ks as [|k ks]; [done|]. intros _. cbn. by rewrite H. Qed.

(** A loop over the entries under [k] returns exactly on readable results. *)
Lemma entries_loop_returns {A} (f : pyval -> Result (A + string))
    (item_ok : pyval -> bool) (k : string) (results : pyval) (ns : list string) :
  (forall x, returns (f x) = item_ok x) ->
  (forall t, item_ok (VStr t) = false) ->
  returns
    (if truthy results then
       match py_get results k VNone with
       | Raise e => (Raise e, ns)
       | Ok v =>
           if truthy v then
             match py_iter v with
             | Raise e => (Raise e, ns)
             | Ok items => collect f items ns
             end
           else (Ok [], ns)
       end
     else (Ok [], ns)).1
  = entries_ok item_ok k results.
Proof.
  intros Hf Htext. unfold entries_ok.
  destruct (truthy results) eqn:Hr; [|done].
  destruct results as [| | | | | |d]; try done. cbn [py_get].
  destruct (truthy (dict_get d k VNone)) eqn:Hv; [|done].
  destruct (dict_get d k VNone) as [| | | |t|items|d']; try done; cbn [py_iter].
  - rewrite (collect_returns f item_ok _ ns Hf). apply forallb_text; [done|].
    intros Hnil%chars_nil. by subst t.
  - apply (collect_returns f item_ok items ns Hf).
  - rewrite (collect_returns f item_ok _ ns Hf). apply forallb_text; [done|].
    intros Hnil. apply fmap_nil_inv, map_to_list_empty_iff in Hnil. subst d'.
    cbn in Hv. by rewrite bool_decide_eq_true_2 in Hv.
Qed.

Lemma itinerary_hotels_returns (w : World) (s : TravelPlannerState)
    (ns : list string) :
  returns (itinerary_hotels w s ns).1
  = entries_ok hotel_data_ok "hotels" (default (VDict ∅) (hotel_results s)).
Proof.
  rewrite <- (entries_loop_returns (hotel_of_data w) hotel_data_ok "hotels"
                (default (VDict ∅) (hotel_results s)) ns
                (hotel_of_data_returns w) (fun _ => eq_refl)).
  unfold itinerary_hotels, itinerary_hotel_updated.
  match goal with
  | |- returns (match ?r with _ => _ end).1 = _ => destruct r as [[hu|e] ns1]
  end; [|done].
  by destruct (augment_hotels w 0 _ hu ns1).
Qed.

Lemma itinerary_flights_returns (w : World) (s : TravelPlannerState)
    (ns : list string) :
  returns (itinerary_flights w s ns).1
  = entries_ok (fun v => negb (not_a_dict v)) "flights"
      (default (VDict ∅) (flight_results s)).
Proof.
  symmetry.
  apply (eq_sym (entries_loop_returns (flight_of_dict w)
                   (fun v => negb (not_a_dict v)) "flights"
                   (default (VDict ∅) (flight_results s)) ns
                   (flight_of_dict_returns w) (fun _ => eq_refl))).
Qed.

Lemma itinerary_num_days_returns (w : World) (ui : pydict) :
  returns (itinerary_num_days w ui) = num_days_ok ui.
Proof.
  unfold itinerary_num_days, num_days_ok, dict_get.
  destruct (ui !! "num_days") as [[|b|n|f|t|l|d]|]; cbn; try done.
  - unfold int_of_float. by destruct (Prim2SF f).
  - by destruct (int_of_text t).
Qed.

(** X23.  The Itinerary Compiler returns on exactly the states whose hotel
    entries are dictionaries with amenities that can be sliced, whose
    flight entries are dictionaries, and whose [num_days] is absent, a
    number other than an infinite float, or text; on every other state it
    raises.  When it returns, it returns a final itinerary. *)
Theorem itinerary_stage_returns_iff (w : World) (s : TravelPlannerState) :
  returns (itinerary_agent_node w s).1 = itinerary_state_ok s
  /\ forall u ns,
       itinerary_agent_node w s = (Ok u, ns) ->
       is_Some (new_final_itinerary u).
Proof.
  split.
  - unfold itinerary_state_ok.
    rewrite <- (itinerary_hotels_returns w s (notes_of s)),
      <- (itinerary_num_days_returns w (user_info s)).
    unfold itinerary_agent_node, itinerary_prepare.
    destruct (itinerary_hotels w s (notes_of s)) as [[hs|e] ns1]; [|done].
    rewrite <- (itinerary_flights_returns w s ns1).
    destruct (destination_lists _) as [[? ?] ?].
    destruct (itinerary_flights w s ns1) as [[fs|e] ns2]; [|done].
    destruct (itinerary_num_days w (user_info s)); [|done].
    by destruct (itinerary_compile w _ _ ns2).
  - unfold itinerary_agent_node.
    destruct (itinerary_prepare w s) as [[input|e] ns0]; [|done].
    destruct (itinerary_compile_update w (user_info s) input ns0) as [doc Hdoc].
    destruct (itinerary_compile w (user_info s) input ns0) as [u0 ns'].
    cbn in Hdoc. subst u0. intros u ns [= <- _]. by eexists.
Qed.

Lemma itinerary_stage_returns_iff_witness :
  (itinerary_state_ok sample_itinerary_state = true
   /\ returns (itinerary_agent_node sample_world sample_itinerary_state).1 = true)
  /\ (itinerary_state_ok sample_null_days_state = false
      /\ returns (itinerary_agent_node sample_world sample_null_days_state).1
         = false).
Proof.
  assert (itinerary_state_ok sample_itinerary_state = true) as H1
      by (vm_compute; reflexivity).
  assert (itinerary_state_ok sample_null_days_state = false) as H2
      by (vm_compute; reflexivity).
  split; (split; [assumption|]).
  - rewrite <- H1.
    exact (proj1 (itinerary_stage_returns_iff sample_world sample_itinerary_state)).
  - rewrite <- H2.
    exact (proj1 (itinerary_stage_returns_iff sample_world sample_null_days_state)).
Defined.


(** ** Absent destination results *)








(** ** The Info Extraction stage: the order of the two dates *)

Lemma strptime_valid (s : string) (d : date) :
  strptime s = Some d -> valid_date (year d) (month d) (day d) = true.
Proof.
  unfold strptime. destruct (split_on "-" s) as [|ys [|ms [|ds [|]]]]; try done.
  destruct (year_field _) as [y|]; cbn; [|done].
  destruct (month_field _) as [m|]; cbn; [|done].
  destruct (day_field _) as [dd|]; cbn; [|done].
  destruct (valid_date y m dd) eqn:Hv; [|done]. by intros [= <-].
Qed.

Lemma valid_date_bounds (y m d : Z) :
  valid_date y m d = true ->
  1 <= y /\ 1 <= m <= 12 /\ 1 <= d <= days_in_month y m.
Proof. unfold valid_date. rewrite !andb_true_iff, !Z.leb_le. lia. Qed.

Lemma month_cases (m : Z) :
  1 <= m <= 12 ->
  m = 1 \/ m = 2 \/ m = 3 \/ m = 4 \/ m = 5 \/ m = 6 \/ m = 7 \/ m = 8 \/ m = 9
  \/ m = 10 \/ m = 11 \/ m = 12.
Proof. lia. Qed.

Ltac month_by_month Hm :=
  match type of Hm with
  | 1 <= ?m <= 12 =>
      destruct (month_cases m Hm) as
        [->|[->|[->|[->|[->|[->|[->|[->|[->|[->|[->| ->]]]]]]]]]]]
  end.

Lemma days_before_month_eq (y m : Z) :
  1 <= m <= 12 -> days_before_month y m = days_before_month_table y m.
Proof.
  intros Hm. unfold days_before_month, days_before_month_table.
  month_by_month Hm;
    match goal with
    | |- context [Z.to_nat ?k] =>
        let n := eval vm_compute in (Z.to_nat k) in
        change (Z.to_nat k) with n
    end;
    cbn [days_before_month_aux]; unfold days_in_month;
    destruct (is_leap y); vm_compute; reflexivity.
Qed.

(** A day of a year is one of the days of that year. *)
Lemma day_of_year_bounds (y m d : Z) :
  1 <= m <= 12 -> 1 <= d <= days_in_month y m ->
  1 <= days_before_month y m + d <= year_length y.
Proof.
  intros Hm Hd. rewrite (days_before_month_eq y m Hm).
  unfold year_length, days_before_month_table.
  month_by_month Hm;
    revert Hd; unfold days_in_month; cbn; destruct (is_leap y); cbn; lia.
Qed.

(** Within a year, an earlier day has the smaller day of the year. *)
Lemma day_of_year_mono (y m1 d1 m2 d2 : Z) :
  1 <= m1 <= 12 -> 1 <= d1 <= days_in_month y m1 ->
  1 <= m2 <= 12 -> 1 <= d2 <= days_in_month y m2 ->
  m1 < m2 \/ (m1 = m2 /\ d1 < d2) ->
  days_before_month y m1 + d1 < days_before_month y m2 + d2.
Proof.
  intros Hm1 Hd1 Hm2 Hd2 [Hlt|[-> Hlt]]; [|lia].
  rewrite (days_before_month_eq y m1 Hm1), (days_before_month_eq y m2 Hm2).
  unfold days_before_month_table.
  month_by_month Hm1; month_by_month Hm2; try lia;
    revert Hd1 Hd2; unfold days_in_month; cbn; destruct (is_leap y); cbn; lia.
Qed.

Lemma days_before_year_succ (y : Z) :
  days_before_year (y + 1) = days_before_year y + year_length y.
Proof.
  unfold days_before_year, year_length, is_leap.
  replace (y + 1 - 1) with y by lia.
  destruct (Z.eqb_spec (y mod 4) 0), (Z.eqb_spec (y mod 100) 0),
    (Z.eqb_spec (y mod 400) 0); cbn;
    Z.div_mod_to_equations; lia.
Qed.

Lemma days_before_year_mono (y1 y2 : Z) :
  y1 <= y2 -> days_before_year y1 <= days_before_year y2.
Proof. unfold days_before_year. intros. Z.div_mod_to_equations. lia. Qed.

(** [toordinal] grows with the date. *)
Lemma toordinal_mono (a b : date) :
  valid_date (year a) (month a) (day a) = true ->
  valid_date (year b) (month b) (day b) = true ->
  date_before a b -> toordinal a < toordinal b.
Proof.
  intros (Hya & Hma & Hda)%valid_date_bounds (Hyb & Hmb & Hdb)%valid_date_bounds.
  unfold toordinal. intros [Hy|[Hy Hmd]].
  - pose proof (day_of_year_bounds _ _ _ Hma Hda) as Ha.
    pose proof (day_of_year_bounds _ _ _ Hmb Hdb) as Hb.
    pose proof (days_before_year_succ (year a)) as Hs.
    pose proof (days_before_year_mono (year a + 1) (year b)) as Hmono.
    lia.
  - rewrite Hy in *.
    pose proof (day_of_year_mono _ _ _ _ _ Hma Hda Hmb Hdb Hmd). lia.
Qed.

Lemma date_trichotomy (a b : date) : date_before a b \/ a = b \/ date_before b a.
Proof.
  destruct a as [ya ma da], b as [yb mb db]. unfold date_before. cbn.
  destruct (Z.lt_trichotomy ya yb) as [?|[->|?]];
    [left; lia| |right; right; lia].
  destruct (Z.lt_trichotomy ma mb) as [?|[->|?]];
    [left; lia| |right; right; lia].
  destruct (Z.lt_trichotomy da db) as [?|[->|?]];
    [left; lia|right; left; reflexivity|right; right; lia].
Qed.

(** X24.  The Info Extraction stage does not compare the two dates: when
    both parse, it writes a day count that is 1 for a return on the day of
    departure, more than 1 for a later return, and 0 or less for a return
    date before the departure date, without raising and without a note
    about the dates. *)
Theorem num_days_follows_date_order (w : World) (s : TravelPlannerState)
    (e : ExtractedTripInfo) (start_date end_date : date) :
  extractor_chain w (user_info s) = Ok e ->
  strptime (departure_date e) = Some start_date ->
  strptime (return_date e) = Some end_date ->
  exists ui n,
    info_extractor_agent_node w s
    = (Ok (mkUpdate (Some ui) None None None None
             (Some (notes_of s ++ [extracted_note]))),
       notes_of s ++ [extracted_note])
    /\ ui !! "num_days" = Some (VInt n)
    /\ (n = 1 <-> start_date = end_date)
    /\ (1 < n <-> date_before start_date end_date)
    /\ (n <= 0 <-> date_before end_date start_date).
Proof.
  intros He H1 H2.
  pose proof (strptime_valid _ _ H1) as Hv1.
  pose proof (strptime_valid _ _ H2) as Hv2.
  unfold info_extractor_agent_node, recompute_num_days. rewrite He, H1, H2.
  eexists _, _. split; [reflexivity|].
  split; [apply (ExtractedTripInfo_dump_num_days (set_num_days e _))|].
  unfold calculated_num_days.
  destruct (date_trichotomy start_date end_date) as [Hlt|[->|Hgt]].
  - pose proof (toordinal_mono _ _ Hv1 Hv2 Hlt) as Hord.
    repeat split; try lia; try done.
    + intros ->. lia.
    + intros Hrev. pose proof (toordinal_mono _ _ Hv2 Hv1 Hrev). lia.
  - repeat split; try lia; try done.
    + intros Hrev. pose proof (toordinal_mono _ _ Hv2 Hv2 Hrev). lia.
    + intros Hrev. pose proof (toordinal_mono _ _ Hv2 Hv2 Hrev). lia.
  - pose proof (toordinal_mono _ _ Hv2 Hv1 Hgt) as Hord.
    repeat split; try lia; try done.
    + intros ->. lia.
    + intros Hrev. pose proof (toordinal_mono _ _ Hv1 Hv2 Hrev). lia.
Qed.


Lemma num_days_follows_date_order_witness :
  extractor_chain sample_world sample_user_info = Ok sample_extracted
  /\ strptime (departure_date sample_extracted) = Some (Date 2025 6 1)
  /\ strptime (return_date sample_extracted) = Some (Date 2025 6 6)
  /\ exists ui n,
      info_extractor_agent_node sample_world (sample_state sample_user_info)
      = (Ok (mkUpdate (Some ui) None None None None
               (Some (notes_of (sample_state sample_user_info)
                      ++ [extracted_note]))),
         notes_of (sample_state sample_user_info) ++ [extracted_note])
      /\ ui !! "num_days" = Some (VInt n)
      /\ (n = 1 <-> Date 2025 6 1 = Date 2025 6 6)
      /\ (1 < n <-> date_before (Date 2025 6 1) (Date 2025 6 6))
      /\ (n <= 0 <-> date_before (Date 2025 6 6) (Date 2025 6 1)).
Proof.
  exact (conj eq_refl (conj eq_refl (conj eq_refl
    (num_days_follows_date_order sample_world (sample_state sample_user_info)
       sample_extracted (Date 2025 6 1) (Date 2025 6 6)
       eq_refl eq_refl eq_refl)))).
Defined.
